(* ===== verification/_CoqProject ===== *)
-Q . S2P
Prelude.v
Float64.v
Frame.v
Csv.v
Splitter.v
PyFloat.v
Format.v
Stats.v
TTest.v
Analysis.v
Dashboard.v
Layout.v
App.v
Renderer.v
