(* ===== verification/Prelude.v ===== *)
(** * GDP split analysis: a verification development

    The program is [src/interactive_report.py], a Dash dashboard that splits
    a table of countries by the percentile of their 2021 GDP and compares
    health expenditure per person in 2019 and 2021 inside each group.  Its
    algorithmic core is [analyze_split] (lines 21-72).  Around it sit the
    plotting routine [create_plots] (74-168), the Dash app with its layout
    and index template (171-306), the two callbacks
    [update_percentile_value] (309-314) and [update_analysis] (317-405),
    and process start-up (407-428).  A slider move fires both callbacks;
    [update_analysis] calls [create_plots], which calls [analyze_split] on
    the table read at start-up, and the browser shows what they return.

    ** Files, in dependency order, and what each models

    - [Prelude] (this file): the Python exceptions as [pyexc], the monad
      [result] in which a computation returns or raises, boolean
      comparisons on [Q] with their reflection lemmas, the tactic
      [decide_goal], the hint databases [gdp] and [gdp_rw], and generic
      lemmas on sorted lists, nested [Forall]s, [Forall2] and [mapM].
    - [Float64]: executable IEEE binary64 arithmetic on the Standard
      Library's [SpecFloat] and Python's [int()] of a float (Module
      [Binary64]).  [cutoff_raw] is line 26,
      [int(len(data_sorted) * (percentile_threshold / 100))], bit for bit.
    - [Frame]: a data frame is its column names and its rows; a row is a
      [gmap string Q] whose absent keys are the empty CSV cells that pandas
      reads as NaN.  [column] is [df[c]] (raises [KeyError]); [iloc_to] and
      [iloc_from] follow Python's slice rules.
    - [Csv]: line 18, [pd.read_csv("all.csv")], as pandas' C engine reads
      a text: the tokenizer's state machine (Module [Tokenizer]), the
      naming and mangling of the header (Module [Header], a [while] loop
      with fuel), the field-count checks, the missing values and the
      dtype inference of each column (Module [Reader]), and [to_frame],
      the frame the analysis gets when its three columns are numeric.
    - [Splitter]: lines 23-33.  [sort_values] sorts by ['2021_GDP']
      descending with NaN last.  [clamp_cutoff] is line 29.  [split_data]
      returns the two [iloc] slices.  pandas' sort is the class
      [SortValues]: any permutation ordered by the key is an instance.  So
      every theorem holds for pandas' default, unstable, quicksort.
      [merge_sort_values] and [rev_merge_sort_values] are two instances.
    - [PyFloat]: the numpy float64 values the statistics take.  A value is
      NaN, an infinity, or an exact surd [c * sqrt r].  The file gives
      IEEE comparison ([pf_lt], [pf_gt]), numpy's division by zero, and
      equality of denoted values ([≡]) with its [Proper] instances.
    - [Format]: Python's [format(x, '.<d>f')], the texts [:.4f] and
      [:.2f] of the page: [nan], [inf], a sign, and the value times [10^d]
      rounded to the nearest integer, ties to even, printed with stdpp's
      [pretty] and zero padding ([py_format_fixed]); [parse_fixed] reads
      such a text back.
    - [Stats]: lines 49-62, pandas' [mean], [std], [median], [var],
      [kurtosis], [skew], [max], [min], [sum] and [count] over the non-NaN
      cells, with pandas' corner cases ([nanskew], [nankurt],
      [_zero_out_fperr]).  [descriptive_stats] builds the record [stats].
    - [TTest]: line 43, scipy's [ttest_ind(..., nan_policy='omit')] with
      the pooled variance, NaN below two values per sample, and numpy's
      infinities.  Lines 44 and 68 are [one_tailed_pvalue] and
      [significant].  Student's survival function is the class [StudentT],
      whose laws are all the theorems use.
    - [Analysis]: the whole of [analyze_split].  [analyze_group] is the
      loop body (42-70) and [groups_loop] the loop.  The [results] dict is
      an association list with Python's insertion semantics ([dict_set],
      [dict_get]) and its get/set laws.
    - [Dashboard]: [create_plots] threads a [figure] record through
      [add_trace] calls.  [gaussian_kde] gives the two ways scipy's
      constructor raises.  [update_analysis] builds the fifteen outputs of
      the callback ([view]).
    - [Layout]: the app of line 171 ([app]): the component tree of
      [app.layout] ([layout], an [Inductive] of [html.*] elements, the
      [dcc.Slider] and the [dcc.Graph]), the template [index_string], the
      [Output]/[Input] declarations of both callbacks
      ([percentile_value_cb], [update_analysis_cb]) and the tuple
      [update_analysis] returns ([update_analysis_outputs]).  Dash's look-up
      of an id ([find_id]), the properties of a component ([has_prop],
      [accepts]), the positions of a slider and the template check
      ([validate_index]) are modelled from Dash's documentation.
    - [App]: the browser session.  The page's state is the [store] of
      property values keyed ["id.prop"]; [run_callbacks] fires both
      callbacks on a slider value, writing a callback's outputs when it
      returns and nothing when it raises; [slide] is one move of the
      slider, [app_step] the step relation, [reachable] the states from
      the loaded page by stdpp's [rtc], and [run] a session as a list of
      moves.
    - [Renderer]: how Dash propagates a change: [propagate] runs the
      callbacks whose inputs changed, by rounds, until no change is left
      (with fuel), over the app's two registrations [app_callbacks].

    ** What the theorems show

    - Splitter: the groups partition the sorted rows (C1).  Each group has
      at least one row on two rows or more (C2).  The upper group precedes
      the lower one in the GDP order (C3).  Group sizes on the slider's
      values (C32).
    - Float64: for every slider value and up to [max_rows] rows the float
      cutoff is [floor(len*p/100)] or one less (C4), and exactly
      [floor(len*p/100)] unless [len*p] is a multiple of 100 (C5); at a
      multiple it can be one less, as for 180 rows at 35 %
      ([cutoff_raw_floor_divergence]).  A huge percentile such as
      [10**308] makes line 26 raise [OverflowError]
      ([cutoff_raw_overflow]).  Both are evaluated on their inputs.
    - Csv: the tokenizer reads back what a quoting writer wrote, each
      record on its line (C22).  [read_csv] raises [EmptyDataError] on a
      text without records; the C parser's [ParserError] on a record
      longer than the wider of the header and the first data record, or,
      when no record is, on a quoted field left open; and returns a table
      otherwise (C23).  The frame built from the text has the mangled
      header as its distinct columns and one row per data record, and its
      cell of an analysed column is read from the text's field: missing
      exactly for an NA string, otherwise the field's number (C24).  The
      header's mangling loops end and give distinct names, keeping names
      already distinct (C25).
    - Stats: NaN exclusion and [Count] for every statistic but the
      standard error (C26).  [Minimum] and [Maximum] are values of the
      column bounding it, the median lies between them, and [Range] is
      their difference (C27).  Variance, deviation and standard error,
      constant columns included (C28).  The standard error counts NaN
      cells (C29).  No value gives NaN statistics (C30).
    - TTest: the flag implies a larger 2021 mean (C6).  A group whose 2021
      values are all below its 2019 values is never flagged (C7).  Two
      constant integer samples give an infinite statistic of the sign of
      their difference, a p-value of 0, and raise nothing (C31).  A
      flagged group shows a p-value text of at most [0.0500] and an
      unsigned statistic (C18).
    - Format: the text of a finite value reads back as the value rounded
      to [d] decimals, with a sign exactly for negative values (C21).
    - Analysis: the flag of each returned group (C8).  Two distinct keys,
      Top then Bottom (C19).  The exception order of missing columns on
      the slider's domain (C33).  Totality on the slider (C34).  A
      one-row table returns an empty lower group with NaN statistics
      (C35).  Independence from the tie-break of the sort unless a tie
      straddles the cut (C36).
    - Dashboard: what "Yes" means (C9).  A single value in a group's year
      column crashes [create_plots] (C10).  When the figure is built (C11).
      The callback raises nothing once the figure exists (C20).
    - Layout: the callbacks are well typed against the layout: distinct
      ids, no output written by two callbacks, every id and property
      resolves, every returned value goes to a property that displays it
      (C15).
    - App: the session refines an abstract page machine that keeps the
      slider's position and the last position at which the analysis
      returned; every reachable page shows what it promises (C12, each
      slide simulating one abstract move).  When it raises, the page goes
      stale: label and slider move on, figure and tables stay (C13).  On
      every reachable page, stale or not, the outputs come from one
      analysis, so a "Yes" sits under the title of a group whose 2021
      mean is higher (C14).
    - Renderer: whatever changes on the page, propagation over the app's
      two callbacks settles within two rounds (C17, from a rank that every
      callback lowers and [propagate_terminates], by induction on the
      fuel); a slider move settles in exactly two rounds on the state
      [slide] the session model steps to (C16).

    ** Bounds and fuel

    Every loop of the program is structural recursion on a list or on the
    component tree.  Two definitions have fuel.  Dash's propagation
    [propagate], whose number of rounds is not bounded by its arguments:
    fuel above the rank of the changed properties is enough
    ([propagate_terminates]), two rounds for any change on this app's
    page (C17), and two rounds are enough and needed for a slider move
    (C16).  pandas'
    header mangling [mangle_while], whose [while] loop steps through the
    names [old.k] of the header: [length h + 2] rounds are enough, since
    the names it meets are distinct names of the header (C25).  The
    bound [max_rows = 1000] of the cutoff theorems is where the float
    computation is checked exhaustively by [vm_compute] (19 percentiles
    for each of 1001 table sizes).  The spec expects tens to thousands of
    rows, and the data set has one row per country, a few hundred.

    ** Numbers

    Table values are rationals ([Q]).  The statistics are exact.
    Floating-point rounding of them is not modelled, but numpy's special
    values are kept.  The cutoff is the one place where rounding changes
    what the program does, and it is modelled in binary64.  In exact
    arithmetic the variance of equal values is 0.  In floats that holds
    when their float mean is exact, for instance for integers.

    ** Not modelled

    Opening [all.csv] and creating the output directory (I/O): [read_csv]
    is modelled on the text of the file.  The density
    values of the KDE curves ([exp]).  The numerics of Student's
    distribution.  plotly's rendering and how the browser applies styles
    and CSS.  The texts [:.2f] and [:.4f] round the exact values of the
    model, where Python rounds their binary64 approximations; they differ
    only for a value within one rounding of a halfway point.  The browser timer,
    [webbrowser] and the web server of lines 407-428 (process I/O).
    Concurrent requests: the session runs the callbacks of one move before
    the next move.  Column dtypes after reading: [Csv] infers them
    ([infer_column], [int64] for a column of integers without a missing
    value), but the frame of the analysis keeps numbers only, and every
    statistic but [Count] is taken to be a float.  [Minimum], [Maximum],
    [Sum] and [Range] of an [int64] column are numpy integers, which the
    table of lines 377-378 shows without [:.2f]; threading the dtype
    through [Frame], [Stats] and [Dashboard] is left out.  pandas'
    readers other than the C engine's defaults, and columns the analysis
    reads that are not numeric ([to_frame] is then undefined). *)

From stdpp Require Export base list sorting strings gmap.
From Stdlib Require Export QArith Qabs Qminmax Lqa.

(** ** Python exceptions and a result monad *)

(** The exceptions the modelled code can raise: a missing column
    ([KeyError]), an index past the end of a list ([IndexError]), and the
    errors [gaussian_kde] raises on degenerate data, and the exception
    Dash raises when an index template lacks one of its placeholders, and
    the two errors of [pd.read_csv] on a malformed or empty text. *)
Inductive pyexc : Type :=
  | KeyError (key : string)
  | IndexError
  | ValueError (msg : string)
  | OverflowError (msg : string)
  | LinAlgError
  | InvalidIndexException (missing : list string)
  | ParserError (msg : string)
  | EmptyDataError (msg : string).

#[export] Instance pyexc_eq_dec : EqDecision pyexc.
Proof. solve_decision. Defined.

(** A computation that returns a value or raises. *)
Inductive result (A : Type) : Type :=
  | Ok (a : A)
  | Err (e : pyexc).
Arguments Ok {A} a.
Arguments Err {A} e.

#[export] Instance result_ret : MRet result := λ A a, Ok a.
#[export] Instance result_bind : MBind result :=
  λ A B f c, match c with Ok a => f a | Err e => Err e end.
#[export] Instance result_fmap : FMap result :=
  λ A B f c, match c with Ok a => Ok (f a) | Err e => Err e end.

Declare Scope py_scope.
Delimit Scope py_scope with py.
Notation "'raise' e" := (Err e) (at level 10) : py_scope.
Open Scope py_scope.

Create HintDb gdp.
Create Rewrite HintDb gdp_rw.

Lemma result_bind_Ok {A B} (c : result A) (f : A → result B) (b : B) :
  (c ≫= f) = Ok b ↔ ∃ a, c = Ok a ∧ f a = Ok b.
Proof. destruct c; simpl; split; intros; naive_solver. Qed.

Lemma result_bind_Err {A B} (c : result A) (f : A → result B) e :
  c = Err e → (c ≫= f) = Err e.
Proof. by intros ->. Qed.

Lemma result_bind_ret {A B} (a : A) (f : A → result B) :
  (Ok a ≫= f) = f a.
Proof. done. Qed.

(** Whether a computation returns, as a boolean that [vm_compute]
    evaluates on concrete data. *)
Definition is_ok {A} (r : result A) : bool := match r with Ok _ => true | Err _ => false end.

Lemma is_ok_spec {A} (r : result A) : is_ok r = true ↔ ∃ a, r = Ok a.
Proof. destruct r; simpl; naive_solver. Qed.

(** ** Boolean comparisons on [Q] *)

Open Scope Q_scope.

(** Leibniz equality of rationals (the same fraction, not [Qeq]). *)
#[export] Instance Q_eq_dec : EqDecision Q.
Proof. solve_decision. Defined.

Definition Qlt_bool (x y : Q) : bool := negb (Qle_bool y x).

Lemma Qle_boolP x y : reflect (x <= y) (Qle_bool x y).
Proof. apply iff_reflect. symmetry. apply Qle_bool_iff. Qed.

Lemma Qlt_boolP x y : reflect (x < y) (Qlt_bool x y).
Proof.
  unfold Qlt_bool. destruct (Qle_boolP y x); constructor;
    [apply Qle_not_lt | apply Qnot_le_lt]; done.
Qed.

Lemma Qeq_boolP x y : reflect (x == y) (Qeq_bool x y).
Proof. apply iff_reflect. symmetry. apply Qeq_bool_iff. Qed.

(** [qcase] splits on the first boolean comparison of rationals in the
    goal and turns it into its proposition. *)
Ltac qcase :=
  match goal with
  | |- context [Qle_bool ?x ?y] => destruct (Qle_boolP x y)
  | |- context [Qlt_bool ?x ?y] => destruct (Qlt_boolP x y)
  | |- context [Qeq_bool ?x ?y] => destruct (Qeq_boolP x y)
  end.

Lemma Qsquare_nonneg (x : Q) : 0 <= x * x.
Proof.
  destruct (Qlt_le_dec x 0).
  - assert (Hsq : x * x == (- x) * (- x)) by ring. rewrite Hsq.
    apply Qmult_le_0_compat; lra.
  - apply Qmult_le_0_compat; lra.
Qed.

Lemma Qcompare_sub x y : Qcompare (x - y) 0 = Qcompare x y.
Proof. destruct (Qcompare_spec x y), (Qcompare_spec (x - y) 0); try done; lra. Qed.

(** [Qplus] and [Qmult] are commutative and associative up to Leibniz
    equality, not only up to [Qeq]: they never reduce the fraction.  Sums
    of the same values in any order are therefore the same term. *)
Lemma Qplus_comm_L (x y : Q) : x + y = y + x.
Proof. destruct x, y. unfold Qplus. simpl. f_equal; [ring | apply Pos.mul_comm]. Qed.

Lemma Qplus_assoc_L (x y z : Q) : x + (y + z) = x + y + z.
Proof.
  destruct x, y, z. unfold Qplus. simpl. f_equal;
    [rewrite !Pos2Z.inj_mul; ring | apply Pos.mul_assoc].
Qed.

Lemma Qplus_left_comm_L (x y z : Q) : x + (y + z) = y + (x + z).
Proof. by rewrite !Qplus_assoc_L, (Qplus_comm_L x y). Qed.

(** ** Sorted lists modulo an equivalence *)

(** Two lists sorted by a preorder that are permutations of each other
    agree pointwise once every element is mapped to a canonical
    representative of its class: the ties of the order are the only
    freedom a sort has.  This is what makes the split and the median
    independent of how the sort breaks ties.  [canon] maps the sorted
    type into a type ordered by [RB], on whose canonical images [RB] is
    antisymmetric for Leibniz equality. *)
Section sorted_canon.
Context {A B : Type} (RA : relation A) (RB : relation B) `{!Transitive RB}.
Context (canon : A → B).
Hypothesis canon_mono : ∀ x y, RA x y → RB (canon x) (canon y).
Hypothesis canon_antisym : ∀ x y,
  RB (canon x) (canon y) → RB (canon y) (canon x) → canon x = canon y.

Lemma Sorted_canon_unique (l1 l2 : list A) :
  Sorted RA l1 → Sorted RA l2 → l1 ≡ₚ l2 → canon <$> l1 = canon <$> l2.
Proof.
  intros H1 H2 E. apply (Sorted_unique_strong RB).
  - intros ?? [a1 [-> _]]%list_elem_of_fmap [a2 [-> _]]%list_elem_of_fmap.
    apply canon_antisym.
  - by apply (Sorted_fmap _ RA).
  - by apply (Sorted_fmap _ RA).
  - by rewrite E.
Qed.
End sorted_canon.

(** ** Filters that keep or drop a whole list *)

Section filter_all.
Context {A : Type} (P : A → Prop) `{!∀ x, Decision (P x)}.

Lemma filter_Forall_id (l : list A) : Forall P l → filter P l = l.
Proof. induction 1; [done|]. rewrite filter_cons_True by done. by f_equal. Qed.

Lemma filter_Forall_nil (l : list A) : Forall (λ x, ¬ P x) l → filter P l = [].
Proof. induction 1; [done|]. by rewrite filter_cons_False. Qed.
End filter_all.

(** A property of all pairs [x ∈ l], [y ∈ f x], as nested [Forall]s,
    which [decide] evaluates on concrete lists. *)
Lemma Forall_nested {A B} (f : A → list B) (P : A → B → Prop) (l : list A) :
  Forall (λ x, Forall (P x) (f x)) l → ∀ x y, x ∈ l → y ∈ f x → P x y.
Proof. rewrite Forall_forall. intros H x y Hx. specialize (H x Hx). rewrite Forall_forall in H. apply H. Qed.

Lemma Forall_pairs {A B} (P : A → B → Prop) (l1 : list A) (l2 : list B) :
  Forall (λ x, Forall (P x) l2) l1 → ∀ x y, x ∈ l1 → y ∈ l2 → P x y.
Proof. apply (Forall_nested (λ _, l2)). Qed.

(** [Forall2_impl] for a step that needs the left element in the list. *)
Lemma Forall2_impl_elem {A B} (P Q : A → B → Prop) l k :
  Forall2 P l k → (∀ x y, x ∈ l → P x y → Q x y) → Forall2 Q l k.
Proof.
  induction 1 as [|x y l k Hxy _ IH]; intros HPQ; constructor;
    [apply HPQ; [set_solver|done] | apply IH; intros; apply HPQ; [set_solver|done]].
Qed.

(** [qinv_consts] turns the divisions by numerals of the goal into
    products by their inverses, which [lra] reads as constants. *)
Ltac qinv_consts :=
  unfold Qdiv in *;
  repeat match goal with
  | |- context [Qinv (Qmake ?n ?d)] =>
      let c := eval compute in (Qinv (Qmake n d)) in change (Qinv (Qmake n d)) with c
  end.

(** [decide_goal] proves a decidable proposition on concrete data by
    evaluating its decision procedure. *)
Ltac decide_goal := apply (bool_decide_unpack _); vm_compute; exact I.

(** ** [mapM] in the [result] monad *)

Section mapM_result.
Context {A B : Type} (f : A → result B).

Lemma mapM_result_cons x l :
  mapM f (x :: l) = (y ← f x; ys ← mapM f l; Ok (y :: ys)).
Proof. done. Qed.

(** [mapM f l] returns exactly when [f] returns on every element. *)
Lemma mapM_result_ok l : (∃ ys, mapM f l = Ok ys) ↔ ∀ x, x ∈ l → ∃ y, f x = Ok y.
Proof.
  induction l as [|x l IH]; simpl.
  - split; [intros _ x Hx; by apply not_elem_of_nil in Hx|by eexists].
  - setoid_rewrite elem_of_cons. destruct (f x) as [y|e] eqn:Ef; simpl.
    + destruct (mapM f l) as [ys|e]; simpl.
      * split; [|by eexists]. intros _ z [->|Hz]; [by eexists|]. apply IH; [by eexists|done].
      * split; [by intros []|]. intros Hall. destruct IH as [_ IH].
        destruct IH as [ys ?]; [intros; apply Hall; by right|done].
    + split; [by intros []|]. intros Hall. destruct (Hall x) as [y Hy]; [by left|congruence].
Qed.

(** The exception of [mapM f l] is the exception of [f] on an element. *)
Lemma mapM_result_err l e : mapM f l = Err e → ∃ x, x ∈ l ∧ f x = Err e.
Proof.
  induction l as [|x l IH]; simpl; [done|].
  destruct (f x) as [y|e'] eqn:Ef; simpl.
  - destruct (mapM f l) as [ys|e']; simpl; [done|]. intros [= ->].
    destruct IH as (z & Hz & Hfz); [done|]. exists z. split; [by right|done].
  - intros [= ->]. exists x. split; [by left|done].
Qed.
End mapM_result.
