(* ===== verification/Float64.v ===== *)
(** * Binary64 arithmetic and the percentile cutoff

    Line 26 of [src/interactive_report.py] computes
    [int(len(data_sorted) * (percentile_threshold / 100))]: a Python true
    division of two ints (a correctly rounded binary64 quotient), a product
    of an int by a float (the int is first converted to binary64) and
    Python's [int()] of a float, which truncates toward zero and raises on
    NaN and infinities.  Python divides two ints exactly and rounds once;
    the model converts [p] to binary64 first, which is the same for
    [|p| <= 2 ^ 53], so for every percentile a slider or a caller passes
    in practice.  This file models that expression with the
    Standard Library's executable IEEE-754 specification [SpecFloat] at
    precision 53 and maximal exponent 1024, and proves what it computes on
    the slider's percentiles for tables of up to [max_rows] rows. *)

From S2P Require Import Prelude.
From Stdlib Require Import SpecFloat.

Module Binary64.
Definition prec : Z := 53.
Definition emax : Z := 1024.

(** A Python [float]. *)
Definition float := spec_float.

(** [float(z)] for a Python int: rounded to nearest, ties to even. *)
Definition of_Z (z : Z) : float := binary_normalize prec emax z 0 false.

Definition div : float → float → float := SFdiv prec emax.
Definition mul : float → float → float := SFmul prec emax.

(** Python's [int(x)] of a float: truncation toward zero; [int(nan)]
    raises [ValueError], [int(inf)] raises [OverflowError]. *)
Definition py_int (x : float) : result Z :=
  match x with
  | S754_zero _ => Ok 0%Z
  | S754_finite s m e =>
      let a := if (0 <=? e)%Z then Z.shiftl (Zpos m) e
               else Z.shiftr (Zpos m) (- e) in
      Ok (if s then (- a)%Z else a)
  | S754_infinity _ => raise (OverflowError "cannot convert float infinity to integer")
  | S754_nan => raise (ValueError "cannot convert float NaN to integer")
  end.
End Binary64.

(** [int(len(data_sorted) * (percentile_threshold / 100))] before the
    clamp of line 29. *)
Definition cutoff_raw (n : nat) (p : Z) : result Z :=
  Binary64.py_int
    (Binary64.mul (Binary64.of_Z (Z.of_nat n))
                  (Binary64.div (Binary64.of_Z p) (Binary64.of_Z 100))).

(** The values the percentile slider of the layout can take:
    [dcc.Slider(min=5, max=95, step=5)]. *)
Definition slider_values : list Z :=
  (λ k, 5 * Z.of_nat k)%Z <$> seq 1 19.

(** The cutoff as the spec states it: [floor(len * percentile / 100)]. *)
Definition floor_cutoff (n : nat) (p : Z) : Z := (Z.of_nat n * p / 100)%Z.

(** ** A decision procedure for the cutoff on bounded tables *)

(** The largest table the bounded theorems cover.  The spec expects
    "tens to thousands of rows"; the data set of the program, one row per
    country, has a few hundred. *)
Definition max_rows : nat := 1000.

Definition cutoff_close_b (n : nat) (p : Z) (r : result Z) : bool :=
  match r with
  | Ok c => (floor_cutoff n p - 1 <=? c)%Z && (c <=? floor_cutoff n p)%Z
  | Err _ => false
  end.

Fixpoint nondecreasing_b (rs : list (result Z)) : bool :=
  match rs with
  | Ok c :: ((Ok c' :: _) as rs') => (c <=? c')%Z && nondecreasing_b rs'
  | [Ok _] | [] => true
  | _ => false
  end.

(** The check runs the float computation once per table size and
    percentile. *)
Definition cutoff_check (N : nat) : bool :=
  forallb (λ n,
    let cs := cutoff_raw n <$> slider_values in
    forallb (λ pr, cutoff_close_b n pr.1 pr.2) (zip slider_values cs)
    && nondecreasing_b cs) (seq 0 (S N)).

(** The cutoff is exactly the spec's floor when [len * p] is not a
    multiple of 100. *)
Definition cutoff_exact_b (n : nat) (p : Z) : bool :=
  ((Z.of_nat n * p) mod 100 =? 0)%Z ||
  match cutoff_raw n p with Ok c => (c =? floor_cutoff n p)%Z | Err _ => false end.

Definition exact_check (N : nat) : bool :=
  forallb (λ n, forallb (cutoff_exact_b n) slider_values) (seq 0 (S N)).

Lemma cutoff_close_b_sound n p r :
  cutoff_close_b n p r = true →
  ∃ c, r = Ok c ∧ (floor_cutoff n p - 1 <= c <= floor_cutoff n p)%Z.
Proof.
  destruct r as [c|]; simpl; [|done].
  rewrite andb_true_iff, !Z.leb_le. eauto.
Qed.

Lemma nondecreasing_b_sound rs i j c c' :
  nondecreasing_b rs = true → (i ≤ j)%nat →
  rs !! i = Some (Ok c) → rs !! j = Some (Ok c') → (c <= c')%Z.
Proof.
  revert i j c. induction rs as [|r rs IH]; intros i j c Hb Hij Hi Hj; [done|].
  destruct i as [|i], j as [|j]; simpl in Hi, Hj; simplify_eq; [lia| |lia|].
  - destruct rs as [|[c1|] rs]; simpl in Hb; [done| |done].
    apply andb_true_iff in Hb as [?%Z.leb_le Hb].
    assert (c1 <= c')%Z by (apply (IH 0%nat j); try done; lia). lia.
  - destruct r as [c0|]; [|done].
    destruct rs as [|[c1|] rs]; simpl in Hb; [done| |done].
    apply andb_true_iff in Hb as [_ Hb]. apply (IH i j); try done; lia.
Qed.

Lemma cutoff_check_at N n :
  cutoff_check N = true → (n ≤ N)%nat →
  (∀ p, p ∈ slider_values → cutoff_close_b n p (cutoff_raw n p) = true) ∧
  nondecreasing_b (cutoff_raw n <$> slider_values) = true.
Proof.
  intros Hc Hn. unfold cutoff_check in Hc. rewrite forallb_forall in Hc.
  assert (n ∈ seq 0 (S N)) as Hin by (apply elem_of_seq; lia).
  apply list_elem_of_In, Hc, andb_true_iff in Hin as [Hclose Hmono].
  split; [|done]. intros p Hp. rewrite forallb_forall in Hclose.
  apply list_elem_of_lookup in Hp as [i Hi].
  apply (Hclose (p, cutoff_raw n p)), list_elem_of_In, list_elem_of_lookup.
  exists i. by rewrite lookup_zip_with, list_lookup_fmap, Hi.
Qed.

Lemma cutoff_check_sound N n p :
  cutoff_check N = true → (n ≤ N)%nat → p ∈ slider_values →
  ∃ c, cutoff_raw n p = Ok c ∧ (floor_cutoff n p - 1 <= c <= floor_cutoff n p)%Z.
Proof.
  intros Hc Hn Hp. apply cutoff_close_b_sound. by apply (cutoff_check_at N).
Qed.

Lemma slider_values_lookup p :
  p ∈ slider_values → ∃ i, slider_values !! i = Some p ∧ p = (5 * (Z.of_nat i + 1))%Z.
Proof.
  unfold slider_values. intros (k & -> & Hk)%list_elem_of_fmap.
  apply elem_of_seq in Hk. exists (k - 1)%nat. split; [|lia].
  rewrite list_lookup_fmap, lookup_seq_lt by lia. simpl. do 2 f_equal. lia.
Qed.

Lemma cutoff_check_mono N n p p' c c' :
  cutoff_check N = true → (n ≤ N)%nat →
  p ∈ slider_values → p' ∈ slider_values → (p <= p')%Z →
  cutoff_raw n p = Ok c → cutoff_raw n p' = Ok c' → (c <= c')%Z.
Proof.
  intros Hc Hn (i & Hi & ->)%slider_values_lookup (j & Hj & ->)%slider_values_lookup Hp Hcp Hcp'.
  destruct (cutoff_check_at N n) as [_ Hmono]; [done..|].
  apply (nondecreasing_b_sound _ i j c c' Hmono); [lia|..];
    rewrite list_lookup_fmap; [rewrite Hi | rewrite Hj]; simpl; congruence.
Qed.

Lemma cutoff_check_max_rows : cutoff_check max_rows = true.
Proof. vm_compute. reflexivity. Qed.

Lemma exact_check_max_rows : exact_check max_rows = true.
Proof. vm_compute. reflexivity. Qed.

Lemma exact_check_sound N n p :
  exact_check N = true → (n ≤ N)%nat → p ∈ slider_values → ((Z.of_nat n * p) mod 100 ≠ 0)%Z →
  cutoff_raw n p = Ok (floor_cutoff n p).
Proof.
  intros Hc Hn Hp Hm. unfold exact_check in Hc. rewrite forallb_forall in Hc.
  assert (Hin : n ∈ seq 0 (S N)) by (apply elem_of_seq; lia).
  apply list_elem_of_In, Hc in Hin. rewrite forallb_forall in Hin.
  apply list_elem_of_In, Hin in Hp. unfold cutoff_exact_b in Hp.
  apply orb_true_iff in Hp as [Hz%Z.eqb_eq | Hp]; [done|].
  destruct (cutoff_raw n p) as [c|]; [|done]. by apply Z.eqb_eq in Hp as ->.
Qed.

(** ** The cutoff on the slider's percentiles *)

(** C4: for every percentile the slider offers and every table of at most
    [max_rows] rows, [int(len * (p / 100))] raises nothing and is the
    spec's [floor(len * p / 100)] or one less: binary64 rounding can only
    lose the last row of the upper group. *)
Theorem cutoff_raw_slider_bounds (n : nat) (p : Z) :
  (n ≤ max_rows)%nat → p ∈ slider_values →
  ∃ c, cutoff_raw n p = Ok c ∧ (floor_cutoff n p - 1 <= c <= floor_cutoff n p)%Z.
Proof. apply cutoff_check_sound, cutoff_check_max_rows. Qed.

Lemma cutoff_raw_slider_bounds_witness :
  ∃ c, cutoff_raw 180 35 = Ok c ∧
       (floor_cutoff 180 35 - 1 <= c <= floor_cutoff 180 35)%Z.
Proof.
  apply cutoff_raw_slider_bounds.
  - unfold max_rows. lia.
  - apply list_elem_of_lookup. exists 6%nat. reflexivity.
Defined.

(** The divergence from the spec's formula: with 180 rows and the slider
    at 35 %, [180 * 0.35] evaluates to [62.99999999999999], so the code
    puts 62 rows in the upper group where [floor(180*35/100) = 63]. *)
Lemma cutoff_raw_floor_divergence :
  cutoff_raw 180 35 = Ok 62%Z ∧ floor_cutoff 180 35 = 63%Z.
Proof. split; vm_compute; reflexivity. Qed.

(** C5: binary64 rounding changes the cutoff only where the spec's
    [len * p / 100] is an integer: for every percentile of the slider and
    every table of at most [max_rows] rows, when [len * p] is not a
    multiple of 100, [int(len * (p / 100))] is exactly
    [floor(len * p / 100)].  (At a multiple it may be one less, as for
    180 rows at 35 %.) *)
Theorem cutoff_raw_exact_off_multiples (n : nat) (p : Z) :
  (n ≤ max_rows)%nat → p ∈ slider_values → ((Z.of_nat n * p) mod 100 ≠ 0)%Z →
  cutoff_raw n p = Ok (floor_cutoff n p).
Proof. apply exact_check_sound, exact_check_max_rows. Qed.

Lemma cutoff_raw_exact_off_multiples_witness :
  (181 ≤ max_rows)%nat ∧ ((Z.of_nat 181 * 35) mod 100 ≠ 0)%Z ∧
  cutoff_raw 181 35 = Ok (floor_cutoff 181 35).
Proof.
  split; [unfold max_rows; lia|]. split; [vm_compute; discriminate|].
  apply cutoff_raw_exact_off_multiples; [unfold max_rows; lia | | vm_compute; discriminate].
  apply list_elem_of_lookup. exists 6%nat. reflexivity.
Defined.

(** A percentile far beyond the slider's, which a caller of
    [analyze_split] can pass, makes line 26 raise [OverflowError]: with
    1000 rows and [p = 10 ** 308], [p / 100] is finite but
    [1000 * 1e306] is the binary64 infinity, and [int()] of it raises. *)
Lemma cutoff_raw_overflow :
  cutoff_raw 1000 (10 ^ 308) = Err (OverflowError "cannot convert float infinity to integer").
Proof. vm_compute. reflexivity. Qed.
