(* ===== verification/Frame.v ===== *)
(** * The pandas objects of the core

    A [DataFrame] read by [pd.read_csv] is its header, the list of column
    names, and its rows.  A row maps a column name to the rational value of
    its cell; an empty cell, which pandas reads as NaN, is a key absent
    from the row.  [df[c]] selects a column as a Series of cells (a cell is
    [option Q], [None] being NaN) and raises [KeyError] when [c] is not a
    column; [iloc[:k]] and [iloc[k:]] slice the rows with Python's slice
    rules.  The well-formedness invariant of a frame, that every row only
    has keys among the columns, holds of what [read_csv] builds (the
    frame [to_frame] of [Csv] makes of the table read) and is kept by
    sorting and slicing. *)

From S2P Require Import Prelude.

(** A row of the table. *)
Abbreviation row := (gmap string Q).

(** A cell of a Series: [None] is NaN. *)
Abbreviation cell := (option Q).

Record frame : Type := Frame {
  columns : list string;
  rows : list row
}.

(** The column names the program uses (lines 23, 43, 48). *)
Definition gdp_col : string := "2021_GDP".
Definition he2019_col : string := "2019_HE".
Definition he2021_col : string := "2021_HE".

(** [df[c]]: the column as a Series of cells, or [KeyError]. *)
Definition column (df : frame) (c : string) : result (list cell) :=
  if decide (c ∈ columns df) then Ok ((λ r : row, r !! c) <$> rows df)
  else raise (KeyError c).

(** [series.dropna()]: the values of the cells that are not NaN, in order. *)
Definition dropna (s : list cell) : list Q := omap id s.

(** ** Python slices *)

(** The index [k] of a slice bound, resolved against a sequence of length
    [n] as Python does: a negative bound counts from the end, and the
    result is clamped to [0, n]. *)
Definition slice_index (n : nat) (k : Z) : nat :=
  if (k <? 0)%Z then Z.to_nat (Z.max 0 (Z.of_nat n + k))
  else Z.to_nat (Z.min k (Z.of_nat n)).

(** [l[:k]] and [l[k:]]. *)
Definition py_slice_to {A} (k : Z) (l : list A) : list A :=
  take (slice_index (length l) k) l.
Definition py_slice_from {A} (k : Z) (l : list A) : list A :=
  drop (slice_index (length l) k) l.

(** [df.iloc[:k]] and [df.iloc[k:]]: the same columns, a slice of rows. *)
Definition iloc_to (k : Z) (df : frame) : frame :=
  Frame (columns df) (py_slice_to k (rows df)).
Definition iloc_from (k : Z) (df : frame) : frame :=
  Frame (columns df) (py_slice_from k (rows df)).

(** ** Well-formed frames *)

Definition row_wf (cols : list string) (r : row) : Prop :=
  ∀ c, is_Some (r !! c) → c ∈ cols.

Definition frame_wf (df : frame) : Prop := Forall (row_wf (columns df)) (rows df).

(** ** Lemmas *)

Lemma slice_index_le n k : (slice_index n k ≤ n)%nat.
Proof. unfold slice_index. destruct (Z.ltb_spec k 0); lia. Qed.

Lemma slice_index_nonneg n (k : Z) :
  (0 <= k <= Z.of_nat n)%Z → slice_index n k = Z.to_nat k.
Proof. intros. unfold slice_index. destruct (Z.ltb_spec k 0); lia. Qed.

Lemma py_slice_app {A} (k : Z) (l : list A) : py_slice_to k l ++ py_slice_from k l = l.
Proof. apply take_drop. Qed.

Lemma length_py_slice_to {A} (k : Z) (l : list A) :
  length (py_slice_to k l) = slice_index (length l) k.
Proof. unfold py_slice_to. rewrite length_take. pose proof (slice_index_le (length l) k). lia. Qed.

Lemma length_py_slice_from {A} (k : Z) (l : list A) :
  length (py_slice_from k l) = (length l - slice_index (length l) k)%nat.
Proof. unfold py_slice_from. by rewrite length_drop. Qed.

Lemma column_ok df c : c ∈ columns df → column df c = Ok ((λ r : row, r !! c) <$> rows df).
Proof. intros. unfold column. by rewrite decide_True. Qed.

Lemma column_err df c : c ∉ columns df → column df c = Err (KeyError c).
Proof. intros. unfold column. by rewrite decide_False. Qed.

(** Every cell is NaN or a value that [dropna] keeps. *)
Lemma length_dropna (s : list cell) :
  (length (dropna s) + length (filter (λ o : cell, o = None) s) = length s)%nat.
Proof.
  induction s as [|o s IH]; [done|]. rewrite filter_cons.
  destruct o; simpl; try case_decide; simplify_eq/=; lia.
Qed.

Lemma dropna_app s1 s2 : dropna (s1 ++ s2) = dropna s1 ++ dropna s2.
Proof. apply omap_app. Qed.

Lemma dropna_Permutation s1 s2 : s1 ≡ₚ s2 → dropna s1 ≡ₚ dropna s2.
Proof. intros E. unfold dropna. by rewrite E. Qed.

Lemma elem_of_dropna x s : x ∈ dropna s ↔ Some x ∈ s.
Proof. unfold dropna. rewrite list_elem_of_omap. naive_solver. Qed.

Lemma iloc_wf k df : frame_wf df → frame_wf (iloc_to k df) ∧ frame_wf (iloc_from k df).
Proof.
  unfold frame_wf, iloc_to, iloc_from, py_slice_to, py_slice_from; simpl.
  intros H. split; [by apply Forall_take | by apply Forall_drop].
Qed.

#[export] Hint Resolve slice_index_le py_slice_app : gdp.
#[export] Hint Rewrite @length_py_slice_to @length_py_slice_from dropna_app : gdp_rw.

Lemma fmap_py_slice_to {A B} (f : A → B) k (l : list A) :
  f <$> py_slice_to k l = py_slice_to k (f <$> l).
Proof. unfold py_slice_to. by rewrite fmap_take, length_fmap. Qed.

Lemma fmap_py_slice_from {A B} (f : A → B) k (l : list A) :
  f <$> py_slice_from k l = py_slice_from k (f <$> l).
Proof. unfold py_slice_from. by rewrite fmap_drop, length_fmap. Qed.

(** [slice_cases] resolves the bounds of the Python slices in the goal
    into their two cases, a negative bound or not. *)
Ltac slice_cases :=
  unfold py_slice_to, py_slice_from, slice_index in *;
  repeat match goal with
  | |- context [(?k <? 0)%Z] => destruct (Z.ltb_spec k 0)
  end.

(** ** Sample tables

    Rows as [read_csv] builds them, used to run the model on concrete
    input: [mk_row] leaves out the empty (NaN) cells. *)

Definition mk_row (cells : list (string * option Q)) : row :=
  list_to_map (omap (λ cv, (λ v, (cv.1, v)) <$> cv.2) cells).

Definition sample_columns : list string := [gdp_col; he2019_col; he2021_col].

Definition sample_a : row := mk_row [(gdp_col, Some 300); (he2019_col, Some 10); (he2021_col, Some 12)].
Definition sample_b : row := mk_row [(gdp_col, Some 100); (he2019_col, Some 8); (he2021_col, Some 9)].
Definition sample_c : row := mk_row [(gdp_col, Some 200); (he2019_col, Some 5); (he2021_col, Some 7)].
Definition sample_d : row := mk_row [(gdp_col, None); (he2019_col, Some 4); (he2021_col, None)].

(** Four countries, one of them without a GDP and with no 2021 value. *)
Definition sample_frame : frame :=
  Frame sample_columns [sample_b; sample_d; sample_a; sample_c].

(** The spec's table of ten rows with GDP 100, 90, ..., 10. *)
Definition sample_ten : frame :=
  Frame [gdp_col]
    ((λ k : nat, mk_row [(gdp_col, Some (inject_Z (Z.of_nat (10 * (10 - k))))) ]) <$> seq 0 10).

(** Two pairs of countries of equal GDP: sorts that break ties
    differently order each pair differently. *)
Definition sample_tied : frame := Frame sample_columns
  [mk_row [(gdp_col, Some 5); (he2019_col, Some 1); (he2021_col, Some 2)];
   mk_row [(gdp_col, Some 1); (he2019_col, Some 2); (he2021_col, Some 2)];
   mk_row [(gdp_col, Some 5); (he2019_col, Some 3); (he2021_col, Some 4)];
   mk_row [(gdp_col, Some 1); (he2019_col, Some 6); (he2021_col, Some 7)]].

(** Three countries, two of them of equal GDP, which a cut after the
    first row separates. *)
Definition sample_tie_cut : frame := Frame sample_columns
  [mk_row [(gdp_col, Some 5); (he2019_col, Some 1); (he2021_col, Some 2)];
   mk_row [(gdp_col, Some 5); (he2019_col, Some 3); (he2021_col, Some 4)];
   mk_row [(gdp_col, Some 1); (he2019_col, Some 2); (he2021_col, Some 2)]].
