(* ===== verification/Csv.v ===== *)
(** * Reading the table: [pd.read_csv("all.csv")] (line 18)

    The program loads its table once, with [pd.read_csv] and its default
    arguments: separator [,], the double quote as quote character, doubled
    quotes inside a quoted field, lines ended by [\n], [\r\n] or [\r],
    blank lines skipped, the default NA strings, and the dtype of every
    column inferred from its fields.  This file models that reader as
    pandas' C engine implements it (pandas 2), in three Modules:

    - [Tokenizer]: the state machine of [tokenize_bytes]
      (pandas/_libs/src/parser/tokenizer.c), one [step] per character,
      with its states [START_RECORD], [START_FIELD], [IN_FIELD],
      [IN_QUOTED_FIELD], [QUOTE_IN_QUOTED_FIELD], [EAT_CRNL] and
      [WHITESPACE_LINE]; [tokenize] returns the records, each with the
      line that ends it, and the row where a quoted field was left open.
      [render_csv] is a writer that quotes a field when the tokenizer
      needs it; [tokenize_render] shows that the tokenizer reads back what
      it wrote.
    - [Header]: the names of the columns ([TextReader._get_header],
      pandas/_libs/parsers.pyx): an empty name becomes [Unnamed: i], and
      a repeated name is mangled to [name.k] by two nested loops, the
      inner one a [while] with fuel ([mangle_while]).  [header_names_spec]
      shows that the loops end within [length h + 2] rounds and give
      distinct names.
    - [Reader]: [read_csv] puts it together: the records after the first
      data record are checked against it ([check_rows], the C parser's
      "Expected w fields in line n, saw m"), a longer first data record
      makes its leading fields an index, and each column is converted by
      the first of [int64], [float64], [bool] and [object] that reads all
      its fields ([infer_column]), a field in [na_values] being missing.
      [read_csv_errors] gives every exception [read_csv] raises and when.
      [to_frame] is the bridge to the frame of [Frame]: it keeps the
      numbers of the numeric columns, and is defined when the three
      analysed columns are numeric and finite; [read_csv_frame] shows the
      frame well formed and its cells the numbers of the text.

    A number is read to its exact decimal value, as the rest of the
    development reads values as rationals; an integer outside [int64]
    (where pandas tries [uint64]) is read as a [float64] value. *)

From Stdlib Require Import Ascii.
From stdpp Require Import pretty.
From S2P Require Import Prelude Frame.

Module Tokenizer.

(** ** Characters *)

Definition nl : ascii := "010".
Definition cr : ascii := "013".
Definition quote : ascii := "034".
Definition delim : ascii := ",".

(** [IS_WHITESPACE]: a space or a tab. *)
Definition is_ws (c : ascii) : bool := bool_decide (c = " "%char ∨ c = "009"%char).

(** A character that makes the writer quote its field. *)
Definition special (c : ascii) : bool := bool_decide (c = delim ∨ c = quote ∨ c = nl ∨ c = cr).

(** ** The state machine *)

Inductive tstate : Type :=
  | StartRecord | StartField | InField | InQuoted | QuoteInQuoted | EatCrnl | EatCrnlNop
  | WhitespaceLine.

#[export] Instance tstate_eq_dec : EqDecision tstate.
Proof. solve_decision. Defined.

(** The parser: its state, the characters of the current field (last
    first), the fields of the current record (last first), the number of
    lines ended or skipped ([file_lines]), and the records read, each
    with the line it ends (last first). *)
Record tok : Type := Tok {
  t_state : tstate;
  t_field : list ascii;
  t_record : list string;
  t_lines : nat;
  t_records : list (nat * list string)
}.

Definition tok_init : tok := Tok StartRecord [] [] 0 [].

(** [PUSH_CHAR], moving to [st]. *)
Definition push (st : tstate) (c : ascii) (t : tok) : tok :=
  Tok st (c :: t_field t) (t_record t) (t_lines t) (t_records t).

Definition goto (st : tstate) (t : tok) : tok :=
  Tok st (t_field t) (t_record t) (t_lines t) (t_records t).

(** [END_FIELD]: the field's characters become a field of the record. *)
Definition fields_ended (t : tok) : list string :=
  String.string_of_list_ascii (rev (t_field t)) :: t_record t.

Definition end_field (t : tok) : tok :=
  Tok StartField [] (fields_ended t) (t_lines t) (t_records t).

(** [END_FIELD] then [END_LINE]: the record is read. *)
Definition end_line (st : tstate) (t : tok) : tok :=
  Tok st [] [] (S (t_lines t)) ((S (t_lines t), rev (fields_ended t)) :: t_records t).

(** A blank line, skipped ([skip_empty_lines]). *)
Definition skip_line (st : tstate) (t : tok) : tok :=
  Tok st [] [] (S (t_lines t)) (t_records t).

Definition in_field (t : tok) (c : ascii) : tok :=
  if decide (c = nl) then end_line StartRecord t
  else if decide (c = cr) then end_line EatCrnl t
  else if decide (c = delim) then end_field t
  else push InField c t.

Definition start_field (t : tok) (c : ascii) : tok :=
  if decide (c = nl) then end_line StartRecord t
  else if decide (c = cr) then end_line EatCrnl t
  else if decide (c = quote) then goto InQuoted t
  else if decide (c = delim) then end_field t
  else push InField c t.

Definition start_record (t : tok) (c : ascii) : tok :=
  if decide (c = nl) then skip_line StartRecord t
  else if decide (c = cr) then skip_line EatCrnlNop t
  else if is_ws c then push WhitespaceLine c t
  else start_field t c.

(** One character.  A line of blanks only is skipped; otherwise its
    blanks are the start of its first field, read in [IN_FIELD].  After a
    [\r] that ends a record ([EAT_CRNL]) a [\n] is swallowed, a separator
    is swallowed and starts a field of the next record, and any other
    character is read again at the start of a record; after a [\r] that
    ends a blank line ([EAT_CRNL_NOP]) a [\n] or a separator is
    swallowed.  The model ends the record at the [\r] itself, where the
    C code ends it at the next character: the records are the same. *)
Definition step (t : tok) (c : ascii) : tok :=
  match t_state t with
  | StartRecord => start_record t c
  | EatCrnl =>
      if decide (c = nl) then goto StartRecord t
      else if decide (c = delim) then goto StartField t
      else start_record t c
  | EatCrnlNop => if decide (c = nl ∨ c = delim) then goto StartRecord t else start_record t c
  | WhitespaceLine =>
      if decide (c = nl) then skip_line StartRecord t
      else if decide (c = cr) then skip_line EatCrnlNop t
      else if is_ws c then push WhitespaceLine c t
      else in_field t c
  | StartField => start_field t c
  | InField => in_field t c
  | InQuoted => if decide (c = quote) then goto QuoteInQuoted t else push InQuoted c t
  | QuoteInQuoted =>
      if decide (c = quote) then push InQuoted c t
      else if decide (c = delim) then end_field t
      else if decide (c = nl) then end_line StartRecord t
      else if decide (c = cr) then end_line EatCrnl t
      else push InField c t
  end.

(** The end of the text: an open record is ended, an open quoted field is
    the error "EOF inside string starting at row n". *)
Definition finish (t : tok) : list (nat * list string) * option nat :=
  match t_state t with
  | StartRecord | EatCrnl | EatCrnlNop | WhitespaceLine => (rev (t_records t), None)
  | InQuoted => (rev (t_records t), Some (t_lines t))
  | StartField | InField | QuoteInQuoted => (rev (t_records (end_line StartRecord t)), None)
  end.

Definition tokenize (cs : list ascii) : list (nat * list string) * option nat :=
  finish (foldl step tok_init cs).

(** ** A writer *)

(** A field is quoted when it holds a special character, or when it is
    the only field of its record and blank, which would read as a blank
    line. *)
Definition needs_quotes (single : bool) (f : list ascii) : bool :=
  existsb special f || (single && forallb is_ws f).

Fixpoint escape (f : list ascii) : list ascii :=
  match f with
  | [] => []
  | c :: f' => if decide (c = quote) then quote :: quote :: escape f' else c :: escape f'
  end.

Definition render_field (single : bool) (s : string) : list ascii :=
  let f := String.list_ascii_of_string s in
  if needs_quotes single f then quote :: escape f ++ [quote] else f.

Definition render_record (r : list string) : list ascii :=
  match r with
  | [] => [nl]
  | [s] => render_field true s ++ [nl]
  | s :: ss => render_field false s ++ concat (map (λ g, delim :: render_field false g) ss) ++ [nl]
  end.

Definition render_csv (recs : list (list string)) : list ascii := concat (map render_record recs).


(** ** Lemmas on the tokenizer *)

Lemma special_false c : special c = false → c ≠ delim ∧ c ≠ quote ∧ c ≠ nl ∧ c ≠ cr.
Proof. unfold special. rewrite bool_decide_eq_false. tauto. Qed.

Lemma ws_not_special c : is_ws c = true → special c = false.
Proof. unfold is_ws. rewrite bool_decide_eq_true. by intros [-> | ->]. Qed.

Lemma in_field_plain t c : special c = false → in_field t c = push InField c t.
Proof. intros (? & ? & ? & ?)%special_false. unfold in_field. by rewrite !decide_False. Qed.

Lemma start_field_plain t c : special c = false → start_field t c = push InField c t.
Proof. intros (? & ? & ? & ?)%special_false. unfold start_field. by rewrite !decide_False. Qed.

Lemma is_ws_delim : is_ws delim = false.
Proof. reflexivity. Qed.

Lemma is_ws_quote : is_ws quote = false.
Proof. reflexivity. Qed.

(** A text without special characters read inside an unquoted field. *)
Lemma plain_InField b rec L R f :
  existsb special f = false →
  foldl step (Tok InField b rec L R) f = Tok InField (rev f ++ b) rec L R.
Proof.
  induction f as [|c f IH] in b |- *; [done|]. cbn [existsb foldl].
  intros [Hc Hf]%orb_false_iff. unfold step at 2. cbn [t_state].
  rewrite in_field_plain by done. unfold push; cbn [t_field t_record t_lines t_records].
  rewrite IH by done. cbn. by rewrite <-app_assoc.
Qed.

(** The same text at the start of a line: blanks stay a candidate blank
    line, the first other character makes it a field. *)
Lemma plain_WhitespaceLine b L R f :
  existsb special f = false →
  foldl step (Tok WhitespaceLine b [] L R) f =
    Tok (if forallb is_ws f then WhitespaceLine else InField) (rev f ++ b) [] L R.
Proof.
  induction f as [|c f IH] in b |- *; [done|]. cbn [existsb foldl forallb].
  intros [(? & ? & ? & ?)%special_false Hf]%orb_false_iff. unfold step at 2. cbn [t_state].
  rewrite !decide_False by done. destruct (is_ws c) eqn:Hws.
  - unfold push; cbn [t_field t_record t_lines t_records]. rewrite IH by done. cbn. by rewrite <-app_assoc.
  - rewrite in_field_plain by (unfold special; rewrite bool_decide_eq_false; tauto).
    unfold push; cbn [t_field t_record t_lines t_records].
    rewrite plain_InField by done. cbn. by rewrite <-app_assoc.
Qed.

(** A quoted text read inside a quoted field. *)
Lemma escape_InQuoted b rec L R f :
  foldl step (Tok InQuoted b rec L R) (escape f) = Tok InQuoted (rev f ++ b) rec L R.
Proof.
  induction f as [|c f IH] in b |- *; [done|]. cbn [escape].
  destruct (decide (c = quote)) as [->|Hc]; cbn [foldl]; unfold step; cbn [t_state].
  - rewrite decide_True by done. unfold goto; cbn [t_state t_field t_record t_lines t_records].
    rewrite decide_True by done. unfold push; cbn [t_field t_record t_lines t_records].
    rewrite IH. cbn. by rewrite <-app_assoc.
  - rewrite decide_False by done. unfold push; cbn [t_field t_record t_lines t_records].
    rewrite IH. cbn. by rewrite <-app_assoc.
Qed.

(** The states in which a field [f] may stand when its end is read: the
    states that end a line at [\n] ([ends_line]), and the two of a field
    at the start of a line, which a [\n] would skip as blank. *)
Definition ends_line (st : tstate) (f : list ascii) : Prop :=
  st = InField ∨ st = QuoteInQuoted ∨ (st = StartField ∧ f = []).

Definition ready (st : tstate) (f : list ascii) : Prop :=
  ends_line st f ∨ (st = StartRecord ∧ f = []) ∨ (st = WhitespaceLine ∧ forallb is_ws f = true).

Lemma ends_line_ready st f : ends_line st f → ready st f.
Proof. by left. Qed.

Lemma step_delim st f rec L R :
  ready st f →
  step (Tok st (rev f) rec L R) delim = end_field (Tok st (rev f) rec L R).
Proof.
  intros [[-> | [-> | [-> ->]]] | [[-> ->] | [-> _]]]; reflexivity.
Qed.

Lemma step_nl st f rec L R :
  ends_line st f →
  step (Tok st (rev f) rec L R) nl = end_line StartRecord (Tok st (rev f) rec L R).
Proof. intros [-> | [-> | [-> ->]]]; reflexivity. Qed.

Lemma rev_las s : String.string_of_list_ascii (rev (rev (String.list_ascii_of_string s))) = s.
Proof. by rewrite rev_involutive, String.string_of_list_ascii_of_string. Qed.

(** A quoted field: from the opening quote to the closing one. *)
Lemma quoted_run st b rec L R f :
  st = StartRecord ∨ st = StartField →
  foldl step (Tok st b rec L R) (quote :: escape f ++ [quote]) =
    Tok QuoteInQuoted (rev f ++ b) rec L R.
Proof.
  intros Hst. cbn [foldl]. rewrite foldl_app.
  assert (step (Tok st b rec L R) quote = Tok InQuoted b rec L R) as ->
    by (destruct Hst as [-> | ->]; reflexivity).
  by rewrite escape_InQuoted.
Qed.

(** A field written by [render_field] after a separator. *)
Lemma render_field_StartField single s rec L R :
  let f := String.list_ascii_of_string s in
  ∃ st, foldl step (Tok StartField [] rec L R) (render_field single s) = Tok st (rev f) rec L R ∧
        ends_line st f.
Proof.
  intros f. unfold render_field. fold f. clearbody f. destruct (needs_quotes single f) eqn:Hq.
  - exists QuoteInQuoted. rewrite quoted_run by auto. split; [by rewrite app_nil_r | by right; left].
  - apply orb_false_iff in Hq as [Hs _]. destruct f as [|c f'] eqn:Ef; [by exists StartField; split; [|right; right]|].
    exists InField. cbn [existsb] in Hs. apply orb_false_iff in Hs as [Hc Hs].
    cbn [foldl]. unfold step at 2; cbn [t_state]. rewrite start_field_plain by done.
    unfold push; cbn [t_field t_record t_lines t_records]. rewrite plain_InField by done.
    split; [done | by left].
Qed.

(** The first field of a record; a field alone on its line ends it. *)
Lemma render_field_StartRecord single s L R :
  let f := String.list_ascii_of_string s in
  ∃ st, foldl step (Tok StartRecord [] [] L R) (render_field single s) = Tok st (rev f) [] L R ∧
        ready st f ∧ (single = true → ends_line st f).
Proof.
  intros f. unfold render_field. fold f. clearbody f. destruct (needs_quotes single f) eqn:Hq.
  - exists QuoteInQuoted. rewrite quoted_run by auto.
    split; [by rewrite app_nil_r | split; [by left; right; left | by right; left]].
  - apply orb_false_iff in Hq as [Hs Hsingle]. destruct f as [|c f'] eqn:Ef.
    { exists StartRecord. split; [done|]. split; [by right; left|]. by intros ->. }
    assert (Hw : foldl step (Tok StartRecord [] [] L R) (c :: f') =
                 foldl step (Tok WhitespaceLine [] [] L R) (c :: f')).
    { cbn [existsb] in Hs. apply orb_false_iff in Hs as [(? & ? & ? & ?)%special_false _].
      cbn [foldl]. f_equal. unfold step; cbn [t_state]. unfold start_record.
      rewrite !decide_False by done. destruct (is_ws c); [done|].
      by rewrite start_field_plain, in_field_plain by (unfold special; rewrite bool_decide_eq_false; tauto). }
    rewrite Hw, plain_WhitespaceLine, app_nil_r by done.
    destruct (forallb is_ws (c :: f')) eqn:Hws.
    + exists WhitespaceLine. split; [done|]. split; [by right; right|].
      intros ->. cbn [andb] in Hsingle. congruence.
    + exists InField. split; [done|]. split; [by left; left | by left].
Qed.

(** The fields after the first, each behind its separator. *)
Lemma render_rest st s rec L R ss :
  ready st (String.list_ascii_of_string s) →
  ∃ st' s' rec',
    foldl step (Tok st (rev (String.list_ascii_of_string s)) rec L R)
      (concat (map (λ g, delim :: render_field false g) ss)) =
      Tok st' (rev (String.list_ascii_of_string s')) rec' L R ∧
    s' :: rec' = rev ss ++ s :: rec ∧
    ((ss = [] ∧ st' = st ∧ s' = s) ∨ ends_line st' (String.list_ascii_of_string s')).
Proof.
  induction ss as [|g ss IH] in st, s, rec |- *; intros Hr.
  - exists st, s, rec. naive_solver.
  - cbn [map concat]. rewrite foldl_app. cbn [foldl]. rewrite step_delim by done.
    unfold end_field, fields_ended; cbn [t_field t_record t_lines t_records]. rewrite rev_las.
    destruct (render_field_StartField false g (s :: rec) L R) as (st1 & -> & H1).
    destruct (IH st1 g (s :: rec) (ends_line_ready _ _ H1)) as (st' & s' & rec' & -> & Heq & Hend).
    exists st', s', rec'. split; [done|]. split; [by rewrite Heq; cbn; rewrite <-app_assoc|].
    right. by destruct Hend as [(-> & -> & ->) | ?].
Qed.

(** A record written on its line is read back, and counts one line. *)
Lemma render_record_run r L R :
  r ≠ [] →
  foldl step (Tok StartRecord [] [] L R) (render_record r) = Tok StartRecord [] [] (S L) ((S L, r) :: R).
Proof.
  destruct r as [|s ss]; [done|]. intros _.
  destruct (render_field_StartRecord (bool_decide (ss = [])) s L R) as (st & Hrun & Hr & Hs).
  assert (render_record (s :: ss) = render_field (bool_decide (ss = [])) s ++
            concat (map (λ g, delim :: render_field false g) ss) ++ [nl]) as ->
    by (destruct ss; reflexivity).
  rewrite !foldl_app, Hrun.
  destruct (render_rest st s [] L R ss Hr) as (st' & s' & rec' & -> & Heq & Hend).
  cbn [foldl]. rewrite step_nl.
  - unfold end_line, fields_ended; cbn [t_field t_record t_lines t_records]. rewrite rev_las, Heq.
    by rewrite rev_app_distr, rev_involutive.
  - destruct Hend as [(-> & -> & ->) | ?]; [by apply Hs, bool_decide_eq_true | done].
Qed.

Lemma render_csv_run recs L R :
  Forall (λ r, r ≠ []) recs →
  foldl step (Tok StartRecord [] [] L R) (render_csv recs) =
    Tok StartRecord [] [] (L + length recs) (rev (zip (seq (S L) (length recs)) recs) ++ R).
Proof.
  induction recs as [|r recs IH] in L, R |- *; intros Hne; [by rewrite Nat.add_0_r|].
  apply Forall_cons in Hne as [Hr Hne]. unfold render_csv. cbn [map concat].
  rewrite foldl_app, render_record_run by done. fold (render_csv recs).
  rewrite IH by done. cbn [length seq zip rev]. rewrite <-app_assoc.
  by replace (S L + length recs)%nat with (L + S (length recs))%nat by lia.
Qed.

(** C22: the tokenizer reads back what the writer wrote.  A list of
    records, none of them empty, written by [render_csv] (a field quoted
    when it holds a separator, a quote or a line end, or is the blank
    only field of its line) is tokenized into the same records, the
    [k]-th on line [k], and no quoted field is left open. *)
Theorem tokenize_render recs :
  Forall (λ r, r ≠ []) recs →
  tokenize (render_csv recs) = (zip (seq 1 (length recs)) recs, None).
Proof.
  intros Hne. unfold tokenize, tok_init. rewrite render_csv_run by done.
  cbn [finish t_state t_records]. by rewrite app_nil_r, rev_involutive.
Qed.

End Tokenizer.

Module Header.
Local Open Scope nat_scope.

(** ** The column names: [TextReader._get_header] (pandas/_libs/parsers.pyx) *)

(** An empty name in the header row is replaced by [Unnamed: i], [i] its
    position. *)
Definition unnamed (i : nat) : string := "Unnamed: " +:+ pretty i.

Definition name_header (h : list string) : list string :=
  imap (λ i n, if decide (n = "") then unnamed i else n) h.

(** The names are mangled in the order of the named columns first, then
    the unnamed ones, so that a given name is kept. *)
Definition loop_order (h : list string) : list nat :=
  filter (λ i, h !! i ≠ Some "") (seq 0 (length h)) ++
  filter (λ i, h !! i = Some "") (seq 0 (length h)).

Definition suffixed (old : string) (k : nat) : string := old +:+ "." +:+ pretty k.

(** The [while cur_count > 0] loop, with fuel; [counts.get(col, 0)] is
    [counts !!! col]:
<<
            while cur_count > 0:
                counts[old_col] = cur_count + 1
                col = f"{old_col}.{cur_count}"
                if col in this_header:
                    cur_count += 1
                else:
                    cur_count = counts.get(col, 0)
>> *)
Fixpoint mangle_while (fuel : nat) (hdr : list string) (counts : gmap string nat)
    (old col : string) (cur : nat) : option (gmap string nat * string) :=
  match fuel with
  | O => None
  | S fuel' =>
      if decide (cur = 0) then Some (counts, col)
      else
        let counts' := <[old := S cur]> counts in
        let col' := suffixed old cur in
        mangle_while fuel' hdr counts' old col'
          (if decide (col' ∈ hdr) then S cur else counts' !!! col')
  end.

(** The [for i in col_loop_order] loop: [this_header[i] = col] and
    [counts[col] = cur_count + 1], the count being [0] when the while loop
    is done. *)
Fixpoint mangle_go (fuel : nat) (order : list nat) (hdr : list string) (counts : gmap string nat) :
    option (list string) :=
  match order with
  | [] => Some hdr
  | i :: order' =>
      let old := default "" (hdr !! i) in
      '(counts', col) ← mangle_while fuel hdr counts old old (counts !!! old);
      mangle_go fuel order' (<[i := col]> hdr) (<[col := 1]> counts')
  end.

(** The names of the columns; every while loop runs less than
    [length h + 2] rounds ([mangle_while_terminates]). *)
Definition header_names (h : list string) : option (list string) :=
  mangle_go (length h + 2) (loop_order h) (name_header h) ∅.

(** ** Lemmas on the mangling loops *)

Lemma suffixed_inj old k1 k2 : suffixed old k1 = suffixed old k2 → k1 = k2.
Proof. unfold suffixed. intros H. by apply (inj (String.app old)), (inj (String.app ".")), (inj pretty) in H. Qed.

#[local] Instance suffixed_from_inj old c : Inj (=) (=) (λ i, suffixed old (c + i)).
Proof. intros i1 i2 ?%suffixed_inj. lia. Qed.

(** Among [old.c], [old.(c+1)], ... one of the first [length hdr + 1] is
    not a name of [hdr]: the names are distinct. *)
Lemma first_missing (hdr : list string) old c :
  ∃ j, j ≤ length hdr ∧ (∀ i, i < j → suffixed old (c + i) ∈ hdr) ∧ suffixed old (c + j) ∉ hdr.
Proof.
  set (l := (λ i, suffixed old (c + i)) <$> seq 0 (S (length hdr))).
  destruct (list_find (λ s, s ∉ hdr) l) as [[j s]|] eqn:E.
  - apply list_find_Some in E as (Hj & Hs & Hbefore).
    apply list_lookup_fmap_Some in Hj as (y & -> & (-> & ?)%lookup_seq). rewrite Nat.add_0_l in Hs.
    exists j. split; [lia|]. split; [|done]. intros i' Hi'.
    destruct (decide (suffixed old (c + i') ∈ hdr)) as [|Hn]; [done|]. exfalso.
    apply (Hbefore i' (suffixed old (c + i'))); [|lia|done].
    unfold l. rewrite list_lookup_fmap, lookup_seq_lt by lia. done.
  - exfalso. apply list_find_None in E.
    assert (Hnd : NoDup l) by (apply NoDup_fmap_2; [apply _ | apply NoDup_seq]).
    assert (Hincl : incl l hdr).
    { intros x Hx%list_elem_of_In. apply list_elem_of_In.
      rewrite Forall_forall in E. specialize (E x Hx). by destruct (decide (x ∈ hdr)). }
    apply NoDup_ListNoDup in Hnd. pose proof (NoDup_incl_length Hnd Hincl) as Hlen.
    unfold l in Hlen. rewrite length_fmap, length_seq in Hlen. lia.
Qed.

(** The while loop, when [old.c], ..., [old.(c+j-1)] are names of the
    header and [old.(c+j)] is not: it ends on [old.(c+j)] after [j + 1]
    rounds, the count of [old] raised and no other count changed. *)
Lemma mangle_while_run hdr j : ∀ fuel counts old col c,
  (∀ k, 0 < counts !!! k → k ∈ hdr) → old ∈ hdr → 0 < counts !!! old → 0 < c →
  (∀ i, i < j → suffixed old (c + i) ∈ hdr) → suffixed old (c + j) ∉ hdr → j + 2 ≤ fuel →
  ∃ counts', mangle_while fuel hdr counts old col c = Some (counts', suffixed old (c + j)) ∧
    counts' !!! suffixed old (c + j) = 0 ∧ (∀ k, 0 < counts' !!! k ↔ 0 < counts !!! k).
Proof.
  induction j as [|j IH]; intros fuel counts old col c Hpos Hold Hc0 Hc Hin Hnot Hf;
    (destruct fuel as [|fuel]; [lia|]); cbn [mangle_while]; rewrite decide_False by lia.
  - rewrite Nat.add_0_r in Hnot |- *. rewrite decide_False by done.
    assert (Hne : suffixed old c ≠ old) by (intros Heq; rewrite Heq in Hnot; done).
    assert (Hz : counts !!! suffixed old c = 0).
    { destruct (counts !!! suffixed old c) eqn:E; [done|]. exfalso. apply Hnot, Hpos. lia. }
    rewrite lookup_total_insert_ne, Hz by done.
    destruct fuel as [|fuel]; [lia|]. cbn [mangle_while]. rewrite decide_True by done.
    eexists. split; [done|]. split; [by rewrite lookup_total_insert_ne|].
    intros k. destruct (decide (k = old)) as [->|?]; [rewrite lookup_total_insert_eq; split; lia|].
    by rewrite lookup_total_insert_ne.
  - rewrite decide_True by (rewrite <-(Nat.add_0_r c); apply Hin; lia).
    destruct (IH fuel (<[old:=S c]> counts) old (suffixed old c) (S c)) as (counts' & Hrun & Hz & Hsupp).
    + intros k. destruct (decide (k = old)) as [->|?]; [done|]. rewrite lookup_total_insert_ne by done. apply Hpos.
    + done.
    + rewrite lookup_total_insert_eq. lia.
    + lia.
    + intros i Hi. replace (S c + i) with (c + S i) by lia. apply Hin. lia.
    + by replace (S c + j) with (c + S j) by lia.
    + lia.
    + replace (c + S j) with (S c + j) by lia. exists counts'. split; [done|]. split; [done|].
      intros k. rewrite Hsupp. destruct (decide (k = old)) as [->|?]; [rewrite lookup_total_insert_eq; split; lia|].
      by rewrite lookup_total_insert_ne.
Qed.

(** The while loop from [cur_count = counts.get(old, 0)] ends within
    [length hdr + 2] rounds on a name whose count is [0], keeping the
    names that have a count; when [old] has none it keeps [old]. *)
Lemma mangle_while_spec fuel hdr counts old :
  (∀ k, 0 < counts !!! k → k ∈ hdr) → old ∈ hdr → length hdr + 2 ≤ fuel →
  ∃ counts' col, mangle_while fuel hdr counts old old (counts !!! old) = Some (counts', col) ∧
    counts' !!! col = 0 ∧ (∀ k, 0 < counts' !!! k ↔ 0 < counts !!! k) ∧
    (counts !!! old = 0 → col = old).
Proof.
  intros Hpos Hold Hf. destruct (counts !!! old) as [|n] eqn:E.
  - destruct fuel as [|fuel]; [lia|]. exists counts, old. by rewrite E.
  - destruct (first_missing hdr old (S n)) as (j & Hj & Hin & Hnot).
    destruct (mangle_while_run hdr j fuel counts old old (S n)) as (counts' & Hrun & Hz & Hsupp);
      [done | done | lia | lia | done | done | lia |].
    exists counts', (suffixed old (S n + j)). done.
Qed.

(** The invariant of the for loop, [D] being the positions done: a name
    has a count exactly when a position done holds it, and the positions
    done hold distinct names. *)
Definition mangled (hdr : list string) (counts : gmap string nat) (D : list nat) : Prop :=
  (∀ k, 0 < counts !!! k → ∃ j, j ∈ D ∧ hdr !! j = Some k) ∧
  (∀ j, j ∈ D → ∃ k, hdr !! j = Some k ∧ 0 < counts !!! k) ∧
  (∀ j1 j2 k, j1 ∈ D → j2 ∈ D → hdr !! j1 = Some k → hdr !! j2 = Some k → j1 = j2).

Lemma mangled_init hdr : mangled hdr ∅ [].
Proof.
  split_and!; [|set_solver..]. intros k. rewrite lookup_total_empty. cbn. lia.
Qed.

Lemma mangled_step hdr counts counts1 D i col :
  mangled hdr counts D → i ∉ D → i < length hdr →
  (∀ k, 0 < counts1 !!! k ↔ 0 < counts !!! k) → counts1 !!! col = 0 →
  mangled (<[i:=col]> hdr) (<[col:=1]> counts1) (i :: D).
Proof.
  intros (Hheld & Hpos & Hdist) Hi Hlen Hsupp Hz.
  assert (Hkeep : ∀ j, j ∈ D → <[i:=col]> hdr !! j = hdr !! j)
    by (intros j Hj; apply list_lookup_insert_ne; set_solver).
  assert (Hcol : ∀ j, j ∈ D → hdr !! j ≠ Some col).
  { intros j Hj Hc. destruct (Hpos j Hj) as (k & Hk & Hk0). rewrite Hc in Hk. simplify_eq.
    apply Hsupp in Hk0. lia. }
  split_and!.
  - intros k Hk. destruct (decide (k = col)) as [->|Hne].
    + exists i. split; [set_solver|]. by apply list_lookup_insert_eq.
    + rewrite lookup_total_insert_ne, Hsupp in Hk by done.
      destruct (Hheld k Hk) as (j & Hj & Hjk). exists j. split; [set_solver|]. by rewrite Hkeep.
  - intros j [->|Hj]%elem_of_cons.
    + exists col. rewrite list_lookup_insert_eq, lookup_total_insert_eq by done. split; [done | lia].
    + destruct (Hpos j Hj) as (k & Hk & Hk0). exists k. rewrite Hkeep by done. split; [done|].
      rewrite lookup_total_insert_ne, Hsupp by (intros ->; by apply (Hcol j)). done.
  - intros j1 j2 k [->|H1]%elem_of_cons [->|H2]%elem_of_cons; rewrite ?list_lookup_insert_eq, ?Hkeep by done;
      [done | | | by apply Hdist].
    + intros [= <-] ?. by destruct (Hcol j2 H2).
    + intros ? [= <-]. by destruct (Hcol j1 H1).
Qed.

(** With distinct names no name of a position to do has a count. *)
Lemma mangled_fresh hdr counts D i old :
  mangled hdr counts D → NoDup hdr → i ∉ D → hdr !! i = Some old → counts !!! old = 0.
Proof.
  intros (Hheld & _) Hnd Hi Hold. destruct (counts !!! old) eqn:E; [done|].
  destruct (Hheld old) as (j & Hj & Hjold); [lia|].
  rewrite NoDup_alt in Hnd. by rewrite (Hnd j i old) in Hj.
Qed.

Lemma mangle_go_spec fuel order : ∀ hdr counts D,
  length hdr + 2 ≤ fuel → NoDup order → (∀ i, i ∈ order → i < length hdr ∧ i ∉ D) →
  mangled hdr counts D →
  ∃ hdr', mangle_go fuel order hdr counts = Some hdr' ∧ length hdr' = length hdr ∧
    (∀ j1 j2 k, j1 ∈ order ++ D → j2 ∈ order ++ D →
                          hdr' !! j1 = Some k → hdr' !! j2 = Some k → j1 = j2) ∧
    (NoDup hdr → hdr' = hdr).
Proof.
  induction order as [|i order IH]; intros hdr counts D Hf Hnd Hord Hinv.
  - exists hdr. split_and!; [done | done | apply Hinv | done].
  - apply NoDup_cons in Hnd as [Hi Hnd]. destruct (Hord i (list_elem_of_here _ _)) as [Hlen HiD].
    destruct (lookup_lt_is_Some_2 hdr i Hlen) as [old Hold].
    destruct (mangle_while_spec fuel hdr counts old) as (counts1 & col & Hrun & Hz & Hsupp & Hfresh).
    { intros k (j & _ & Hj)%Hinv. by eapply list_elem_of_lookup_2. }
    { by eapply list_elem_of_lookup_2. }
    { done. }
    cbn [mangle_go]. rewrite Hold. cbn [default id]. rewrite Hrun. cbn [mbind option_bind].
    destruct (IH (<[i:=col]> hdr) (<[col:=1]> counts1) (i :: D)) as (hdr' & Hgo & Hl & Hd & Hid).
    + by rewrite length_insert.
    + done.
    + intros i' Hi'. rewrite length_insert. destruct (Hord i') as [? ?]; [set_solver|].
      split; [done|]. set_solver.
    + by apply (mangled_step hdr counts).
    + exists hdr'. rewrite Hgo, Hl, length_insert. split_and!; [done | done | |].
      * intros j1 j2 k H1 H2. apply Hd; set_solver.
      * intros Hnd'. rewrite Hfresh in Hid by (by eapply mangled_fresh).
        rewrite list_insert_id in Hid by done. by apply Hid.
Qed.

Lemma length_name_header h : length (name_header h) = length h.
Proof. apply length_imap. Qed.

Lemma loop_order_spec h : NoDup (loop_order h) ∧ ∀ i, i ∈ loop_order h ↔ i < length h.
Proof.
  unfold loop_order. split.
  - apply NoDup_app. split_and!; [apply NoDup_filter, NoDup_seq | | apply NoDup_filter, NoDup_seq].
    intros i [Hi _]%list_elem_of_filter [Hi' _]%list_elem_of_filter. done.
  - intros i. rewrite elem_of_app, !list_elem_of_filter, elem_of_seq.
    destruct (decide (h !! i = Some "")); naive_solver lia.
Qed.

(** C25: the columns get distinct names.  [header_names] returns (its
    while loops end within their fuel), one name per field of the header
    row, no two of them equal; a header whose names, once the empty ones
    are named [Unnamed: i], are already distinct keeps them. *)
Theorem header_names_spec h :
  ∃ names, header_names h = Some names ∧ length names = length h ∧ NoDup names ∧
    (NoDup (name_header h) → names = name_header h).
Proof.
  destruct (loop_order_spec h) as [Hnd Hord].
  destruct (mangle_go_spec (length h + 2) (loop_order h) (name_header h) ∅ [])
    as (names & Hgo & Hl & Hd & Hid).
  - rewrite length_name_header. lia.
  - done.
  - intros i Hi. rewrite length_name_header. split; [by apply Hord | set_solver].
  - apply mangled_init.
  - rewrite length_name_header in Hl. exists names. split_and!; [done | done | | done].
    apply NoDup_alt. intros i j k Hi Hj. apply (Hd i j k); [| | done | done]; rewrite app_nil_r, Hord, <-Hl;
      by eapply lookup_lt_Some.
Qed.

End Header.

Module Reader.
Import Tokenizer Header.

(** ** Fields to values: [TextReader._convert_tokens] (parsers.pyx) *)

(** [STR_NA_VALUES], the strings read as a missing value. *)
Definition na_values : list string :=
  ["-1.#IND"; "1.#QNAN"; "1.#IND"; "-1.#QNAN"; "#N/A N/A"; "#N/A"; "N/A"; "n/a"; "NA"; "<NA>";
   "#NA"; "NULL"; "null"; "NaN"; "-NaN"; "nan"; "-nan"; "None"; ""].

Definition is_na (s : string) : bool := bool_decide (s ∈ na_values).

(** [isspace_ascii]. *)
Definition is_space (c : ascii) : bool :=
  bool_decide (c ∈ [" "%char; "009"%char; "010"%char; "011"%char; "012"%char; "013"%char]).

Fixpoint skip_spaces (cs : list ascii) : list ascii :=
  match cs with
  | c :: cs' => if is_space c then skip_spaces cs' else cs
  | [] => []
  end.

Definition digit (c : ascii) : option Z :=
  let n := nat_of_ascii c in if (48 <=? n)%nat && (n <=? 57)%nat then Some (Z.of_nat n - 48)%Z else None.

(** The longest run of digits: its value, its length and what follows. *)
Fixpoint digits (cs : list ascii) (acc : Z) (n : nat) : Z * nat * list ascii :=
  match cs with
  | c :: cs' => match digit c with Some d => digits cs' (10 * acc + d)%Z (S n) | None => (acc, n, cs) end
  | [] => (acc, n, [])
  end.

Definition sign (cs : list ascii) : Z * list ascii :=
  match cs with
  | c :: cs' => if decide (c = "-"%char) then (-1, cs')%Z
                else if decide (c = "+"%char) then (1, cs')%Z else (1, cs)%Z
  | [] => (1%Z, [])
  end.

(** [str_to_int64] (tokenizer.c): blanks, a sign, at least one digit,
    blanks, in the range of [int64]. *)
Definition parse_int (s : string) : option Z :=
  let '(sg, cs) := sign (skip_spaces (String.list_ascii_of_string s)) in
  let '(v, n, cs) := digits cs 0 0 in
  if decide (n = 0%nat) then None
  else if decide (skip_spaces cs = []) then
    let z := (sg * v)%Z in
    if decide (- 2 ^ 63 ≤ z ≤ 2 ^ 63 - 1)%Z then Some z else None
  else None.

(** The exponent of [precise_xstrtod]: an [e] without digits is not
    consumed. *)
Definition parse_exponent (cs : list ascii) : Z * list ascii :=
  match cs with
  | c :: cs' =>
      if decide (c = "e"%char ∨ c = "E"%char) then
        let '(sg, r) := sign cs' in
        let '(e, n, r') := digits r 0 0 in
        if decide (n = 0%nat) then (0%Z, cs) else ((sg * e)%Z, r')
      else (0%Z, cs)
  | [] => (0%Z, [])
  end.

(** [precise_xstrtod], read to the exact decimal value: blanks, a sign,
    digits with at most one decimal point (one digit at least), an
    exponent, blanks. *)
Definition parse_double (s : string) : option Q :=
  let '(sg, cs) := sign (skip_spaces (String.list_ascii_of_string s)) in
  let '(ip, ni, cs) := digits cs 0 0 in
  let '(fp, nf, cs) :=
    match cs with
    | c :: cs' => if decide (c = "."%char) then digits cs' 0 0 else (0%Z, 0%nat, cs)
    | [] => (0%Z, 0%nat, [])
    end in
  let '(e, cs) := parse_exponent cs in
  if decide (ni + nf = 0)%nat then None
  else if decide (skip_spaces cs = []) then
    Some (inject_Z (sg * (ip * 10 ^ Z.of_nat nf + fp)) * Qpower 10 (e - Z.of_nat nf))
  else None.

Definition lower (c : ascii) : ascii :=
  let n := nat_of_ascii c in if (65 <=? n)%nat && (n <=? 90)%nat then ascii_of_nat (n + 32) else c.

(** [strcasecmp] with a lower-case word. *)
Definition same_lower (s w : string) : bool :=
  bool_decide (lower <$> String.list_ascii_of_string s = String.list_ascii_of_string w).

(** The infinities [_try_double] accepts when the number does not parse;
    [true] is the negative one. *)
Definition parse_inf (s : string) : option bool :=
  if existsb (same_lower s) ["inf"; "+inf"; "infinity"; "+infinity"] then Some false
  else if existsb (same_lower s) ["-inf"; "-infinity"] then Some true
  else None.

(** [to_boolean]. *)
Definition parse_bool (s : string) : option bool :=
  if same_lower s "true" then Some true else if same_lower s "false" then Some false else None.

Inductive dtype : Type := Int64 | Float64 | Bool | Object.

#[export] Instance dtype_eq_dec : EqDecision dtype.
Proof. solve_decision. Defined.

(** A value of a cell of the table read. *)
Inductive value : Type :=
  | VInt (z : Z) | VNum (q : Q) | VInf (neg : bool) | VBool (b : bool) | VStr (s : string) | VNaN.

#[export] Instance value_eq_dec : EqDecision value.
Proof. solve_decision. Defined.

(** The conversions tried in turn: [_try_int64] (no missing value: an
    integer column with one is upcast to [float64], as [_maybe_upcast]
    does), [_try_double], [_try_bool_flex] (upcast to [object] with a
    missing value), and the strings. *)
Definition int_cell (s : string) : option value := if is_na s then None else VInt <$> parse_int s.

Definition float_cell (s : string) : option value :=
  if is_na s then Some VNaN
  else match parse_double s with Some q => Some (VNum q) | None => VInf <$> parse_inf s end.

Definition bool_cell (s : string) : option value := if is_na s then Some VNaN else VBool <$> parse_bool s.

Definition str_cell (s : string) : value := if is_na s then VNaN else VStr s.

Definition infer_column (fs : list string) : dtype * list value :=
  match mapM int_cell fs with
  | Some vs => (Int64, vs)
  | None =>
      match mapM float_cell fs with
      | Some vs => (Float64, vs)
      | None =>
          match mapM bool_cell fs with
          | Some vs => (if bool_decide (VNaN ∈ vs) then Object else Bool, vs)
          | None => (Object, str_cell <$> fs)
          end
      end
  end.

(** ** The table: [TextReader.read] and the C parser's checks *)

Record table : Type := Table {
  t_columns : list string;
  t_dtypes : list dtype;
  t_rows : list (list value)
}.

Definition parser_error (msg : string) : pyexc :=
  ParserError ("Error tokenizing data. C error: " +:+ msg).

(** [end_line] (tokenizer.c): a record after the first data record with
    more fields than the record before is an error; one with fewer is
    padded with empty fields. *)
Definition too_many_fields (w line saw : nat) : pyexc :=
  parser_error ("Expected " +:+ pretty w +:+ " fields in line " +:+ pretty line +:+ ", saw " +:+
                pretty saw +:+ String nl EmptyString).

Definition pad (w : nat) (r : list string) : list string := r ++ replicate (w - length r) "".

Fixpoint check_rows (w : nat) (recs : list (nat * list string)) : result (list (list string)) :=
  match recs with
  | [] => Ok []
  | (line, r) :: recs' =>
      if decide (w < length r)%nat then raise (too_many_fields w line (length r))
      else (pad w r ::.) <$> check_rows w recs'
  end.

(** The [n] columns of rows, and back. *)
Definition columns_of {A} (dflt : A) (n : nat) (rs : list (list A)) : list (list A) :=
  (λ j, (λ r, default dflt (r !! j)) <$> rs) <$> seq 0 n.

(** The data records of a header of [h] fields: the first one padded to
    the header and not checked, the others checked against it. *)
Definition data_rows (h : nat) (data : list (nat * list string)) : result (list (list string)) :=
  match data with
  | [] => Ok []
  | (_, r1) :: rest =>
      let w := Nat.max (length r1) h in
      (pad w r1 ::.) <$> check_rows w rest
  end.

(** The fields of the data rows that are columns: a row wider than the
    header of [h] fields starts with index fields. *)
Definition body_of (h : nat) (rows : list (list string)) : list (list string) :=
  (λ r, drop (length r - h) r) <$> rows.

(** The DataFrame: each column converted by [infer_column]; the columns
    of a header without data are of dtype [object]. *)
Definition table_of (names : list string) (h : nat) (rows : list (list string)) : table :=
  let body := body_of h rows in
  let typed := (if decide (body = []) then (λ _, (Object, [])) else infer_column) <$>
                 columns_of "" h body in
  Table names (fst <$> typed) (columns_of VNaN (length body) (snd <$> typed)).

(** [pd.read_csv(text)]: the first record is the header; the first data
    record is padded to the header and not checked, and when it is
    longer its leading fields are an index, not columns; a text without
    records raises [EmptyDataError]; the columns of a header without data
    are of dtype [object]. *)
Definition read_csv (text : string) : result table :=
  let '(recs, eof) := tokenize (String.list_ascii_of_string text) in
  match recs with
  | [] => raise (EmptyDataError "No columns to parse from file")
  | (_, hdr) :: data =>
      let h := length hdr in
      rows ← data_rows h data;
      match eof with
      | Some row => raise (parser_error ("EOF inside string starting at row " +:+ pretty row))
      | None =>
          match header_names hdr with
          | None => raise (ValueError "header")
          | Some names => Ok (table_of names h rows)
          end
      end
  end.

(** ** From the table to the frame of the analysis *)

(** The values a column of each dtype holds. *)
Definition value_of (d : dtype) (v : value) : bool :=
  match d, v with
  | Int64, VInt _ => true
  | Float64, (VNum _ | VInf _ | VNaN) => true
  | Bool, VBool _ => true
  | Object, (VStr _ | VBool _ | VNaN) => true
  | _, _ => false
  end.

(** A table as [read_csv] builds it: distinct column names, one dtype per
    column, and in every row one value per column, of its dtype. *)
Definition table_wf (t : table) : Prop :=
  NoDup (t_columns t) ∧ length (t_dtypes t) = length (t_columns t) ∧
  Forall (λ r, Forall2 (λ d v, value_of d v = true) (t_dtypes t) r) (t_rows t).

Definition numeric (d : dtype) : bool := bool_decide (d = Int64 ∨ d = Float64).

Definition cell_q (v : value) : option Q :=
  match v with VInt z => Some (inject_Z z) | VNum q => Some q | _ => None end.

(** A row of the frame: the numbers of the numeric columns, a missing
    value being an absent key. *)
Fixpoint row_of (cols : list string) (dts : list dtype) (vs : list value) : row :=
  match cols, dts, vs with
  | c :: cols', d :: dts', v :: vs' =>
      let r := row_of cols' dts' vs' in
      match (if numeric d then cell_q v else None) with Some q => <[c := q]> r | None => r end
  | _, _, _ => ∅
  end.

Definition analysed_cols : list string := [gdp_col; he2019_col; he2021_col].

Definition finite_value (v : value) : bool := match v with VInf _ => false | _ => true end.

(** The frame model holds what the analysis reads: the three analysed
    columns, when present, must be numeric and without infinities. *)
Definition analysable (t : table) : bool :=
  forallb (λ j, match t_columns t !! j, t_dtypes t !! j with
                | Some c, Some d =>
                    negb (bool_decide (c ∈ analysed_cols)) ||
                    (numeric d && forallb (λ r, finite_value (default VNaN (r !! j))) (t_rows t))
                | _, _ => true
                end) (seq 0 (length (t_columns t))).

Definition to_frame (t : table) : option frame :=
  if analysable t then Some (Frame (t_columns t) (row_of (t_columns t) (t_dtypes t) <$> t_rows t))
  else None.

(** The table read: [EmptyDataError], a [ParserError], or the frame. *)
Definition rows_fit (recs : list (nat * list string)) : Prop :=
  match recs with
  | (_, hdr) :: (_, r1) :: rest => Forall (λ lr, length lr.2 ≤ Nat.max (length r1) (length hdr))%nat rest
  | _ => True
  end.

#[export] Instance rows_fit_dec recs : Decision (rows_fit recs).
Proof. destruct recs as [|[? ?] [|[? ?] ?]]; apply _. Defined.

(** How the value [v] of a column of dtype [d] was read from its field
    [f]: the conversion that succeeded on the column. *)
Definition read_from (d : dtype) (f : string) (v : value) : Prop :=
  match d with
  | Int64 => is_na f = false ∧ ∃ z, parse_int f = Some z ∧ v = VInt z
  | Float64 => float_cell f = Some v
  | Bool => bool_cell f = Some v
  | Object => bool_cell f = Some v ∨ v = str_cell f
  end.

(** ** Lemmas *)

Lemma mapM_option_spec {A B} (f : A → option B) (Q : B → Prop) l k :
  mapM f l = Some k → (∀ x y, f x = Some y → Q y) → length k = length l ∧ Forall Q k.
Proof.
  intros Hm%mapM_Some_1 Hf. split; [symmetry; by eapply Forall2_length|].
  induction Hm; constructor; eauto.
Qed.

Lemma infer_column_spec fs :
  length (infer_column fs).2 = length fs ∧
  Forall (λ v, value_of (infer_column fs).1 v = true) (infer_column fs).2.
Proof.
  unfold infer_column. destruct (mapM int_cell fs) as [vs|] eqn:Ei.
  { apply (mapM_option_spec _ (λ v, value_of Int64 v = true)) in Ei; [done|].
    intros s v. unfold int_cell. destruct (is_na s); [done|]. by intros (z & _ & ->)%fmap_Some. }
  destruct (mapM float_cell fs) as [vs|] eqn:Ef.
  { apply (mapM_option_spec _ (λ v, value_of Float64 v = true)) in Ef; [done|].
    intros s v. unfold float_cell. destruct (is_na s); [by intros [= <-]|].
    destruct (parse_double s); [by intros [= <-]|]. by intros (b & _ & ->)%fmap_Some. }
  destruct (mapM bool_cell fs) as [vs|] eqn:Eb.
  - apply (mapM_option_spec _ (λ v, v = VNaN ∨ ∃ b, v = VBool b)) in Eb as [Hl Hv].
    + cbn [fst snd]. split; [done|]. rewrite Forall_forall in Hv |- *. intros v Hin.
      case_bool_decide; destruct (Hv v Hin) as [-> | [b ->]]; done.
    + intros s v. unfold bool_cell. destruct (is_na s); [intros [= <-]; by left|].
      intros (b & _ & ->)%fmap_Some. right. by exists b.
  - cbn [fst snd]. rewrite length_fmap. split; [done|]. apply Forall_fmap, Forall_true.
    intros s. cbn. unfold str_cell. by destruct (is_na s).
Qed.

(** The rows of columns of one length [m] whose values have their
    column's dtype have one value of each column's dtype. *)
Lemma columns_of_typed (typed : list (dtype * list value)) m :
  Forall (λ dv, length dv.2 = m ∧ Forall (λ v, value_of dv.1 v = true) dv.2) typed →
  Forall (λ r, Forall2 (λ d v, value_of d v = true) (fst <$> typed) r) (columns_of VNaN m (snd <$> typed)).
Proof.
  intros Ht. unfold columns_of. apply Forall_fmap, Forall_seq. intros j [_ Hj]. cbn.
  rewrite <-list_fmap_compose. apply Forall2_fmap, Forall_Forall2_diag.
  eapply Forall_impl; [exact Ht|]. intros [d vs] [Hl Hv]. cbn in *.
  destruct (lookup_lt_is_Some_2 vs j) as [v Hv']; [lia|]. rewrite Hv'. cbn.
  rewrite Forall_lookup in Hv. by apply (Hv j).
Qed.

Lemma columns_of_lookup {A} (dflt : A) n rs j :
  (j < n)%nat → columns_of dflt n rs !! j = Some ((λ r, default dflt (r !! j)) <$> rs).
Proof. intros Hj. unfold columns_of. by rewrite list_lookup_fmap, lookup_seq_lt. Qed.

Lemma length_columns_of {A} (dflt : A) n rs : length (columns_of dflt n rs) = n.
Proof. unfold columns_of. by rewrite length_fmap, length_seq. Qed.

Lemma columns_of_length {A} (dflt : A) n rs :
  Forall (λ c, length c = length rs) (columns_of dflt n rs).
Proof. unfold columns_of. apply Forall_fmap, Forall_true. intros j. cbn. by rewrite length_fmap. Qed.

(** A column of integers without a missing value is read as [int64]; a
    column with a missing value never is. *)
Lemma infer_column_int64 fs :
  (Forall (λ s, is_na s = false ∧ is_Some (parse_int s)) fs → (infer_column fs).1 = Int64) ∧
  (Exists (λ s, is_na s = true) fs → (infer_column fs).1 ≠ Int64).
Proof.
  unfold infer_column. split.
  - intros Hf. assert (is_Some (mapM int_cell fs)) as [vs ->]; [|done].
    apply mapM_is_Some. eapply Forall_impl; [exact Hf|]. intros s [Hna [z Hz]].
    cbn. unfold int_cell. rewrite Hna, Hz. by eexists.
  - intros Hex. destruct (mapM int_cell fs) as [vs|] eqn:E.
    + exfalso. apply mapM_Some_1 in E. apply Exists_exists in Hex as (s & Hs & Hna).
      apply list_elem_of_lookup_1 in Hs as [i Hi].
      destruct (Forall2_lookup_l _ _ _ i s E Hi) as (v & _ & Hv). unfold int_cell in Hv. by rewrite Hna in Hv.
    + repeat case_match; cbn; try case_bool_decide; done.
Qed.

Lemma mapM_lookup {A B} (g : A → option B) l k i x y :
  mapM g l = Some k → l !! i = Some x → k !! i = Some y → g x = Some y.
Proof. intros Hm%mapM_Some_1 Hx Hy. exact (Forall2_lookup_lr _ l k i x y Hm Hx Hy). Qed.

(** Each value of a converted column is read from its field. *)
Lemma infer_column_lookup fs i f v :
  fs !! i = Some f → (infer_column fs).2 !! i = Some v → read_from (infer_column fs).1 f v.
Proof.
  intros Hf. unfold infer_column. destruct (mapM int_cell fs) as [vs|] eqn:Ei.
  { intros Hv. pose proof (mapM_lookup _ _ _ _ _ _ Ei Hf Hv) as Hc. cbn. unfold int_cell in Hc.
    destruct (is_na f); [done|]. apply fmap_Some in Hc as (z & Hz & ->). split; [done|]. by exists z. }
  destruct (mapM float_cell fs) as [vs|] eqn:Ef.
  { intros Hv. exact (mapM_lookup _ _ _ _ _ _ Ef Hf Hv). }
  destruct (mapM bool_cell fs) as [vs|] eqn:Eb.
  - intros Hv. pose proof (mapM_lookup _ _ _ _ _ _ Eb Hf Hv). cbn. by case_bool_decide; [left|].
  - cbn. rewrite list_lookup_fmap, Hf. intros [= <-]. by right.
Qed.

(** The cell [(i, j)] of the table is read from the field [j] of the
    [i]-th row of the body. *)
Lemma table_of_cell names h rows i j fs f :
  body_of h rows !! i = Some fs → fs !! j = Some f → (j < h)%nat →
  ∃ vs v dt, t_rows (table_of names h rows) !! i = Some vs ∧ vs !! j = Some v ∧
    t_dtypes (table_of names h rows) !! j = Some dt ∧ read_from dt f v.
Proof.
  intros Hi Hj Hjh. unfold table_of. cbn [t_rows t_dtypes].
  set (body := body_of h rows) in *.
  assert (Hne : body ≠ []) by (intros Hb; by rewrite Hb in Hi).
  rewrite decide_False by done.
  set (col := (λ r, default "" (r !! j)) <$> body).
  assert (Hcol : columns_of "" h body !! j = Some col) by (by rewrite columns_of_lookup).
  assert (Hcf : col !! i = Some f) by (unfold col; rewrite list_lookup_fmap, Hi; cbn; by rewrite Hj).
  destruct (infer_column_spec col) as [Hlen _].
  destruct (lookup_lt_is_Some_2 (infer_column col).2 i) as [v Hv].
  { rewrite Hlen. by eapply lookup_lt_Some. }
  eexists _, v, (infer_column col).1. split_and!.
  - rewrite columns_of_lookup by (by eapply lookup_lt_Some). reflexivity.
  - rewrite !list_lookup_fmap, Hcol. cbn. by rewrite Hv.
  - by rewrite list_lookup_fmap, list_lookup_fmap, Hcol.
  - by apply (infer_column_lookup col i).
Qed.

(** A value read into a numeric analysed column: missing exactly for a
    missing field, otherwise the number of the field. *)
Lemma read_from_numeric dt f v :
  read_from dt f v → numeric dt = true → finite_value v = true →
  (cell_q v = None ↔ is_na f = true) ∧
  ∀ q, cell_q v = Some q → (∃ z, parse_int f = Some z ∧ q = inject_Z z) ∨ parse_double f = Some q.
Proof.
  destruct dt; cbn; try done.
  - intros (Hna & z & Hz & ->) _ _. rewrite Hna. split; [done|]. intros q [= <-]. left. by exists z.
  - unfold float_cell. destruct (is_na f); [intros [= <-]; done|].
    destruct (parse_double f) as [q|] eqn:Hq; [intros [= <-] _ _; split; [done|]; intros ? [= <-]; by right|].
    intros (b & _ & ->)%fmap_Some _ [=].
Qed.

(** The names of the header row: distinct, one per field. *)
Lemma header_names_sound h :
  ∃ names, header_names h = Some names ∧ length names = length h ∧ NoDup names.
Proof.
  destruct (loop_order_spec h) as [Hnd Hord].
  destruct (mangle_go_spec (length h + 2) (loop_order h) (name_header h) ∅ [])
    as (names & Hgo & Hl & Hd & _);
    [rewrite length_name_header; lia | done | |apply mangled_init|].
  { intros i Hi. rewrite length_name_header. split; [by apply Hord | set_solver]. }
  rewrite length_name_header in Hl. exists names. split_and!; [done | done |].
  apply NoDup_alt. intros i j k Hi Hj. apply (Hd i j k); [| | done | done];
    rewrite app_nil_r, Hord, <-Hl; by eapply lookup_lt_Some.
Qed.

Lemma read_csv_wf s t : read_csv s = Ok t → table_wf t.
Proof.
  unfold read_csv. destruct (tokenize _) as [recs eof]. destruct recs as [|[l hdr] data]; [done|].
  match goal with |- mbind _ ?m = _ → _ => destruct m as [rows|e] end; [|done]. cbn [mbind result_bind].
  destruct eof; [done|]. destruct (header_names_sound hdr) as (names & -> & Hl & Hnd).
  intros [= <-]. unfold table_of. split_and!; cbn [t_columns t_dtypes t_rows].
  - done.
  - by rewrite !length_fmap, length_columns_of.
  - apply columns_of_typed, Forall_fmap. eapply Forall_impl; [apply columns_of_length|].
    intros c Hc. cbn. case_decide as Hb.
    + rewrite Hb in Hc |- *. by destruct c.
    + destruct (infer_column_spec c) as [Hl' Hv]. by rewrite Hl', Hc.
Qed.

Lemma check_rows_spec w recs :
  (Forall (λ lr, length lr.2 ≤ w)%nat recs ∧ check_rows w recs = Ok ((λ lr, pad w lr.2) <$> recs)) ∨
  (¬ Forall (λ lr, length lr.2 ≤ w)%nat recs ∧
   ∃ line saw, (w < saw)%nat ∧ check_rows w recs = Err (too_many_fields w line saw)).
Proof.
  induction recs as [|[line r] recs IH]; [by left|]. cbn [check_rows].
  destruct (decide (w < length r)%nat) as [Hlt|Hge].
  - right. split; [intros Hf; apply Forall_cons in Hf as [? _]; cbn in *; lia|]. by exists line, (length r).
  - destruct IH as [[Hf ->] | [Hf (l' & saw & ? & ->)]].
    + left. split; [constructor; cbn; [lia | done] | done].
    + right. split; [by intros [_ ?]%Forall_cons|]. by exists l', saw.
Qed.


Lemma data_rows_length h data rs : data_rows h data = Ok rs → length rs = length data.
Proof.
  destruct data as [|[l1 r1] rest]; cbn [data_rows]; [by intros [= <-]|].
  destruct (check_rows_spec (Nat.max (length r1) h) rest) as [[_ ->] | [_ (? & ? & ? & ->)]]; [|done].
  intros [= <-]. cbn. by rewrite length_fmap.
Qed.


Lemma row_of_keys cols dts vs c : is_Some (row_of cols dts vs !! c) → c ∈ cols.
Proof.
  induction cols as [|c0 cols IH] in dts, vs |- *; [cbn [row_of]; by rewrite lookup_empty; intros []|].
  destruct dts as [|d dts], vs as [|v vs]; cbn [row_of]; try by rewrite lookup_empty; intros [].
  destruct (if numeric d then cell_q v else None) as [q|].
  - destruct (decide (c = c0)) as [->|Hne]; [intros; apply list_elem_of_here|].
    rewrite lookup_insert_ne by done. intros ?%IH. by right.
  - intros ?%IH. by right.
Qed.

(** The cell of column [j] of a row of the frame is the number of the
    [j]-th value, when its column is numeric. *)
Lemma row_of_lookup cols dts vs j c d v :
  NoDup cols → cols !! j = Some c → dts !! j = Some d → vs !! j = Some v →
  row_of cols dts vs !! c = if numeric d then cell_q v else None.
Proof.
  induction cols as [|c0 cols IH] in j, dts, vs |- *; [done|].
  intros [Hc0 Hnd]%NoDup_cons. destruct dts as [|d0 dts], vs as [|v0 vs], j as [|j];
    cbn [lookup list_lookup row_of]; try done.
  - intros [= ->] [= ->] [= ->].
    destruct (if numeric d then cell_q v else None) as [q|] eqn:E; [by rewrite lookup_insert_eq|].
    destruct (row_of cols dts vs !! c) eqn:E'; [|done]. exfalso. apply Hc0, (row_of_keys _ dts vs).
    by rewrite E'.
  - intros Hc Hd Hv. assert (c ≠ c0) by (intros ->; apply Hc0; by eapply list_elem_of_lookup_2).
    destruct (if numeric d0 then cell_q v0 else None); [rewrite lookup_insert_ne by done|]; by apply (IH dts vs j).
Qed.

Lemma analysable_spec t j c dt vs v :
  analysable t = true → t_columns t !! j = Some c → t_dtypes t !! j = Some dt →
  vs ∈ t_rows t → vs !! j = Some v → c ∈ analysed_cols →
  numeric dt = true ∧ finite_value v = true.
Proof.
  intros Ha Hc Hd Hvs Hv Han. unfold analysable in Ha. rewrite forallb_forall in Ha.
  specialize (Ha j). rewrite Hc, Hd, <-list_elem_of_In, elem_of_seq in Ha.
  rewrite bool_decide_true in Ha by done.
  apply andb_prop in Ha as [Hn Hf]; [|split; [lia | by eapply lookup_lt_Some]].
  split; [done|]. rewrite forallb_forall in Hf. specialize (Hf vs). rewrite Hv in Hf.
  by apply Hf, list_elem_of_In.
Qed.

Lemma numeric_cell_q dt v :
  value_of dt v = true → numeric dt = true → finite_value v = true → (cell_q v = None ↔ v = VNaN).
Proof. by destruct dt, v. Qed.

(** C24: the frame of the analysis is the text read.  When the text
    tokenizes into a header and data records that fit ([data_rows]
    returns), [read_csv] returns a table, and when the frame of the
    analysis is defined on it, the frame's columns are the mangled
    header, distinct, it has one row per data record, its rows have keys
    among its columns only, and the cell of an analysed column in row [i]
    is read from the field of that column in the [i]-th data record:
    missing exactly when the field is an NA string, otherwise the integer
    or decimal number of the field. *)
Theorem read_csv_frame s l hdr data rs :
  tokenize (String.list_ascii_of_string s) = ((l, hdr) :: data, None) →
  data_rows (length hdr) data = Ok rs →
  ∃ t, read_csv s = Ok t ∧ ∀ d, to_frame t = Some d →
    header_names hdr = Some (columns d) ∧ NoDup (columns d) ∧ length (rows d) = length data ∧
    frame_wf d ∧
    ∀ i j fs f c, body_of (length hdr) rs !! i = Some fs → fs !! j = Some f →
      columns d !! j = Some c → c ∈ analysed_cols →
      ∃ r, rows d !! i = Some r ∧ (r !! c = None ↔ is_na f = true) ∧
        ∀ q, r !! c = Some q → (∃ z, parse_int f = Some z ∧ q = inject_Z z) ∨ parse_double f = Some q.
Proof.
  intros Htok Hrows. destruct (header_names_sound hdr) as (names & Hn & Hl & Hnd).
  remember (table_of names (length hdr) rs) as t eqn:Et.
  assert (Hread : read_csv s = Ok t)
    by (subst t; unfold read_csv; rewrite Htok, Hrows; cbn [mbind result_bind]; by rewrite Hn).
  exists t. split; [done|]. intros d Hd.
  unfold to_frame in Hd. destruct (analysable t) eqn:Ha; [|done]. injection Hd as <-.
  assert (Hcols : t_columns t = names) by (by subst t).
  cbn [columns rows]. rewrite Hcols. split_and!; [done | done | | |].
  - rewrite length_fmap. subst t. unfold table_of. cbn [t_rows]. rewrite length_columns_of.
    unfold body_of. rewrite length_fmap. exact (data_rows_length _ _ _ Hrows).
  - apply Forall_fmap, Forall_true. intros vs c Hc. cbn. by eapply row_of_keys.
  - intros i j fs f c Hi Hj Hc Han.
    destruct (table_of_cell names (length hdr) rs i j fs f) as (vs & v & dt & Hvs & Hv & Hdt & Hrf);
      [done | done | rewrite <-Hl; by eapply lookup_lt_Some |].
    rewrite <-Et in Hvs, Hdt. exists (row_of names (t_dtypes t) vs).
    rewrite list_lookup_fmap, Hvs. split; [done|].
    rewrite (row_of_lookup _ _ _ j c dt v) by done.
    destruct (analysable_spec t j c dt vs v Ha) as [Hnum Hfin];
      [by rewrite Hcols | done | by eapply list_elem_of_lookup_2 | done | done |].
    rewrite Hnum. by apply (read_from_numeric dt).
Qed.

End Reader.

(** ** Samples *)

Import Tokenizer Header Reader.

(** The four rows of [sample_frame] as a CSV text, a missing value as an
    empty field. *)
Definition sample_csv : string :=
"2021_GDP,2019_HE,2021_HE
100,8,9
,4,
300,10,12
200,5,7
".

Definition sample_table : table :=
  Eval vm_compute in match read_csv sample_csv with Ok t => t | Err _ => Table [] [] [] end.

(** The [2019_HE] column, integers without a missing value, is read as
    [int64]; the two others, with an empty field, as [float64]. *)
Lemma sample_table_dtypes : t_dtypes sample_table = [Float64; Int64; Float64].
Proof. reflexivity. Qed.

(** Records with a separator, a quote, an empty and a blank field. *)
Definition sample_records : list (list string) :=
  [["a"; "x,y"]; [""]; [" "; String quote "z"]; ["1"; ""; "2"]].

Lemma tokenize_render_witness :
  Forall (λ r, r ≠ []) sample_records ∧
  tokenize (render_csv sample_records) = (zip (seq 1 4) sample_records, None).
Proof. split; [decide_goal | apply tokenize_render; decide_goal]. Defined.

(** The data records of [sample_csv]. *)
Definition sample_data : list (nat * list string) :=
  [(2%nat, ["100"; "8"; "9"]); (3%nat, [""; "4"; ""]); (4%nat, ["300"; "10"; "12"]);
   (5%nat, ["200"; "5"; "7"])].

Lemma read_csv_frame_witness :
  read_csv sample_csv = Ok sample_table ∧ to_frame sample_table = Some sample_frame ∧
  NoDup (columns sample_frame) ∧ length (rows sample_frame) = length sample_data ∧ frame_wf sample_frame.
Proof.
  assert (Ht : tokenize (String.list_ascii_of_string sample_csv) = ((1%nat, sample_columns) :: sample_data, None))
    by (vm_compute; reflexivity).
  assert (Hd : data_rows (length sample_columns) sample_data = Ok (snd <$> sample_data))
    by (vm_compute; reflexivity).
  assert (H1 : read_csv sample_csv = Ok sample_table) by (vm_compute; reflexivity).
  assert (H2 : to_frame sample_table = Some sample_frame) by (vm_compute; reflexivity).
  destruct (read_csv_frame _ _ _ _ _ Ht Hd) as (t & Hr & Hf).
  rewrite H1 in Hr. injection Hr as <-.
  destruct (Hf sample_frame H2) as (_ & Hnd & Hlen & Hwf & _).
  split_and!; [exact H1 | exact H2 | exact Hnd | exact Hlen | exact Hwf].
Defined.


