(* ===== verification/Splitter.v ===== *)
(** * The Splitter: lines 23-33 of [analyze_split]

    [data.sort_values(by='2021_GDP', ascending=False)] orders the rows by
    decreasing GDP with the missing values last (pandas' [na_position]
    default); the cutoff [int(len * (p / 100))] of [Float64] is clamped to
    [1, len-1]; [iloc[:cutoff]] is the upper group and [iloc[cutoff:]] the
    lower one.

    pandas sorts a single column with numpy's quicksort, which is not
    stable, so the order it gives rows with equal GDP is unspecified.  The
    model states what every such sort does as a class, [SortValues]: the
    result is a permutation of the rows, ordered by the key.  The theorems
    of this file hold for every instance.  Two instances exist:
    [merge_sort_values], stdpp's merge sort, and [rev_merge_sort_values],
    an ascending sort reversed, which breaks ties the other way. *)

From S2P Require Import Prelude Float64 Frame.

(** ** The order of [sort_values(ascending=False)] *)

(** [key_before a b]: a row whose key is [a] may come before a row whose
    key is [b]: values in decreasing order, NaN after every value. *)
Definition key_before (a b : option Q) : Prop :=
  match a, b with
  | Some x, Some y => y <= x
  | Some _, None => True
  | None, Some _ => False
  | None, None => True
  end.

Definition row_before (c : string) (r1 r2 : row) : Prop :=
  key_before (r1 !! c) (r2 !! c).

#[export] Instance key_before_dec : RelDecision key_before.
Proof.
  intros [x|] [y|]; simpl; try apply _.
  destruct (Qle_bool y x) eqn:E;
    [left; by apply Qle_bool_iff | right; intros ?%Qle_bool_iff; congruence].
Defined.

#[export] Instance row_before_dec c : RelDecision (row_before c).
Proof. intros r1 r2. unfold row_before. apply _. Defined.

#[export] Instance key_before_refl : Reflexive key_before.
Proof. intros [x|]; simpl; [apply Qle_refl | done]. Qed.

#[export] Instance key_before_trans : Transitive key_before.
Proof. intros [x|] [y|] [z|]; simpl; try done. intros. eapply Qle_trans; eauto. Qed.

#[export] Instance key_before_total : Total key_before.
Proof.
  intros [x|] [y|]; simpl; auto.
  destruct (Qlt_le_dec x y); [right; by apply Qlt_le_weak | by left].
Qed.

#[export] Instance row_before_refl c : Reflexive (row_before c).
Proof. intros r. apply key_before_refl. Qed.
#[export] Instance row_before_trans c : Transitive (row_before c).
Proof. intros r1 r2 r3. apply key_before_trans. Qed.
#[export] Instance row_before_total c : Total (row_before c).
Proof. intros r1 r2. apply key_before_total. Qed.

(** ** The interface of pandas' sort *)

Class SortValues : Type := {
  sort_rows : string → list row → list row;
  sort_rows_perm c rs : sort_rows c rs ≡ₚ rs;
  sort_rows_sorted c rs : Sorted (row_before c) (sort_rows c rs)
}.

#[export] Instance merge_sort_values : SortValues := {|
  sort_rows c := merge_sort (row_before c);
  sort_rows_perm c := merge_sort_Permutation (row_before c);
  sort_rows_sorted c := Sorted_merge_sort (row_before c)
|}.

#[export] Instance row_before_flip_total c : Total (flip (row_before c)).
Proof. intros r1 r2. apply (row_before_total c r2 r1). Qed.

(** The rows sorted by increasing GDP and then reversed: another lawful
    tie-break, which puts rows of equal GDP in the opposite order. *)
Definition rev_merge_sort_values : SortValues := {|
  sort_rows c rs := reverse (merge_sort (flip (row_before c)) rs);
  sort_rows_perm c rs :=
    Permutation_trans (reverse_Permutation _) (merge_sort_Permutation (flip (row_before c)) rs);
  sort_rows_sorted c rs := Sorted_reverse _ _ (Sorted_merge_sort (flip (row_before c)) rs)
|}.

Section split.
Context `{!SortValues}.

(** [df.sort_values(by=c, ascending=False)]. *)
Definition sort_values (df : frame) (c : string) : result frame :=
  if decide (c ∈ columns df) then Ok (Frame (columns df) (sort_rows c (rows df)))
  else raise (KeyError c).

(** Line 29: [max(1, min(cutoff_idx, len(data_sorted) - 1))]. *)
Definition clamp_cutoff (n : nat) (c : Z) : Z := Z.max 1 (Z.min c (Z.of_nat n - 1)).

(** Lines 23-33: the sorted table split into the upper and the lower
    group. *)
Definition split_data (data : frame) (percentile_threshold : Z) : result (frame * frame) :=
  data_sorted ← sort_values data gdp_col;
  cutoff_idx ← cutoff_raw (length (rows data_sorted)) percentile_threshold;
  let cutoff_idx := clamp_cutoff (length (rows data_sorted)) cutoff_idx in
  Ok (iloc_to cutoff_idx data_sorted, iloc_from cutoff_idx data_sorted).

(** ** Unfolding a split *)

Lemma split_data_inv data p u l :
  split_data data p = Ok (u, l) →
  gdp_col ∈ columns data ∧
  ∃ c, cutoff_raw (length (rows data)) p = Ok c ∧
    columns u = columns data ∧ columns l = columns data ∧
    rows u = py_slice_to (clamp_cutoff (length (rows data)) c) (sort_rows gdp_col (rows data)) ∧
    rows l = py_slice_from (clamp_cutoff (length (rows data)) c) (sort_rows gdp_col (rows data)).
Proof.
  unfold split_data, sort_values. case_decide; [|done]. simpl.
  rewrite (Permutation_length (sort_rows_perm _ _)).
  destruct (cutoff_raw _ p) as [c|]; [|done]. simpl. intros [= <- <-].
  split; [done|]. exists c. done.
Qed.

Lemma split_data_ok data p c :
  gdp_col ∈ columns data → cutoff_raw (length (rows data)) p = Ok c →
  split_data data p =
    Ok (iloc_to (clamp_cutoff (length (rows data)) c) (Frame (columns data) (sort_rows gdp_col (rows data))),
        iloc_from (clamp_cutoff (length (rows data)) c) (Frame (columns data) (sort_rows gdp_col (rows data)))).
Proof.
  intros Hc Hcut. unfold split_data, sort_values. rewrite decide_True by done. simpl.
  by rewrite (Permutation_length (sort_rows_perm _ _)), Hcut.
Qed.

Lemma clamp_cutoff_range n c :
  (2 ≤ n)%nat → (1 <= clamp_cutoff n c <= Z.of_nat n - 1)%Z.
Proof. unfold clamp_cutoff. lia. Qed.

Lemma slice_clamp_lengths n c (s : list row) :
  length s = n →
  length (py_slice_to (clamp_cutoff n c) s) = Z.to_nat (Z.min (clamp_cutoff n c) (Z.of_nat n)) ∧
  length (py_slice_from (clamp_cutoff n c) s) = (n - Z.to_nat (Z.min (clamp_cutoff n c) (Z.of_nat n)))%nat.
Proof.
  intros <-. rewrite length_py_slice_to, length_py_slice_from.
  unfold clamp_cutoff. slice_cases; [lia|]. split; lia.
Qed.

(** ** The groups partition the table *)

(** C1: when the split succeeds, the upper and the lower group together
    are the rows of the table, each exactly once, and both keep the
    table's columns: the groups are disjoint and jointly exhaustive. *)
Theorem split_data_partition data p u l :
  split_data data p = Ok (u, l) →
  rows u ++ rows l ≡ₚ rows data ∧ columns u = columns data ∧ columns l = columns data.
Proof.
  intros (_ & c & _ & Hcu & Hcl & -> & ->)%split_data_inv.
  by rewrite py_slice_app, sort_rows_perm.
Qed.

(** C2: on a table of at least two rows, whatever the percentile, the
    upper and the lower group are both non-empty and their sizes add up
    to the table's. *)
Theorem split_data_sizes data p u l :
  split_data data p = Ok (u, l) → (2 ≤ length (rows data))%nat →
  (1 ≤ length (rows u))%nat ∧ (1 ≤ length (rows l))%nat ∧
  (length (rows u) + length (rows l) = length (rows data))%nat.
Proof.
  intros (_ & c & _ & _ & _ & -> & ->)%split_data_inv Hn.
  destruct (slice_clamp_lengths (length (rows data)) c (sort_rows gdp_col (rows data)))
    as [-> ->]; [by rewrite sort_rows_perm|].
  pose proof (clamp_cutoff_range _ c Hn). lia.
Qed.

(** C3: every row of the upper group comes before every row of the
    lower group in the order of [sort_values]: its GDP is at least as
    large, and a row whose GDP is missing is in the upper group only if
    every row of the lower group misses it too. *)
Theorem split_data_ordered data p u l x y :
  split_data data p = Ok (u, l) → x ∈ rows u → y ∈ rows l →
  row_before gdp_col x y.
Proof.
  intros (_ & c & _ & _ & _ & -> & ->)%split_data_inv Hx Hy.
  eapply (StronglySorted_app_1_elem_of (row_before gdp_col)); [|done..].
  rewrite py_slice_app. apply Sorted_StronglySorted; [apply _|].
  apply sort_rows_sorted.
Qed.

(** A table without the column ['2021_GDP'] makes [sort_values]
    raise [KeyError('2021_GDP')], for every percentile. *)
Theorem split_data_missing_column data p :
  gdp_col ∉ columns data → split_data data p = Err (KeyError gdp_col).
Proof. intros Hc. unfold split_data, sort_values. by rewrite decide_False. Qed.

Lemma split_data_lengths data p u l :
  split_data data p = Ok (u, l) →
  ∃ c, cutoff_raw (length (rows data)) p = Ok c ∧
    length (rows u) = Z.to_nat (Z.min (clamp_cutoff (length (rows data)) c) (Z.of_nat (length (rows data)))) ∧
    length (rows l) = (length (rows data) - length (rows u))%nat.
Proof.
  intros (_ & c & Hc & _ & _ & -> & ->)%split_data_inv. exists c. split; [done|].
  destruct (slice_clamp_lengths (length (rows data)) c (sort_rows gdp_col (rows data)))
    as [-> ->]; [by rewrite sort_rows_perm|done].
Qed.

Lemma split_data_exists data p c :
  gdp_col ∈ columns data → cutoff_raw (length (rows data)) p = Ok c →
  ∃ u l, split_data data p = Ok (u, l) ∧
    length (rows u) = Z.to_nat (Z.min (clamp_cutoff (length (rows data)) c) (Z.of_nat (length (rows data)))) ∧
    length (rows l) = (length (rows data) - length (rows u))%nat.
Proof.
  intros Hcol Hc. eexists _, _. split; [by apply split_data_ok|]. simpl.
  destruct (slice_clamp_lengths (length (rows data)) c (sort_rows gdp_col (rows data)))
    as [-> ->]; [by rewrite sort_rows_perm|done].
Qed.

(** C32: on the percentiles of the slider and tables of one to [max_rows]
    rows with a GDP column, the split raises nothing, and the upper group
    has [clamp(c)] rows for a cutoff [c] that is the spec's
    [floor(len * p / 100)] or one less; the lower group has the rest. *)
Theorem split_data_slider data p :
  gdp_col ∈ columns data → (1 ≤ length (rows data) ≤ max_rows)%nat → p ∈ slider_values →
  ∃ u l c, split_data data p = Ok (u, l) ∧
    (floor_cutoff (length (rows data)) p - 1 <= c <= floor_cutoff (length (rows data)) p)%Z ∧
    Z.of_nat (length (rows u)) = clamp_cutoff (length (rows data)) c ∧
    length (rows l) = (length (rows data) - length (rows u))%nat.
Proof.
  intros Hcol Hn Hp.
  destruct (cutoff_raw_slider_bounds (length (rows data)) p) as (c & Hc & Hb); [lia|done|].
  destruct (split_data_exists data p c) as (u & l & Hs & Hu & Hl); [done..|].
  exists u, l, c. do 2 (split; [done|]). split; [|done].
  rewrite Hu. unfold clamp_cutoff. lia.
Qed.

(** on the slider's percentiles and tables of at most [max_rows]
    rows, moving the slider up never shrinks the upper group. *)
Theorem split_data_monotone data p p' u l u' l' :
  (length (rows data) ≤ max_rows)%nat →
  p ∈ slider_values → p' ∈ slider_values → (p <= p')%Z →
  split_data data p = Ok (u, l) → split_data data p' = Ok (u', l') →
  (length (rows u) ≤ length (rows u'))%nat.
Proof.
  intros Hn Hp Hp' Hle (c & Hc & -> & _)%split_data_lengths (c' & Hc' & -> & _)%split_data_lengths.
  pose proof (cutoff_check_mono max_rows _ p p' c c' cutoff_check_max_rows Hn Hp Hp' Hle Hc Hc').
  unfold clamp_cutoff. lia.
Qed.

(** The spec's three scenarios on a table of ten rows: the slider at
    50 % gives groups of 5 and 5 rows; 0 % is clamped to 1 and 9 rows and
    100 % to 9 and 1, whatever the data. *)
Theorem split_data_ten_rows data :
  gdp_col ∈ columns data → length (rows data) = 10%nat →
  (∃ u l, split_data data 50 = Ok (u, l) ∧ length (rows u) = 5%nat ∧ length (rows l) = 5%nat) ∧
  (∃ u l, split_data data 0 = Ok (u, l) ∧ length (rows u) = 1%nat ∧ length (rows l) = 9%nat) ∧
  (∃ u l, split_data data 100 = Ok (u, l) ∧ length (rows u) = 9%nat ∧ length (rows l) = 1%nat).
Proof.
  intros Hcol Hn.
  assert (∀ p c k, cutoff_raw 10 p = Ok c →
    Z.to_nat (Z.min (clamp_cutoff 10 c) (Z.of_nat 10)) = k →
    ∃ u l, split_data data p = Ok (u, l) ∧ length (rows u) = k ∧
           length (rows l) = (10 - k)%nat) as Hs.
  { intros p c k Hc <-. rewrite <-Hn in Hc |- *.
    destruct (split_data_exists data p c) as (u & l & ? & Hu & Hl); [done..|].
    exists u, l. by rewrite <-Hu. }
  split_and!; [apply (Hs _ 5%Z) | apply (Hs _ 0%Z) | apply (Hs _ 10%Z)];
    vm_compute; reflexivity.
Qed.

Lemma split_single_row_groups data p u l :
  length (rows data) = 1%nat → split_data data p = Ok (u, l) →
  rows u = rows data ∧ rows l = [].
Proof.
  intros Hn (_ & c & _ & _ & _ & -> & ->)%split_data_inv.
  pose proof (sort_rows_perm gdp_col (rows data)) as Hp.
  destruct (rows data) as [|r [|]]; simplify_eq/=.
  symmetry in Hp. apply Permutation_length_1_inv in Hp. rewrite Hp.
  unfold clamp_cutoff. slice_cases; simpl in *; [lia|].
  by replace (Z.to_nat _) with 1%nat by lia.
Qed.

(** On a table of a single row, the split does not raise: the upper
    group is the whole table and the lower group is empty (the spec asks
    for an [InsufficientDataError] instead). *)
Theorem split_data_single_row data p u l :
  length (rows data) = 1%nat → split_data data p = Ok (u, l) →
  rows u = rows data ∧ rows l = [].
Proof. apply split_single_row_groups. Qed.
End split.

(** ** Independence from the tie-break of the sort *)

(** The GDP of a row in canonical form: two rows tie in [sort_values]
    exactly when their [gdp_key]s are equal. *)
Definition gdp_key (r : row) : option Q := Qred <$> r !! gdp_col.

Lemma key_before_Qred (a b : option Q) :
  key_before (Qred <$> a) (Qred <$> b) ↔ key_before a b.
Proof.
  destruct a, b; cbn [fmap option_fmap option_map key_before]; try done.
  by rewrite !Qred_correct.
Qed.

Lemma row_before_gdp_key x y :
  row_before gdp_col x y ↔ key_before (gdp_key x) (gdp_key y).
Proof. unfold row_before, gdp_key. by rewrite key_before_Qred. Qed.

Lemma gdp_key_antisym x y :
  key_before (gdp_key x) (gdp_key y) → key_before (gdp_key y) (gdp_key x) →
  gdp_key x = gdp_key y.
Proof.
  unfold gdp_key. rewrite !key_before_Qred.
  destruct (x !! gdp_col) as [a|], (y !! gdp_col) as [b|]; cbn; try done.
  intros. f_equal. apply Qred_complete. by apply Qle_antisym.
Qed.

(** Two lawful sorts give the same sequence of GDP values. *)
Lemma sort_rows_gdp_keys (S1 S2 : SortValues) rs :
  gdp_key <$> @sort_rows S1 gdp_col rs = gdp_key <$> @sort_rows S2 gdp_col rs.
Proof.
  apply (Sorted_canon_unique (row_before gdp_col) key_before gdp_key).
  - intros x y. apply row_before_gdp_key.
  - apply gdp_key_antisym.
  - apply sort_rows_sorted.
  - apply sort_rows_sorted.
  - by rewrite !sort_rows_perm.
Qed.

(** the split does not depend on how the sort breaks ties in the
    GDP: for any two sorts satisfying [SortValues] (pandas' quicksort, a
    stable sort), the upper groups have the same GDP values in the same
    order, and so have the lower groups. *)
Theorem split_data_tie_independent (S1 S2 : SortValues) data p u1 l1 u2 l2 :
  @split_data S1 data p = Ok (u1, l1) → @split_data S2 data p = Ok (u2, l2) →
  gdp_key <$> rows u1 = gdp_key <$> rows u2 ∧ gdp_key <$> rows l1 = gdp_key <$> rows l2.
Proof.
  intros (_ & c1 & Hc1 & _ & _ & -> & ->)%split_data_inv
         (_ & c2 & Hc2 & _ & _ & -> & ->)%split_data_inv.
  rewrite Hc1 in Hc2. injection Hc2 as <-.
  rewrite !fmap_py_slice_to, !fmap_py_slice_from, (sort_rows_gdp_keys S1 S2). done.
Qed.

(** Cut a list sorted by GDP where the first row after the cut has a GDP
    that no row before the cut shares: the two parts are the rows that
    come strictly before that row and the rows that do not. *)
Lemma sorted_untied_filter su b sl :
  StronglySorted (row_before gdp_col) (su ++ b :: sl) →
  (∀ x, x ∈ su → gdp_key x ≠ gdp_key b) →
  su = filter (λ x, ¬ row_before gdp_col b x) (su ++ b :: sl) ∧
  b :: sl = filter (row_before gdp_col b) (su ++ b :: sl).
Proof.
  intros Hs Hne.
  assert (Forall (λ x, ¬ row_before gdp_col b x) su) as Hsu.
  { apply Forall_forall. intros x Hx Hbx. apply (Hne x Hx).
    apply gdp_key_antisym; apply row_before_gdp_key; [|done].
    eapply StronglySorted_app_1_elem_of; [done|done|left]. }
  assert (Forall (row_before gdp_col b) (b :: sl)) as Hbl.
  { apply StronglySorted_app_1_r, StronglySorted_cons in Hs as [Hb _].
    by constructor. }
  rewrite !filter_app. split.
  - rewrite (filter_Forall_id _ su Hsu), (filter_Forall_nil _ (b :: sl)), app_nil_r; [done|].
    eapply Forall_impl; [apply Hbl|]. naive_solver.
  - by rewrite (filter_Forall_id _ (b :: sl) Hbl), (filter_Forall_nil _ su Hsu).
Qed.

Lemma slice_untied_filter k s b sl :
  StronglySorted (row_before gdp_col) s → py_slice_from k s = b :: sl →
  (∀ x, x ∈ py_slice_to k s → gdp_key x ≠ gdp_key b) →
  py_slice_to k s = filter (λ x, ¬ row_before gdp_col b x) s ∧
  py_slice_from k s = filter (row_before gdp_col b) s.
Proof.
  intros Hs Hfrom Hne. pose proof (py_slice_app k s) as Happ. rewrite Hfrom in Happ.
  destruct (sorted_untied_filter (py_slice_to k s) b sl) as [H1 H2]; [by rewrite Happ|done|].
  rewrite Happ in H1, H2. by rewrite Hfrom.
Qed.

Lemma filter_row_before_key b b' (l : list row) :
  gdp_key b = gdp_key b' →
  filter (row_before gdp_col b) l = filter (row_before gdp_col b') l ∧
  filter (λ x, ¬ row_before gdp_col b x) l = filter (λ x, ¬ row_before gdp_col b' x) l.
Proof.
  intros Hb. split; apply list_filter_iff; intros x; rewrite !row_before_gdp_key, Hb; done.
Qed.

Lemma split_groups_untied (S1 S2 : SortValues) data p u1 l1 u2 l2 :
  @split_data S1 data p = Ok (u1, l1) → @split_data S2 data p = Ok (u2, l2) →
  (∀ x y, x ∈ rows u1 → y ∈ rows l1 → gdp_key x ≠ gdp_key y) →
  rows u1 ≡ₚ rows u2 ∧ rows l1 ≡ₚ rows l2.
Proof.
  intros Hs1 Hs2 Hne.
  destruct (split_data_tie_independent S1 S2 data p u1 l1 u2 l2 Hs1 Hs2) as [Hku Hkl].
  apply split_data_inv in Hs1 as (_ & c1 & Hc1 & _ & _ & Hu1 & Hl1).
  apply split_data_inv in Hs2 as (_ & c2 & Hc2 & _ & _ & Hu2 & Hl2).
  rewrite Hc1 in Hc2. injection Hc2 as <-.
  set (k := clamp_cutoff _ c1) in *.
  set (s1 := @sort_rows S1 gdp_col (rows data)) in *.
  set (s2 := @sort_rows S2 gdp_col (rows data)) in *.
  assert (s1 ≡ₚ s2) as Hs12 by (unfold s1, s2; by rewrite !sort_rows_perm).
  assert (∀ S, StronglySorted (row_before gdp_col) (@sort_rows S gdp_col (rows data))) as Hsort.
  { intros S. apply Sorted_StronglySorted; [apply _|apply sort_rows_sorted]. }
  rewrite Hu1, Hu2, Hl1, Hl2 in *.
  assert (length (py_slice_from k s1) = length (py_slice_from k s2)) as Hlen.
  { by rewrite <-(length_fmap gdp_key (py_slice_from k s1)), Hkl, length_fmap. }
  destruct (py_slice_from k s1) as [|b1 sl1] eqn:E1,
           (py_slice_from k s2) as [|b2 sl2] eqn:E2; simpl in Hlen; try lia.
  - (* empty lower groups: both upper groups are the whole table *)
    rewrite <-(app_nil_r (py_slice_to k s1)), <-(app_nil_r (py_slice_to k s2)).
    rewrite <-E1 at 1. rewrite <-E2 at 1. rewrite !py_slice_app. auto.
  - simpl in Hkl. injection Hkl as Hb _.
    destruct (slice_untied_filter k s1 b1 sl1) as [Hf1 Hg1]; [apply Hsort|done|..].
    { intros x Hx. apply Hne; [done|left]. }
    destruct (slice_untied_filter k s2 b2 sl2) as [Hf2 Hg2]; [apply Hsort|done|..].
    { intros x Hx. rewrite <-Hb.
      assert (gdp_key x ∈ gdp_key <$> py_slice_to k s1) as (x1 & Hx1 & Hx1')%list_elem_of_fmap.
      { rewrite Hku. by apply list_elem_of_fmap_2. }
      rewrite Hx1. apply Hne; [done|left]. }
    destruct (filter_row_before_key b1 b2 s2 Hb) as [Hg Hf].
    rewrite <-E1, <-E2, Hf1, Hf2, Hg1, Hg2, <-Hf, <-Hg, Hs12. auto.
Qed.

(** When no row of the upper group has the same GDP as a row of the
    lower group, two lawful sorts give the same groups up to the order of
    their rows: the same rows, each as many times. *)
Theorem split_data_untied (S1 S2 : SortValues) data p u1 l1 u2 l2 :
  @split_data S1 data p = Ok (u1, l1) → @split_data S2 data p = Ok (u2, l2) →
  (∀ x y, x ∈ rows u1 → y ∈ rows l1 → gdp_key x ≠ gdp_key y) →
  rows u1 ≡ₚ rows u2 ∧ rows l1 ≡ₚ rows l2.
Proof. apply split_groups_untied. Qed.

(** ** The split on the sample tables *)

Definition sample_upper : frame := Frame sample_columns [sample_a; sample_c].
Definition sample_lower : frame := Frame sample_columns [sample_b; sample_d].

Lemma split_data_sample : split_data sample_frame 50 = Ok (sample_upper, sample_lower).
Proof. vm_compute. reflexivity. Qed.

Lemma split_data_partition_witness :
  rows sample_upper ++ rows sample_lower ≡ₚ rows sample_frame ∧
  columns sample_upper = columns sample_frame ∧ columns sample_lower = columns sample_frame.
Proof. apply (split_data_partition sample_frame 50). vm_compute. reflexivity. Defined.

Lemma split_data_sizes_witness :
  (1 ≤ length (rows sample_upper))%nat ∧ (1 ≤ length (rows sample_lower))%nat ∧
  (length (rows sample_upper) + length (rows sample_lower) = length (rows sample_frame))%nat.
Proof. apply (split_data_sizes sample_frame 50); [vm_compute; reflexivity | simpl; lia]. Defined.

Lemma split_data_ordered_witness : row_before gdp_col sample_c sample_d.
Proof.
  apply (split_data_ordered sample_frame 50 sample_upper sample_lower);
    [vm_compute; reflexivity | right; left | right; left].
Defined.

Lemma split_data_missing_column_witness :
  split_data (Frame [he2019_col; he2021_col] (rows sample_frame)) 50 = Err (KeyError gdp_col).
Proof. apply split_data_missing_column. simpl. apply (bool_decide_unpack _). vm_compute. exact I. Defined.

Lemma split_data_slider_witness :
  ∃ u l c, split_data sample_frame 50 = Ok (u, l) ∧
    (floor_cutoff 4 50 - 1 <= c <= floor_cutoff 4 50)%Z ∧
    Z.of_nat (length (rows u)) = clamp_cutoff 4 c ∧
    length (rows l) = (4 - length (rows u))%nat.
Proof.
  apply (split_data_slider sample_frame 50).
  - apply (bool_decide_unpack _). vm_compute. exact I.
  - unfold max_rows. simpl. lia.
  - apply list_elem_of_lookup. exists 9%nat. reflexivity.
Defined.

Definition sample_upper_25 : frame := Frame sample_columns [sample_a].
Definition sample_lower_25 : frame := Frame sample_columns [sample_c; sample_b; sample_d].

Lemma split_data_monotone_witness :
  (length (rows sample_upper_25) ≤ length (rows sample_upper))%nat.
Proof.
  apply (split_data_monotone sample_frame 25 50 _ sample_lower_25 _ sample_lower).
  - unfold max_rows. simpl. lia.
  - apply list_elem_of_lookup. exists 4%nat. reflexivity.
  - apply list_elem_of_lookup. exists 9%nat. reflexivity.
  - lia.
  - vm_compute. reflexivity.
  - vm_compute. reflexivity.
Defined.

Lemma split_data_ten_rows_witness :
  (∃ u l, split_data sample_ten 50 = Ok (u, l) ∧ length (rows u) = 5%nat ∧ length (rows l) = 5%nat) ∧
  (∃ u l, split_data sample_ten 0 = Ok (u, l) ∧ length (rows u) = 1%nat ∧ length (rows l) = 9%nat) ∧
  (∃ u l, split_data sample_ten 100 = Ok (u, l) ∧ length (rows u) = 9%nat ∧ length (rows l) = 1%nat).
Proof.
  apply split_data_ten_rows; [apply (bool_decide_unpack _); vm_compute; exact I | reflexivity].
Defined.

Definition sample_single : frame := Frame sample_columns [sample_c].

Lemma split_data_single_row_witness :
  rows sample_single = rows sample_single ∧ rows (Frame sample_columns []) = [].
Proof.
  apply (split_data_single_row sample_single 50); [reflexivity | vm_compute; reflexivity].
Defined.

(** The split of a sample under a given sort. *)
Definition split_of (r : result (frame * frame)) : frame * frame :=
  match r with Ok ul => ul | Err _ => (Frame [] [], Frame [] []) end.

Definition tie_cut_split1 : frame * frame :=
  Eval vm_compute in split_of (@split_data merge_sort_values sample_tie_cut 35).
Definition tie_cut_split2 : frame * frame :=
  Eval vm_compute in split_of (@split_data rev_merge_sort_values sample_tie_cut 35).
Definition tied_split1 : frame * frame :=
  Eval vm_compute in split_of (@split_data merge_sort_values sample_tied 50).
Definition tied_split2 : frame * frame :=
  Eval vm_compute in split_of (@split_data rev_merge_sort_values sample_tied 50).

(** The two sorts put different rows of GDP 5 in the upper group, with
    the same keys. *)
Lemma split_data_tie_independent_witness :
  gdp_key <$> rows tie_cut_split1.1 = gdp_key <$> rows tie_cut_split2.1 ∧
  gdp_key <$> rows tie_cut_split1.2 = gdp_key <$> rows tie_cut_split2.2.
Proof.
  apply (split_data_tie_independent merge_sort_values rev_merge_sort_values sample_tie_cut 35);
    vm_compute; reflexivity.
Defined.

(** The two sorts order the rows of each group differently, as the same
    multisets. *)
Lemma split_data_untied_witness :
  rows tied_split1.1 ≡ₚ rows tied_split2.1 ∧ rows tied_split1.2 ≡ₚ rows tied_split2.2.
Proof.
  apply (split_data_untied merge_sort_values rev_merge_sort_values sample_tied 50);
    [vm_compute; reflexivity | vm_compute; reflexivity |].
  apply Forall_pairs. decide_goal.
Defined.
