(* ===== verification/PyFloat.v ===== *)
(** * The float values pandas and numpy return

    The statistics of [analyze_split] are numpy float64 values.  The model
    computes them exactly and keeps the special values the code relies on:
    NaN (what pandas returns for a statistic of too few values, and what
    [nan < 0.05] compares false on) and the infinities (what scipy's t
    statistic is when both samples are constant).  The square roots of
    [std()], of [** 0.5] and of [m2 ** 1.5] are kept exact: a finite value
    is a surd [c * sqrt r] with [r >= 0], and products and quotients of
    surds are surds.

    [pf_compare] is the order of IEEE floats ([None] when a NaN is
    involved), from which Python's [<] and [>] are read; [≡] is equality
    of the values denoted, an equivalence coarser than [=], for which the
    operations are [Proper]. *)

From S2P Require Import Prelude.

(** [s_coef * sqrt s_rad]. *)
Record surd : Type := Surd { s_coef : Q; s_rad : Q }.

Inductive pyfloat : Type :=
  | Num (s : surd)
  | Inf (neg : bool)
  | NaN.

Definition of_Q (q : Q) : pyfloat := Num (Surd q 1).

(** A statistic pandas reports as NaN when it is undefined. *)
Definition of_optQ (o : option Q) : pyfloat :=
  match o with Some q => of_Q q | None => NaN end.

(** ** Sign and order *)

(** The sign of [c * sqrt r] for [r >= 0]. *)
Definition surd_sign (s : surd) : comparison :=
  if Qeq_bool (s_coef s) 0 || Qeq_bool (s_rad s) 0 then Eq
  else if Qlt_bool 0 (s_coef s) then Gt else Lt.

(** The square of the value: [c * c * r]. *)
Definition surd_sq (s : surd) : Q := s_coef s * s_coef s * s_rad s.

Definition comparison_rank (c : comparison) : Z :=
  match c with Lt => -1 | Eq => 0 | Gt => 1 end.

Definition surd_compare (a b : surd) : comparison :=
  match surd_sign a, surd_sign b with
  | Gt, Gt => Qcompare (surd_sq a) (surd_sq b)
  | Lt, Lt => Qcompare (surd_sq b) (surd_sq a)
  | sa, sb => Z.compare (comparison_rank sa) (comparison_rank sb)
  end.

(** The IEEE order; [None]: unordered, a NaN is involved. *)
Definition pf_compare (x y : pyfloat) : option comparison :=
  match x, y with
  | NaN, _ | _, NaN => None
  | Inf a, Inf b => Some (if eqb a b then Eq else if a then Lt else Gt)
  | Inf a, Num _ => Some (if a then Lt else Gt)
  | Num _, Inf b => Some (if b then Gt else Lt)
  | Num a, Num b => Some (surd_compare a b)
  end.

(** Python's [x < y] and [x > y] on floats: false when either is NaN. *)
Definition pf_lt (x y : pyfloat) : bool :=
  match pf_compare x y with Some Lt => true | _ => false end.
Definition pf_gt (x y : pyfloat) : bool :=
  match pf_compare x y with Some Gt => true | _ => false end.

(** ** Arithmetic with IEEE special values *)

Definition pf_mul (x y : pyfloat) : pyfloat :=
  match x, y with
  | NaN, _ | _, NaN => NaN
  | Inf a, Inf b => Inf (xorb a b)
  | Inf a, Num s | Num s, Inf a =>
      match surd_sign s with Eq => NaN | Lt => Inf (negb a) | Gt => Inf a end
  | Num a, Num b => Num (Surd (s_coef a * s_coef b) (s_rad a * s_rad b))
  end.

(** Division as numpy does it under [errstate(divide='ignore')]: a
    non-zero value over zero is an infinity, zero over zero is NaN. *)
Definition pf_div (x y : pyfloat) : pyfloat :=
  match x, y with
  | NaN, _ | _, NaN => NaN
  | Inf _, Inf _ => NaN
  | Inf a, Num s => match surd_sign s with Lt => Inf (negb a) | _ => Inf a end
  | Num _, Inf _ => of_Q 0
  | Num a, Num b =>
      match surd_sign b, surd_sign a with
      | Eq, Eq => NaN
      | Eq, Gt => Inf false
      | Eq, Lt => Inf true
      | _, _ => Num (Surd (s_coef a / s_coef b) (s_rad a / s_rad b))
      end
  end.

(** [np.sqrt(q)] and [q ** 0.5] of a rational: NaN below zero. *)
Definition pf_sqrtQ (q : Q) : pyfloat :=
  if Qlt_bool q 0 then NaN else Num (Surd 1 q).

(** [q ** 1.5]. *)
Definition pf_pow_3_2 (q : Q) : pyfloat :=
  if Qlt_bool q 0 then NaN else Num (Surd q q).

Definition pf_abs (x : pyfloat) : pyfloat :=
  match x with
  | Num s => Num (Surd (Qabs (s_coef s)) (s_rad s))
  | Inf _ => Inf false
  | NaN => NaN
  end.

(** ** Equality of the values denoted *)

Definition pf_equiv (x y : pyfloat) : Prop :=
  match x, y with
  | NaN, NaN => True
  | Inf a, Inf b => a = b
  | Num a, Num b => surd_sign a = surd_sign b ∧ surd_sq a == surd_sq b
  | _, _ => False
  end.

#[export] Instance pyfloat_equiv : Equiv pyfloat := pf_equiv.

#[export] Instance pyfloat_equivalence : Equivalence (≡@{pyfloat}).
Proof.
  split.
  - intros [s| |]; simpl; done.
  - intros [s| |] [t| |]; simpl; try done; try congruence.
    intros [H1 H2]. split; [done|]. by symmetry.
  - intros [s| |] [t| |] [u| |]; simpl; try done; try congruence.
    intros [H1 H2] [H3 H4]. split; [congruence|]. by rewrite H2.
Qed.

(** ** Lemmas *)

Lemma surd_sign_of_Q q :
  surd_sign (Surd q 1) = match Qcompare q 0 with Eq => Eq | Lt => Lt | Gt => Gt end.
Proof.
  unfold surd_sign; simpl. rewrite orb_false_r.
  destruct (Qcompare_spec q 0); repeat qcase; try done; lra.
Qed.

#[export] Instance of_Q_proper : Proper (Qeq ==> (≡)) of_Q.
Proof.
  intros x y Hxy.
  change (surd_sign (Surd x 1) = surd_sign (Surd y 1) ∧ surd_sq (Surd x 1) == surd_sq (Surd y 1)).
  rewrite !surd_sign_of_Q. unfold surd_sq; simpl. split; by rewrite Hxy.
Qed.

Lemma pf_equiv_Inf a b : Inf a ≡ Inf b → a = b.
Proof. intros H. exact H. Qed.

(** The order of floats depends only on the values denoted. *)
#[export] Instance pf_compare_proper : Proper ((≡) ==> (≡) ==> (=)) pf_compare.
Proof.
  intros [a| |] [a'| |] Ha [b| |] [b'| |] Hb; try done;
    repeat match goal with H : Inf _ ≡ Inf _ |- _ => apply pf_equiv_Inf in H; subst end; try done.
  destruct Ha as [Ha1 Ha2], Hb as [Hb1 Hb2]. cbn [pf_compare]. f_equal. unfold surd_compare. rewrite Ha1, Hb1.
  destruct (surd_sign a'), (surd_sign b'); try done; by apply Qcompare_comp.
Qed.

#[export] Instance pf_lt_proper : Proper ((≡) ==> (≡) ==> (=)) pf_lt.
Proof. intros x x' Hx y y' Hy. unfold pf_lt. by rewrite Hx, Hy. Qed.

#[export] Instance pf_gt_proper : Proper ((≡) ==> (≡) ==> (=)) pf_gt.
Proof. intros x x' Hx y y' Hy. unfold pf_gt. by rewrite Hx, Hy. Qed.

Lemma pf_gt_of_Q x y : pf_gt (of_Q x) (of_Q y) = true ↔ y < x.
Proof.
  unfold pf_gt, of_Q. cbn -[surd_sign surd_sq]. unfold surd_compare.
  rewrite !surd_sign_of_Q. unfold surd_sq; simpl.
  destruct (Qcompare_spec x 0), (Qcompare_spec y 0); simpl.
  all: try (split; [done|lra]); try (split; [lra|done]).
  all: rewrite ?Qmult_1_r.
  - destruct (Qcompare_spec (y * y) (x * x)); split; intros; try done; nra.
  - destruct (Qcompare_spec (x * x) (y * y)); split; intros; try done; nra.
Qed.

Lemma surd_compare_sym a b : surd_compare b a = CompOpp (surd_compare a b).
Proof.
  unfold surd_compare.
  destruct (surd_sign a), (surd_sign b); simpl; try done;
    rewrite Qcompare_antisym; by destruct (Qcompare _ _).
Qed.

Lemma pf_compare_sym x y : pf_compare y x = CompOpp <$> pf_compare x y.
Proof.
  destruct x as [a|[]|], y as [b|[]|]; simpl; try done.
  by rewrite surd_compare_sym.
Qed.

(** Python's [x < y] is [y > x]. *)
Lemma pf_lt_gt x y : pf_lt x y = pf_gt y x.
Proof.
  unfold pf_lt, pf_gt. rewrite (pf_compare_sym x y).
  destruct (pf_compare x y) as [[]|]; done.
Qed.

Lemma pf_lt_of_Q x y : pf_lt (of_Q x) (of_Q y) = true ↔ x < y.
Proof. rewrite pf_lt_gt. apply pf_gt_of_Q. Qed.

Lemma pf_compare_NaN_l y : pf_compare NaN y = None.
Proof. done. Qed.

(** A quotient of two rationals by a non-zero one is their rational
    quotient. *)
Lemma pf_div_of_Q x y : ¬ y == 0 → pf_div (of_Q x) (of_Q y) = of_Q (x / y).
Proof.
  intros Hy. unfold pf_div, of_Q. rewrite !surd_sign_of_Q.
  destruct (Qcompare_spec y 0); [done|..];
    destruct (Qcompare_spec x 0); reflexivity.
Qed.

Lemma pf_sqrtQ_nonneg q : 0 <= q → pf_sqrtQ q = Num (Surd 1 q).
Proof. intros Hq. unfold pf_sqrtQ. qcase; [lra|done]. Qed.

Lemma pf_div_sqrtQ v w : 0 <= v → 0 < w → pf_div (pf_sqrtQ v) (pf_sqrtQ w) = Num (Surd 1 (v / w)).
Proof.
  intros Hv Hw. rewrite !pf_sqrtQ_nonneg by lra. unfold pf_div, surd_sign; simpl.
  repeat qcase; try lra; done.
Qed.

(** ** Signs of quotients by a square root *)

Lemma surd_sign_pos c r : 0 < r → surd_sign (Surd c r) = Qcompare c 0.
Proof. intros Hr. unfold surd_sign; simpl. destruct (Qcompare_spec c 0); repeat qcase; try done; lra. Qed.

(** Python's comparison of a finite value with [0.0] is its sign. *)
Lemma pf_compare_zero a : pf_compare (Num a) (of_Q 0) = Some (surd_sign a).
Proof.
  unfold pf_compare, of_Q, surd_compare. change (surd_sign (Surd 0 1)) with Eq.
  by destruct (surd_sign a).
Qed.

Lemma pf_gt_zero_Inf : pf_gt (Inf false) (of_Q 0) = true.
Proof. reflexivity. Qed.

(** [d / sqrt(w)] under numpy's rules, when it is ordered with 0, has the
    sign of [d]. *)
Lemma pf_div_sqrt_sign d w c :
  pf_compare (pf_div (of_Q d) (pf_sqrtQ w)) (of_Q 0) = Some c → c = Qcompare d 0.
Proof.
  unfold pf_sqrtQ. qcase; [done|]. unfold pf_div, of_Q. rewrite surd_sign_of_Q.
  unfold surd_sign at 1; simpl. qcase.
  - destruct (Qcompare d 0); simpl; congruence.
  - rewrite pf_compare_zero, surd_sign_pos.
    + intros [= <-]. apply Qcompare_comp; [|done]. field.
    + apply Qlt_shift_div_l; lra.
Qed.

Lemma pf_div_sqrt_ordered d w :
  0 <= w → (0 < w ∨ ¬ d == 0) →
  pf_compare (pf_div (of_Q d) (pf_sqrtQ w)) (of_Q 0) = Some (Qcompare d 0).
Proof.
  intros Hw Hd. unfold pf_sqrtQ. qcase; [lra|]. unfold pf_div, of_Q. rewrite surd_sign_of_Q.
  unfold surd_sign at 1; simpl. qcase.
  - destruct (Qcompare_spec d 0); simpl; [|done..]. lra.
  - rewrite pf_compare_zero, surd_sign_pos.
    + f_equal. apply Qcompare_comp; [|done]. field.
    + apply Qlt_shift_div_l; lra.
Qed.

(** A non-zero difference over a zero spread is an infinity of its sign. *)
Lemma pf_div_sqrt_zero d w :
  w == 0 → ¬ d == 0 → pf_div (of_Q d) (pf_sqrtQ w) = Inf (Qlt_bool d 0).
Proof.
  intros Hw Hd. rewrite pf_sqrtQ_nonneg by lra. unfold pf_div, of_Q. rewrite surd_sign_of_Q.
  assert (surd_sign (Surd 1 w) = Eq) as -> by (unfold surd_sign; simpl; destruct (Qeq_boolP w 0); [reflexivity|lra]).
  destruct (Qcompare_spec d 0); [done|..]; destruct (Qlt_boolP d 0); done || lra.
Qed.

(** Halving a doubled rational is the rational. *)
Lemma pf_half_double q : pf_div (pf_mul (of_Q 2) (of_Q q)) (of_Q 2) ≡ of_Q q.
Proof.
  assert (Num (Surd (2 * q / 2) (1 * 1 / 1)) ≡ Num (Surd q 1)) as H.
  { split; [|unfold surd_sq; simpl; field].
    rewrite !surd_sign_pos by (vm_compute; reflexivity). apply Qcompare_comp; [field|done]. }
  exact H.
Qed.
