(* ===== verification/Format.v ===== *)
(** * Python's fixed-point formatting of floats

    The callback shows the t statistic and the p-value with
    [f"{x:.4f}"] (lines 390-391, 397-398) and the statistics with
    [f"{x:.2f}"] (lines 377-378).  Python's [format(x, '.<d>f')] prints
    [nan], [inf] and [-inf] for the special values; for a finite value it
    prints a minus sign when the value is negative (also when it rounds
    to zero: [-0.0000]), then the value times [10^d] rounded to the
    nearest integer, ties to even, with a point before its last [d]
    digits.

    The values of the model are exact ([PyFloat]); [py_format_fixed]
    rounds the exact value.  Python rounds the binary64 value it holds,
    which is the exact value up to the rounding of the float computation;
    the two strings differ only when the value lies within that rounding
    of a point halfway between two [d]-decimal numbers.

    [parse_fixed] reads a string of digits with one point back; the
    round trip [parse_fixed (show_fixed d n) = Some (n, d)] shows that the
    printed text denotes [n / 10^d]. *)

From Stdlib Require Import Ascii.
From stdpp Require Import pretty.
From S2P Require Import Prelude PyFloat.

(** ** Rounding *)

(** [floor (sqrt q)] for [q >= 0], in integers: for [q = a / b],
    [floor (sqrt (a * b) / b)]. *)
Definition sqrt_floor (q : Q) : Z := Z.sqrt (Qnum q * Zpos (Qden q)) / Zpos (Qden q).

(** [sqrt q] rounded to the nearest integer, ties to even. *)
Definition round_sqrt (q : Q) : Z :=
  let f := sqrt_floor q in
  match Qcompare (4 * q) (inject_Z ((2 * f + 1) ^ 2)) with
  | Lt => f
  | Gt => f + 1
  | Eq => if Z.even f then f else f + 1
  end.

(** ** Printing *)

Fixpoint zeros (n : nat) : string :=
  match n with O => "" | S n => String "0"%char (zeros n) end.

(** [s] padded on the left with zeros to [d] characters. *)
Definition pad_zeros (d : nat) (s : string) : string := zeros (d - String.length s) +:+ s.

(** The integer [n] printed with a point before its last [d] digits. *)
Definition show_fixed (d : nat) (n : N) : string :=
  match d with
  | O => pretty n
  | _ => pretty (n `div` 10 ^ N.of_nat d)%N +:+ "." +:+ pad_zeros d (pretty (n `mod` 10 ^ N.of_nat d)%N)
  end.

(** [format(x, '.<d>f')]. *)
Definition py_format_fixed (d : nat) (x : pyfloat) : string :=
  match x with
  | NaN => "nan"
  | Inf neg => if neg then "-inf" else "inf"
  | Num s =>
      (if surd_sign s is Lt then "-" else "") +:+
      show_fixed d (Z.to_N (round_sqrt (surd_sq s * inject_Z (10 ^ Z.of_nat d) ^ 2)))
  end.

(** ** Reading back *)

Definition digit_val (c : ascii) : option N :=
  let n := nat_of_ascii c in
  if decide (48 ≤ n ≤ 57)%nat then Some (N.of_nat (n - 48)) else None.

(** The digits of [s] appended to [acc]. *)
Fixpoint parse_digits (s : string) (acc : N) : option N :=
  match s with
  | EmptyString => Some acc
  | String c s' => d ← digit_val c; parse_digits s' (acc * 10 + d)%N
  end.

(** Digits, a point, digits: the integer of all the digits and the
    number of digits after the point. *)
Fixpoint parse_fixed_go (s : string) (acc : N) : option (N * nat) :=
  match s with
  | EmptyString => None
  | String c s' =>
      if decide (c = "."%char) then
        n ← parse_digits s' acc; Some (n, String.length s')
      else d ← digit_val c; parse_fixed_go s' (acc * 10 + d)%N
  end.

Definition parse_fixed (s : string) : option (N * nat) := parse_fixed_go s 0.

(** ** Lemmas on strings *)

Lemma string_app_cons c s t : String c s +:+ t = String c (s +:+ t).
Proof. reflexivity. Qed.

Lemma string_app_nil s : "" +:+ s = s.
Proof. reflexivity. Qed.

Lemma string_app_assoc s1 s2 s3 : (s1 +:+ s2) +:+ s3 = s1 +:+ (s2 +:+ s3).
Proof. induction s1; [done|]. rewrite !string_app_cons. by f_equal. Qed.

Lemma string_length_app s t : String.length (s +:+ t) = (String.length s + String.length t)%nat.
Proof. induction s; [done|]. rewrite string_app_cons. simpl. by f_equal. Qed.

Lemma zeros_length n : String.length (zeros n) = n.
Proof. induction n; simpl; auto. Qed.

#[export] Hint Rewrite string_app_cons string_app_nil string_length_app zeros_length : gdp_rw.

(** ** Digits *)

Lemma digit_val_char k : (k < 10)%N → digit_val (pretty_N_char k) = Some k.
Proof.
  intros Hk. assert (k = 0 ∨ k = 1 ∨ k = 2 ∨ k = 3 ∨ k = 4 ∨ k = 5 ∨ k = 6 ∨ k = 7 ∨ k = 8 ∨ k = 9)%N
    as Hk' by lia.
  repeat (destruct Hk' as [->|Hk']; [reflexivity|]). subst. reflexivity.
Qed.

Lemma digit_val_point : digit_val "."%char = None.
Proof. reflexivity. Qed.

(** The digits of [s] read after [acc] shift [acc] by [length s] places. *)
Lemma parse_digits_acc s acc :
  parse_digits s acc = (λ v, acc * 10 ^ N.of_nat (String.length s) + v)%N <$> parse_digits s 0.
Proof.
  revert acc. induction s as [|c s IH]; intros acc; simpl; [f_equal; lia|].
  destruct (digit_val c) as [d|]; simpl; [|done].
  rewrite (IH (acc * 10 + d)%N), (IH (0 * 10 + d)%N).
  destruct (parse_digits s 0); simpl; [|done]. f_equal. rewrite Nat2N.inj_succ, N.pow_succ_r'. lia.
Qed.

Lemma parse_digits_app s1 s2 acc :
  parse_digits (s1 +:+ s2) acc = parse_digits s1 acc ≫= parse_digits s2.
Proof.
  revert acc. induction s1 as [|c s IH]; intros acc; [done|].
  rewrite string_app_cons. simpl. destruct (digit_val c); simpl; [apply IH|done].
Qed.

Lemma parse_digits_zeros k acc : parse_digits (zeros k) acc = Some (acc * 10 ^ N.of_nat k)%N.
Proof.
  revert acc. induction k as [|k IH]; intros acc; simpl; [f_equal; lia|].
  rewrite IH. f_equal. rewrite Nat2N.inj_succ, N.pow_succ_r'. lia.
Qed.

Lemma pretty_N_go_app x s : pretty_N_go x s = pretty_N_go x "" +:+ s.
Proof.
  revert s. induction (N.lt_wf_0 x) as [x _ IH]; intros s.
  destruct (decide (x = 0)%N) as [->|Hx]; [by rewrite !pretty_N_go_0|].
  rewrite !(pretty_N_go_step x) by lia.
  pose proof (IH (x `div` 10)%N ltac:(apply N.div_lt; lia)) as IH'.
  rewrite (IH' (String (pretty_N_char (x `mod` 10)) s)), (IH' (String (pretty_N_char (x `mod` 10)) "")).
  by rewrite string_app_assoc.
Qed.

Lemma parse_pretty_N_go x : parse_digits (pretty_N_go x "") 0 = Some x.
Proof.
  induction (N.lt_wf_0 x) as [x _ IH].
  destruct (decide (x = 0)%N) as [->|Hx]; [done|].
  rewrite pretty_N_go_step, pretty_N_go_app, parse_digits_app by lia.
  rewrite IH by (apply N.div_lt; lia). simpl.
  rewrite digit_val_char by (apply N.mod_lt; lia). simpl. f_equal.
  rewrite (N.div_mod x 10) at 3 by lia. lia.
Qed.

(** [pretty] and [parse_digits] are inverse. *)
Lemma parse_pretty_N x : parse_digits (pretty x) 0 = Some x.
Proof.
  unfold pretty, pretty_N. case_decide; [by subst|]. apply parse_pretty_N_go.
Qed.

Lemma pretty_N_go_length d x : (x < 10 ^ N.of_nat d)%N → (String.length (pretty_N_go x "") ≤ d)%nat.
Proof.
  revert x. induction d as [|d IH]; intros x Hx.
  - assert (x = 0)%N as -> by (simpl in Hx; lia). done.
  - destruct (decide (x = 0)%N) as [->|Hn]; [simpl; lia|].
    rewrite pretty_N_go_step, pretty_N_go_app, string_length_app by lia. simpl.
    enough (String.length (pretty_N_go (x `div` 10) "") ≤ d)%nat by lia.
    apply IH. apply N.Div0.div_lt_upper_bound. rewrite Nat2N.inj_succ, N.pow_succ_r' in Hx. lia.
Qed.

Lemma pretty_N_length d x : (1 ≤ d)%nat → (x < 10 ^ N.of_nat d)%N → (String.length (pretty x) ≤ d)%nat.
Proof.
  intros Hd Hx. unfold pretty, pretty_N. case_decide; [simpl; lia|]. by apply pretty_N_go_length.
Qed.

Lemma parse_fixed_go_point s1 s2 acc m :
  parse_digits s1 acc = Some m →
  parse_fixed_go (s1 +:+ String "."%char s2) acc = n ← parse_digits s2 m; Some (n, String.length s2).
Proof.
  revert acc. induction s1 as [|c s IH]; intros acc Hs; simpl in Hs.
  - simplify_eq. by rewrite string_app_nil.
  - rewrite string_app_cons. cbn [parse_fixed_go].
    destruct (digit_val c) as [d|] eqn:Hc; simpl in Hs; [|done].
    rewrite decide_False by (intros ->; by rewrite digit_val_point in Hc).
    simpl. by apply IH.
Qed.

(** ** Rounding lemmas *)

Lemma sqrt_floor_Z a b :
  (0 ≤ a)%Z → (0 < b)%Z →
  let f := (Z.sqrt (a * b) / b)%Z in (0 ≤ f ∧ f * f * b ≤ a ∧ a < (f + 1) * (f + 1) * b)%Z.
Proof.
  intros Ha Hb f. pose proof (Z.sqrt_spec (a * b) ltac:(lia)) as [Hm1 Hm2].
  set (m := Z.sqrt (a * b)) in *.
  pose proof (Z.mul_div_le m b Hb) as Hd1. pose proof (Z.mul_succ_div_gt m b Hb) as Hd2.
  fold f in Hd1, Hd2. assert (0 ≤ m)%Z by apply Z.sqrt_nonneg.
  assert (0 ≤ f)%Z by (apply Z.div_pos; lia).
  split_and!; [done| |].
  - assert (b * f * (b * f) ≤ m * m)%Z by nia. nia.
  - assert (Z.succ m * Z.succ m ≤ b * Z.succ f * (b * Z.succ f))%Z by nia. nia.
Qed.

Lemma round_sqrt_spec q :
  0 <= q →
  let n := round_sqrt q in
  (0 ≤ n)%Z ∧ (n = 0%Z ∨ inject_Z ((2 * n - 1) ^ 2) <= 4 * q) ∧ 4 * q <= inject_Z ((2 * n + 1) ^ 2).
Proof.
  destruct q as [a b]. unfold Qle. cbn [Qnum Qden]. intros Ha. rewrite Z.mul_1_r in Ha.
  unfold round_sqrt, sqrt_floor. cbn [Qnum Qden].
  destruct (sqrt_floor_Z a (Zpos b) Ha eq_refl) as (Hf0 & Hf1 & Hf2).
  set (f := (Z.sqrt (a * Zpos b) / Zpos b)%Z) in *.
  unfold Qcompare, Qle, inject_Z. cbn [Qnum Qden Qmult]. rewrite !Z.pow_2_r.
  destruct (Z.compare_spec (4 * a * 1) ((2 * f + 1) * (2 * f + 1) * Zpos (1 * b))) as [E|E|E];
    [destruct (Z.even f)|..]; cbn [Qnum Qden] in *; split_and!; try lia;
    first [left; lia | right; nia | nia].
Qed.

Lemma sqrt_floor_spec q :
  0 <= q → (0 ≤ sqrt_floor q)%Z ∧ inject_Z (sqrt_floor q * sqrt_floor q) <= q ∧
    q < inject_Z ((sqrt_floor q + 1) * (sqrt_floor q + 1)).
Proof.
  destruct q as [a b]. unfold Qle, Qlt, sqrt_floor. cbn [Qnum Qden]. intros Ha. rewrite Z.mul_1_r in Ha.
  destruct (sqrt_floor_Z a (Zpos b) Ha eq_refl) as (H0 & H1 & H2). cbn. lia.
Qed.

Lemma sqrt_floor_neg q : q < 0 → sqrt_floor q = 0%Z.
Proof.
  destruct q as [a b]. unfold Qlt, sqrt_floor. cbn [Qnum Qden]. intros Ha.
  rewrite Z.sqrt_neg by lia. done.
Qed.

(** [floor (sqrt q)] depends on the value of [q], not on its fraction. *)
Lemma sqrt_floor_Qeq q q' : q == q' → sqrt_floor q = sqrt_floor q'.
Proof.
  intros Hq. destruct (Qlt_le_dec q 0) as [Hn|Hp].
  - rewrite !sqrt_floor_neg; [done| |done]. by rewrite <-Hq.
  - assert (Hp' : 0 <= q') by (by rewrite <-Hq).
    destruct (sqrt_floor_spec q Hp) as (Hf0 & Hf1 & Hf2), (sqrt_floor_spec q' Hp') as (Hg0 & Hg1 & Hg2).
    set (f := sqrt_floor q) in *. set (g := sqrt_floor q') in *.
    assert (inject_Z (f * f) <= q') by lra. assert (q' < inject_Z ((f + 1) * (f + 1))) by lra.
    assert (∀ x y : Z, inject_Z (x * x) < inject_Z ((y + 1) * (y + 1)) → (0 ≤ x)%Z → (0 ≤ y)%Z → (x ≤ y)%Z)
      as Hmono.
    { intros x y Hxy Hx Hy. rewrite <-Zlt_Qlt in Hxy. nia. }
    apply Z.le_antisymm; apply Hmono; auto; eapply Qle_lt_trans; eauto.
Qed.

Lemma round_sqrt_Qeq q q' : q == q' → round_sqrt q = round_sqrt q'.
Proof. intros Hq. unfold round_sqrt. by rewrite (sqrt_floor_Qeq q q' Hq), Hq. Qed.

(** The text depends only on the value denoted. *)
#[export] Instance py_format_fixed_proper d : Proper ((≡) ==> (=)) (py_format_fixed d).
Proof.
  intros [s| |] [t| |]; simpl; try done; [|by intros ->].
  intros [Hs Hq]. rewrite Hs. do 3 f_equal. apply round_sqrt_Qeq. by rewrite Hq.
Qed.

(** The rounding of a non-negative [q] below [k + 1/2] is at most [k]. *)
Lemma round_sqrt_sq_bound q (k : Z) :
  0 <= q → 2 * q < inject_Z (2 * k + 1) → (Z.of_N (Z.to_N (round_sqrt (q * q))) ≤ k)%Z.
Proof.
  intros Hq Hk. assert (Hqq : 0 <= q * q) by (apply Qmult_le_0_compat; lra).
  rewrite inject_Z_plus, inject_Z_mult in Hk. change (inject_Z 2) with (2 # 1) in Hk.
  change (inject_Z 1) with 1 in Hk.
  assert (Hk0 : (0 ≤ k)%Z).
  { assert (Hk' : -1 < inject_Z k) by lra. change (-1) with (inject_Z (-1)) in Hk'.
    rewrite <-Zlt_Qlt in Hk'. lia. }
  destruct (round_sqrt_spec _ Hqq) as (Hn0 & [Hz|Hn1] & _); rewrite Z2N.id by done; [lia|].
  set (n := round_sqrt (q * q)) in *. destruct (Z.le_gt_cases n k) as [|Hgt]; [done|exfalso].
  assert (Hz : ((2 * k + 1) * (2 * k + 1) <= (2 * n - 1) ^ 2)%Z) by nia.
  rewrite Zle_Qle, !inject_Z_mult, !inject_Z_plus, inject_Z_mult in Hz.
  change (inject_Z 2) with (2 # 1) in Hz. change (inject_Z 1) with 1 in Hz. nra.
Qed.

(** [show_fixed d n] reads back as [n] with [d] decimals. *)
Lemma show_fixed_parse d n : (1 ≤ d)%nat → parse_fixed (show_fixed d n) = Some (n, d).
Proof.
  intros Hd. destruct d as [|d]; [lia|]. cbn [show_fixed].
  set (B := (10 ^ N.of_nat (S d))%N).
  assert (HB : B ≠ 0%N) by (apply N.pow_nonzero; lia).
  pose proof (pretty_N_length (S d) (n `mod` B) ltac:(lia) (N.mod_lt n B HB)) as Hlen.
  unfold parse_fixed. rewrite (string_app_cons "."%char ""), string_app_nil.
  rewrite (parse_fixed_go_point _ _ 0 (n `div` B)) by apply parse_pretty_N.
  unfold pad_zeros. rewrite parse_digits_app, parse_digits_zeros. cbn [mbind option_bind].
  rewrite parse_digits_acc, parse_pretty_N. cbn [fmap option_fmap option_map mbind option_bind].
  rewrite string_length_app, zeros_length, Nat.sub_add by done. do 2 f_equal.
  rewrite <-N.mul_assoc, <-N.pow_add_r, <-Nat2N.inj_add, Nat.sub_add by done.
  fold B. rewrite N.mul_comm. symmetry. apply N.div_mod. done.
Qed.

(** ** Theorems *)

(** C21: [f"{x:.<d>f}"] of a finite value, [d >= 1], is a minus sign
    exactly when the value is negative, followed by a text that reads
    back as an integer [n] with [d] decimals, and [n] is [|x| * 10^d]
    rounded to the nearest integer: [|n - |x| * 10^d| <= 1/2], written
    with squares as [|x|] is a surd. *)
Theorem py_format_fixed_spec d s :
  (1 ≤ d)%nat → 0 <= s_rad s →
  ∃ body n, py_format_fixed d (Num s) = (if surd_sign s is Lt then "-" else "") +:+ body ∧
    parse_fixed body = Some (n, d) ∧
    (n = 0%N ∨ inject_Z ((2 * Z.of_N n - 1) ^ 2) <= 4 * (surd_sq s * inject_Z (10 ^ Z.of_nat d) ^ 2)) ∧
    4 * (surd_sq s * inject_Z (10 ^ Z.of_nat d) ^ 2) <= inject_Z ((2 * Z.of_N n + 1) ^ 2).
Proof.
  intros Hd Hr. set (q := surd_sq s * inject_Z (10 ^ Z.of_nat d) ^ 2).
  assert (Hq : 0 <= q).
  { unfold q, surd_sq. change (inject_Z (10 ^ Z.of_nat d) ^ 2)
      with (inject_Z (10 ^ Z.of_nat d) * inject_Z (10 ^ Z.of_nat d)).
    apply Qmult_le_0_compat; [apply Qmult_le_0_compat; [apply Qsquare_nonneg | done] | apply Qsquare_nonneg]. }
  destruct (round_sqrt_spec q Hq) as (H0 & H1 & H2).
  exists (show_fixed d (Z.to_N (round_sqrt q))), (Z.to_N (round_sqrt q)).
  rewrite Z2N.id by done. split_and!; [reflexivity | by apply show_fixed_parse | | done].
  destruct H1 as [Hz|H1]; [left; by rewrite Hz | by right].
Qed.

Lemma py_format_fixed_spec_witness :
  py_format_fixed 4 (Num (Surd 3 2)) = "4.2426" ∧
  ∃ body n, py_format_fixed 4 (Num (Surd 3 2)) = (if surd_sign (Surd 3 2) is Lt then "-" else "") +:+ body ∧
    parse_fixed body = Some (n, 4%nat) ∧
    (n = 0%N ∨ inject_Z ((2 * Z.of_N n - 1) ^ 2) <= 4 * (surd_sq (Surd 3 2) * inject_Z (10 ^ Z.of_nat 4) ^ 2)) ∧
    4 * (surd_sq (Surd 3 2) * inject_Z (10 ^ Z.of_nat 4) ^ 2) <= inject_Z ((2 * Z.of_N n + 1) ^ 2).
Proof.
  split; [vm_compute; reflexivity|]. apply py_format_fixed_spec; [lia | unfold Qle; simpl; lia].
Defined.
