(* ===== verification/Stats.v ===== *)
(** * The descriptive statistics of lines 47-62

    For each of the two years, [analyze_split] builds a dictionary of
    twelve statistics of the column [group[year]] with pandas' Series
    reductions.  They skip NaN (pandas' [skipna=True]), so each is a
    function of the values [dropna] keeps, except the standard error,
    whose divisor [len(group[year])] counts the NaN cells too.  Each
    definition follows pandas' [nanops] routine of the same name:
    [nanvar] and [nanstd] use [ddof=1] and give NaN for fewer than two
    values; [nanskew] and [nankurt] are the bias-corrected sample skewness
    and excess kurtosis, with pandas' [_zero_out_fperr] (magnitudes below
    [1e-14] read as 0) and their corner cases (NaN below 3 and 4 values, 0
    for a zero second moment); [nanmedian] averages the two middle values
    of an even count; an empty column gives NaN everywhere except [Sum]
    (0) and [Count] (0). *)

From S2P Require Import Prelude Frame PyFloat.

(** ** Sums and counts *)

Definition Qsum (xs : list Q) : Q := foldr Qplus 0 xs.

(** A count as a float. *)
Definition count_q (n : nat) : Q := inject_Z (Z.of_nat n).

(** ** The order used by the median *)

#[export] Instance Qle_rel_dec : RelDecision Qle.
Proof.
  intros x y. destruct (Qle_bool x y) eqn:E;
    [left; by apply Qle_bool_iff | right; intros ?%Qle_bool_iff; congruence].
Defined.

#[export] Instance Qle_total : Total Qle.
Proof. intros x y. destruct (Qlt_le_dec x y); [left; by apply Qlt_le_weak | by right]. Qed.

#[export] Instance Qle_transitive : Transitive Qle.
Proof. intros x y z. apply Qle_trans. Qed.

#[export] Instance Qle_reflexive : Reflexive Qle.
Proof. intros x. apply Qle_refl. Qed.

(** ** pandas' reductions over the non-NaN values *)

Definition nansum (xs : list Q) : Q := Qsum xs.

(** [Series.mean()]: [the_sum / count], NaN ([0/0]) for no value. *)
Definition nanmean (xs : list Q) : pyfloat :=
  pf_div (of_Q (Qsum xs)) (of_Q (count_q (length xs))).

Definition mean_q (xs : list Q) : Q := Qsum xs / count_q (length xs).

(** [Series.var()] with [ddof=1]: NaN for fewer than two values. *)
Definition nanvar_q (xs : list Q) : option Q :=
  if (length xs <=? 1)%nat then None
  else Some (Qsum ((λ x, (mean_q xs - x) * (mean_q xs - x)) <$> xs) / (count_q (length xs) - 1)).

Definition nanvar (xs : list Q) : pyfloat := of_optQ (nanvar_q xs).

(** [Series.std()]: [np.sqrt(nanvar(...))]. *)
Definition nanstd (xs : list Q) : pyfloat :=
  match nanvar_q xs with Some v => pf_sqrtQ v | None => NaN end.

(** [Series.median()]: the middle value of the sorted values, the mean of
    the two middle ones for an even count, NaN for no value. *)
Definition nanmedian (xs : list Q) : pyfloat :=
  let s := merge_sort Qle xs in
  let n := length s in
  if (n =? 0)%nat then NaN
  else if Nat.even n then of_Q ((nth (n / 2 - 1) s 0 + nth (n / 2) s 0) / 2)
  else of_Q (nth (n / 2) s 0).

(** [Series.min()] and [Series.max()]: [None] is NaN, for no value. *)
Definition nanmin_q (xs : list Q) : option Q :=
  match xs with [] => None | x :: xs' => Some (foldl Qmin x xs') end.
Definition nanmax_q (xs : list Q) : option Q :=
  match xs with [] => None | x :: xs' => Some (foldl Qmax x xs') end.

(** pandas' [_zero_out_fperr]: a magnitude below [1e-14] is read as 0. *)
Definition zero_out_fperr (x : Q) : Q :=
  if Qlt_bool (Qabs x) (1 # 100000000000000) then 0 else x.

(** [Series.skew()], pandas' [nanskew]. *)
Definition nanskew (xs : list Q) : pyfloat :=
  let count := count_q (length xs) in
  let mean := Qsum xs / count in
  let adjusted := (λ x, x - mean) <$> xs in
  let m2 := zero_out_fperr (Qsum ((λ a, a * a) <$> adjusted)) in
  let m3 := zero_out_fperr (Qsum ((λ a, a * a * a) <$> adjusted)) in
  let result :=
    pf_mul (pf_div (pf_mul (of_Q count) (pf_sqrtQ (count - 1))) (of_Q (count - 2)))
           (pf_div (of_Q m3) (pf_pow_3_2 m2)) in
  let result := if Qeq_bool m2 0 then of_Q 0 else result in
  if (length xs <? 3)%nat then NaN else result.

(** [Series.kurtosis()], pandas' [nankurt]: Fisher's excess kurtosis with
    the bias correction. *)
Definition nankurt (xs : list Q) : pyfloat :=
  let count := count_q (length xs) in
  let mean := Qsum xs / count in
  let adjusted := (λ x, x - mean) <$> xs in
  let adjusted2 := (λ a, a * a) <$> adjusted in
  let m2 := Qsum adjusted2 in
  let m4 := Qsum ((λ a2, a2 * a2) <$> adjusted2) in
  let adj := 3 * (count - 1) * (count - 1) / ((count - 2) * (count - 3)) in
  let numerator := count * (count + 1) * (count - 1) * m4 in
  let denominator := (count - 2) * (count - 3) * (m2 * m2) in
  let numerator := zero_out_fperr numerator in
  let denominator := zero_out_fperr denominator in
  if (length xs <? 4)%nat then NaN
  else if Qeq_bool denominator 0 then of_Q 0
  else of_Q (numerator / denominator - adj).

(** ** The twelve statistics of one column *)

Record stats : Type := Stats {
  st_mean : pyfloat;
  st_stderr : pyfloat;
  st_median : pyfloat;
  st_std : pyfloat;
  st_var : pyfloat;
  st_kurt : pyfloat;
  st_skew : pyfloat;
  st_range : pyfloat;
  st_min : pyfloat;
  st_max : pyfloat;
  st_sum : pyfloat;
  st_count : nat
}.

(** Lines 49-62, for the Series [s = group[year]]. *)
Definition descriptive_stats (s : list cell) : stats :=
  let xs := dropna s in
  {| st_mean := nanmean xs;
     st_stderr := pf_div (nanstd xs) (pf_sqrtQ (count_q (length s)));
     st_median := nanmedian xs;
     st_std := nanstd xs;
     st_var := nanvar xs;
     st_kurt := nankurt xs;
     st_skew := nanskew xs;
     st_range :=
       match nanmax_q xs, nanmin_q xs with
       | Some hi, Some lo => of_Q (hi - lo)
       | _, _ => NaN
       end;
     st_min := of_optQ (nanmin_q xs);
     st_max := of_optQ (nanmax_q xs);
     st_sum := of_Q (nansum xs);
     st_count := length xs |}.

(** Two results are equal when every statistic denotes the same value. *)
#[export] Instance stats_equiv : Equiv stats := λ a b,
  st_mean a ≡ st_mean b ∧ st_stderr a ≡ st_stderr b ∧ st_median a ≡ st_median b ∧
  st_std a ≡ st_std b ∧ st_var a ≡ st_var b ∧ st_kurt a ≡ st_kurt b ∧
  st_skew a ≡ st_skew b ∧ st_range a ≡ st_range b ∧ st_min a ≡ st_min b ∧
  st_max a ≡ st_max b ∧ st_sum a ≡ st_sum b ∧ st_count a = st_count b.

(** ** Lemmas on sums *)

Lemma Qsum_cons x xs : Qsum (x :: xs) = x + Qsum xs.
Proof. done. Qed.

(** A sum does not depend on the order of its terms, as a term: [Qplus]
    is commutative and associative up to [=]. *)
Lemma Qsum_Permutation xs ys : xs ≡ₚ ys → Qsum xs = Qsum ys.
Proof.
  induction 1 as [|x xs ys _ IH|x y xs|xs ys zs _ IH1 _ IH2]; simpl; try congruence.
  apply Qplus_left_comm_L.
Qed.

Lemma Qsum_fmap_Permutation (f : Q → Q) xs ys : xs ≡ₚ ys → Qsum (f <$> xs) = Qsum (f <$> ys).
Proof. intros E. apply Qsum_Permutation. by rewrite E. Qed.

Lemma count_q_S n : count_q (S n) == count_q n + 1.
Proof. unfold count_q. rewrite Nat2Z.inj_succ, <-Z.add_1_r, inject_Z_plus. done. Qed.

Lemma count_q_nonneg n : 0 <= count_q n.
Proof. unfold count_q. change 0 with (inject_Z 0). rewrite <-Zle_Qle. lia. Qed.

Lemma count_q_pos n : (1 ≤ n)%nat → 1 <= count_q n.
Proof. intros. unfold count_q. change 1 with (inject_Z 1). rewrite <-Zle_Qle. lia. Qed.

(** Bounds on every term bound the sum. *)
Lemma Qsum_bounds lo hi xs :
  (∀ x, x ∈ xs → lo <= x <= hi) →
  count_q (length xs) * lo <= Qsum xs <= count_q (length xs) * hi.
Proof.
  induction xs as [|x xs IH]; intros Hb.
  { cbn [length Qsum foldr]. change (count_q 0) with 0. lra. }
  rewrite Qsum_cons. cbn [length]. rewrite count_q_S.
  destruct (Hb x) as [Hx1 Hx2]; [left|].
  destruct IH as [IH1 IH2]; [intros y Hy; apply Hb; by right|]. lra.
Qed.

Lemma Qsum_nonneg xs : (∀ x, x ∈ xs → 0 <= x) → 0 <= Qsum xs.
Proof.
  induction xs as [|x xs IH]; intros Hb; [apply Qle_refl|]. rewrite Qsum_cons.
  assert (0 <= Qsum xs) by (apply IH; intros y Hy; apply Hb; by right).
  pose proof (Hb x ltac:(left)). lra.
Qed.

Lemma Qsum_zero xs : (∀ x, x ∈ xs → x == 0) → Qsum xs == 0.
Proof.
  induction xs as [|x xs IH]; intros Hb; [done|]. rewrite Qsum_cons.
  rewrite (Hb x ltac:(left)), IH; [done|]. intros y Hy. apply Hb. by right.
Qed.

(** ** Minimum and maximum *)


(** ** Minimum and maximum *)

Section select.
Context (op : Q → Q → Q) (R : Q → Q → Prop) `{!Reflexive R, !Transitive R}.
Hypothesis op_select : ∀ x y, op x y = x ∨ op x y = y.
Hypothesis op_bound : ∀ x y, R (op x y) x ∧ R (op x y) y.

(** A fold of a selecting operation returns one of the values it is
    given, [R]-below all of them. *)
Lemma foldl_select acc xs :
  (foldl op acc xs = acc ∨ foldl op acc xs ∈ xs) ∧
  R (foldl op acc xs) acc ∧ ∀ x, x ∈ xs → R (foldl op acc xs) x.
Proof.
  revert acc. induction xs as [|y xs IH]; intros acc; simpl.
  - split; [by left|]. split; [done|]. by intros ? ?%elem_of_nil.
  - destruct (IH (op acc y)) as (Hin & Hacc & Hall).
    destruct (op_bound acc y) as [H1 H2].
    split_and!.
    + destruct Hin as [->|Hin]; [|by right; right].
      destruct (op_select acc y) as [->| ->]; [by left | by right; left].
    + by trans (op acc y).
    + intros x [->|Hx]%elem_of_cons; [by trans (op acc y)|auto].
Qed.
End select.

Lemma Qmin_select x y : Qmin x y = x ∨ Qmin x y = y.
Proof. unfold Qmin, GenericMinMax.gmin. destruct (x ?= y); auto. Qed.
Lemma Qmax_select x y : Qmax x y = x ∨ Qmax x y = y.
Proof. unfold Qmax, GenericMinMax.gmax. destruct (x ?= y); auto. Qed.

Lemma nanmin_q_spec xs m :
  nanmin_q xs = Some m → m ∈ xs ∧ ∀ x, x ∈ xs → m <= x.
Proof.
  destruct xs as [|x0 xs]; simpl; [done|]. intros [= <-].
  destruct (foldl_select Qmin Qle Qmin_select (λ x y, conj (Q.le_min_l x y) (Q.le_min_r x y)) x0 xs)
    as (Hin & H0 & Hall).
  split; [destruct Hin as [->|]; [left|by right]|].
  intros x [->|]%elem_of_cons; auto.
Qed.

Lemma nanmax_q_spec xs m :
  nanmax_q xs = Some m → m ∈ xs ∧ ∀ x, x ∈ xs → x <= m.
Proof.
  destruct xs as [|x0 xs]; simpl; [done|]. intros [= <-].
  destruct (foldl_select Qmax (flip Qle) Qmax_select (λ x y, conj (Q.le_max_l x y) (Q.le_max_r x y)) x0 xs)
    as (Hin & H0 & Hall).
  split; [destruct Hin as [->|]; [left|by right]|].
  intros x [->|]%elem_of_cons; [exact H0|by apply Hall].
Qed.

Lemma nanmin_q_Some xs : xs ≠ [] → ∃ m, nanmin_q xs = Some m.
Proof. destruct xs; [done|]. eauto. Qed.
Lemma nanmax_q_Some xs : xs ≠ [] → ∃ m, nanmax_q xs = Some m.
Proof. destruct xs; [done|]. eauto. Qed.

(** ** The mean and the median lie between the extremes *)

Lemma count_q_length_pos (xs : list Q) : xs ≠ [] → 0 < count_q (length xs).
Proof.
  intros Hne. destruct xs; [done|]. pose proof (count_q_pos (length (q :: xs))). simpl in *.
  assert (1 <= count_q (S (length xs))) by (apply count_q_pos; lia). lra.
Qed.

Lemma nanmean_spec xs :
  xs ≠ [] →
  nanmean xs = of_Q (mean_q xs) ∧
  ∀ lo hi, (∀ x, x ∈ xs → lo <= x <= hi) → lo <= mean_q xs <= hi.
Proof.
  intros Hne. pose proof (count_q_length_pos xs Hne) as Hn. split.
  { unfold nanmean, mean_q. apply pf_div_of_Q. lra. }
  intros lo hi Hb. destruct (Qsum_bounds lo hi xs Hb) as [H1 H2]. unfold mean_q. split.
  - apply Qle_shift_div_l; [done|]. by rewrite Qmult_comm.
  - apply Qle_shift_div_r; [done|]. by rewrite Qmult_comm.
Qed.

Lemma merge_sort_Qle_elem xs i :
  (i < length xs)%nat → nth i (merge_sort Qle xs) 0 ∈ xs.
Proof.
  intros Hi. rewrite <-(merge_sort_Permutation Qle xs) at 2.
  apply list_elem_of_In, nth_In. by rewrite (Permutation_length (merge_sort_Permutation Qle xs)).
Qed.

Lemma nanmedian_spec xs :
  xs ≠ [] →
  ∃ med, nanmedian xs = of_Q med ∧
    ∀ lo hi, (∀ x, x ∈ xs → lo <= x <= hi) → lo <= med <= hi.
Proof.
  intros Hne. unfold nanmedian.
  rewrite (Permutation_length (merge_sort_Permutation Qle xs)).
  destruct (length xs) as [|n] eqn:Hn; [by destruct xs|]. simpl (S n =? 0)%nat. cbv iota.
  destruct (Nat.even (S n)) eqn:He.
  - eexists. split; [done|]. intros lo hi Hb.
    assert (S n / 2 - 1 < S n ∧ S n / 2 < S n)%nat as [Hi1 Hi2].
    { apply Nat.even_spec in He as [k Hk]. rewrite Hk, Nat.mul_comm, Nat.div_mul; lia. }
    destruct (Hb _ (merge_sort_Qle_elem xs (S n / 2 - 1) ltac:(lia))) as [Ha1 Ha2].
    destruct (Hb _ (merge_sort_Qle_elem xs (S n / 2) ltac:(lia))) as [Hb1 Hb2].
    qinv_consts. split; lra.
  - eexists. split; [done|]. intros lo hi Hb. apply Hb, merge_sort_Qle_elem.
    assert (S n / 2 < S n)%nat by (apply Nat.div_lt; lia). lia.
Qed.

Lemma nanvar_q_spec xs v :
  nanvar_q xs = Some v →
  (2 ≤ length xs)%nat ∧ 0 <= v ∧
  v == Qsum ((λ x, (mean_q xs - x) * (mean_q xs - x)) <$> xs) / (count_q (length xs) - 1).
Proof.
  unfold nanvar_q. destruct (Nat.leb_spec (length xs) 1); [done|]. intros [= <-].
  split; [lia|]. split; [|done].
  assert (1 + 1 <= count_q (length xs)).
  { replace (length xs) with (S (S (length xs - 2))) by lia.
    rewrite !count_q_S. pose proof (count_q_nonneg (length xs - 2)). lra. }
  apply Qle_shift_div_l; [lra|]. rewrite Qmult_0_l.
  apply Qsum_nonneg. intros y (x & -> & _)%list_elem_of_fmap. apply Qsquare_nonneg.
Qed.

Lemma dropna_Some xs : dropna (Some <$> xs) = xs.
Proof. induction xs as [|x xs IH]; [done|]. simpl. by f_equal. Qed.

(** ** Theorems *)

(** C26: pandas skips the missing values: [Count] is the number of cells
    that are not NaN, which with the NaN cells make up the column, and
    every statistic but the standard error is the one of the column with
    its NaN cells removed. *)
Theorem descriptive_stats_skipna s :
  (st_count (descriptive_stats s) + length (filter (λ o : cell, o = None) s) = length s)%nat ∧
  ∀ f, f ∈ [st_mean; st_median; st_std; st_var; st_kurt; st_skew; st_range; st_min; st_max; st_sum] →
    f (descriptive_stats s) = f (descriptive_stats (Some <$> dropna s)).
Proof.
  split; [apply length_dropna|].
  intros f Hf. unfold descriptive_stats. rewrite dropna_Some.
  repeat (apply elem_of_cons in Hf as [->|Hf]; [done|]). by apply elem_of_nil in Hf.
Qed.

(** C27: on a column with at least one value, [Minimum] and [Maximum]
    are values of the column, the least and the greatest; the median lies
    between them, and the range is the maximum minus the minimum. *)
Theorem descriptive_stats_location s :
  dropna s ≠ [] →
  ∃ lo hi med,
    st_min (descriptive_stats s) = of_Q lo ∧ st_max (descriptive_stats s) = of_Q hi ∧
    st_median (descriptive_stats s) = of_Q med ∧ st_range (descriptive_stats s) = of_Q (hi - lo) ∧
    lo ∈ dropna s ∧ hi ∈ dropna s ∧ (∀ x, x ∈ dropna s → lo <= x <= hi) ∧ lo <= med <= hi.
Proof.
  intros Hne. set (xs := dropna s) in *.
  destruct (nanmin_q_Some xs Hne) as [lo Hlo], (nanmax_q_Some xs Hne) as [hi Hhi].
  destruct (nanmin_q_spec xs lo Hlo) as [Hlo_in Hlo_le], (nanmax_q_spec xs hi Hhi) as [Hhi_in Hhi_ge].
  destruct (nanmedian_spec xs Hne) as (med & Hmed & Hmedb).
  assert (∀ x, x ∈ xs → lo <= x <= hi) as Hb by (intros x Hx; split; auto).
  exists lo, hi, med. unfold descriptive_stats. fold xs.
  rewrite Hlo, Hhi, Hmed. do 7 (split; [done|]). by apply Hmedb.
Qed.

(** C28: on a column with at least two values, the sample variance is a
    non-negative rational [v], the standard deviation is [sqrt v], and the
    standard error is [sqrt (v / len(group[year]))], where the length
    counts the NaN cells. *)
Theorem descriptive_stats_spread s :
  (2 ≤ length (dropna s))%nat →
  ∃ v, st_var (descriptive_stats s) = of_Q v ∧ 0 <= v ∧
    st_std (descriptive_stats s) = pf_sqrtQ v ∧
    st_stderr (descriptive_stats s) = Num (Surd 1 (v / count_q (length s))).
Proof.
  intros Hn. unfold descriptive_stats, nanvar, nanstd.
  destruct (nanvar_q (dropna s)) as [v|] eqn:Hv.
  - apply nanvar_q_spec in Hv as (_ & Hv0 & _). exists v.
    split; [done|]. split; [done|]. split; [done|]. apply pf_div_sqrtQ; [done|].
    pose proof (length_dropna s). pose proof (count_q_pos (length s)). 
    assert (1 <= count_q (length s)) by (apply count_q_pos; lia). lra.
  - unfold nanvar_q in Hv. destruct (Nat.leb_spec (length (dropna s)) 1); [lia|done].
Qed.

(** ** Statistics of a constant column *)

Lemma zero_out_fperr_zero x : x == 0 → zero_out_fperr x = 0.
Proof.
  intros Hx. unfold zero_out_fperr.
  destruct (Qlt_boolP (Qabs x) (1 # 100000000000000)) as [|Hn]; [done|].
  exfalso. apply Hn. rewrite Hx. reflexivity.
Qed.

Lemma mean_q_const xs c : xs ≠ [] → (∀ x, x ∈ xs → x == c) → mean_q xs == c.
Proof.
  intros Hne Hc. destruct (nanmean_spec xs Hne) as [_ Hb].
  destruct (Hb c c) as [H1 H2]; [intros x Hx; rewrite (Hc x Hx); lra|]. lra.
Qed.

(** The deviations from the mean of a constant column are all zero. *)
Lemma Qsum_deviations_const (f : Q → Q) xs c :
  f 0 == 0 → Proper (Qeq ==> Qeq) f →
  xs ≠ [] → (∀ x, x ∈ xs → x == c) → Qsum ((λ x, f (x - mean_q xs)) <$> xs) == 0.
Proof.
  intros Hf0 Hf Hne Hc. apply Qsum_zero. intros y (x & -> & Hx)%list_elem_of_fmap.
  rewrite (Hc x Hx), (mean_q_const xs c Hne Hc). unfold Qminus. rewrite Qplus_opp_r. apply Hf0.
Qed.

Lemma pf_sqrtQ_zero v : v == 0 → pf_sqrtQ v ≡ of_Q 0.
Proof.
  intros Hv. rewrite pf_sqrtQ_nonneg by lra.
  change (surd_sign (Surd 1 v) = surd_sign (Surd 0 1) ∧ 1 * 1 * v == 0 * 0 * 1).
  unfold surd_sign; simpl. rewrite Hv. split; [reflexivity|ring].
Qed.

Lemma Qsum_fmap_zero (g : Q → Q) xs : (∀ x, x ∈ xs → g x == 0) → Qsum (g <$> xs) == 0.
Proof. intros Hg. apply Qsum_zero. intros y (x & -> & Hx)%list_elem_of_fmap. by apply Hg. Qed.

Lemma nanskew_const xs c :
  (3 ≤ length xs)%nat → (∀ x, x ∈ xs → x == c) → nanskew xs = of_Q 0.
Proof.
  intros Hn Hc. assert (xs ≠ []) as Hne by (intros ->; simpl in Hn; lia).
  unfold nanskew. cbv zeta. change (Qsum xs / count_q (length xs)) with (mean_q xs).
  destruct (Nat.ltb_spec (length xs) 3); [lia|].
  rewrite <-list_fmap_compose, (zero_out_fperr_zero (Qsum _)); [done|].
  apply Qsum_fmap_zero. intros x Hx. unfold compose.
  rewrite (Hc x Hx), (mean_q_const xs c Hne Hc). ring.
Qed.

Lemma nankurt_const xs c :
  (4 ≤ length xs)%nat → (∀ x, x ∈ xs → x == c) → nankurt xs = of_Q 0.
Proof.
  intros Hn Hc. assert (xs ≠ []) as Hne by (intros ->; simpl in Hn; lia).
  unfold nankurt. cbv zeta. change (Qsum xs / count_q (length xs)) with (mean_q xs).
  destruct (Nat.ltb_spec (length xs) 4); [lia|].
  assert (Qsum ((λ a, a * a) <$> ((λ x, x - mean_q xs) <$> xs)) == 0) as Hm2.
  { rewrite <-list_fmap_compose. apply Qsum_fmap_zero. intros x Hx. unfold compose.
    rewrite (Hc x Hx), (mean_q_const xs c Hne Hc). ring. }
  rewrite (zero_out_fperr_zero ((_ - 2) * (_ - 3) * _)); [done|]. rewrite Hm2. ring.
Qed.

(** The sample variance of at least two equal values is 0. *)
Lemma nanvar_q_const xs c :
  (2 ≤ length xs)%nat → (∀ x, x ∈ xs → x == c) → ∃ v, nanvar_q xs = Some v ∧ v == 0.
Proof.
  intros Hn Hc. assert (xs ≠ []) as Hne by (intros ->; simpl in Hn; lia).
  unfold nanvar_q. destruct (Nat.leb_spec (length xs) 1); [lia|]. eexists. split; [done|].
  rewrite Qsum_fmap_zero; [unfold Qdiv; ring|].
  intros x Hx. rewrite (Hc x Hx), (mean_q_const xs c Hne Hc). ring.
Qed.

(** On a column whose values are all equal to [c] (at least two of
    them), the variance and the standard deviation are exactly 0, the
    mean and the median are [c] and the range is 0; the skewness is 0
    from three values on and the excess kurtosis from four on (pandas'
    convention for a zero second moment). *)
Theorem descriptive_stats_constant s c :
  (2 ≤ length (dropna s))%nat → (∀ x, x ∈ dropna s → x == c) →
  st_var (descriptive_stats s) ≡ of_Q 0 ∧ st_std (descriptive_stats s) ≡ of_Q 0 ∧
  st_mean (descriptive_stats s) ≡ of_Q c ∧ st_median (descriptive_stats s) ≡ of_Q c ∧
  st_range (descriptive_stats s) ≡ of_Q 0 ∧
  ((3 ≤ length (dropna s))%nat → st_skew (descriptive_stats s) = of_Q 0) ∧
  ((4 ≤ length (dropna s))%nat → st_kurt (descriptive_stats s) = of_Q 0).
Proof.
  intros Hn Hc. set (xs := dropna s) in *.
  assert (xs ≠ []) as Hne by (intros Hx; rewrite Hx in Hn; simpl in Hn; lia).
  destruct (nanvar_q_const xs c Hn Hc) as (v & Hv & Hv0).
  destruct (nanmedian_spec xs Hne) as (med & Hmed & Hmedb).
  destruct (nanmin_q_Some xs Hne) as [lo Hlo], (nanmax_q_Some xs Hne) as [hi Hhi].
  assert (lo == c) as Hloc by (apply Hc, (nanmin_q_spec xs lo Hlo)).
  assert (hi == c) as Hhic by (apply Hc, (nanmax_q_spec xs hi Hhi)).
  unfold descriptive_stats, nanvar, nanstd. fold xs. rewrite Hv, Hmed, Hlo, Hhi.
  split; [by apply of_Q_proper|]. split; [by apply pf_sqrtQ_zero|].
  split; [rewrite (proj1 (nanmean_spec xs Hne)); by apply of_Q_proper, mean_q_const|].
  split.
  { destruct (Hmedb c c) as [H1 H2]; [intros x Hx; rewrite (Hc x Hx); lra|].
    apply of_Q_proper. lra. }
  split; [apply of_Q_proper; rewrite Hloc, Hhic; unfold Qminus; by rewrite Qplus_opp_r|].
  split; intros; [by apply (nanskew_const xs c) | by apply (nankurt_const xs c)].
Qed.

(** C30: a column with no value at all (every cell NaN, or no row) makes
    no statistic raise: each is NaN except the sum, which is 0, and the
    count, which is 0. *)
Theorem descriptive_stats_all_missing s :
  dropna s = [] →
  st_mean (descriptive_stats s) = NaN ∧ st_stderr (descriptive_stats s) = NaN ∧
  st_median (descriptive_stats s) = NaN ∧ st_std (descriptive_stats s) = NaN ∧
  st_var (descriptive_stats s) = NaN ∧ st_kurt (descriptive_stats s) = NaN ∧
  st_skew (descriptive_stats s) = NaN ∧ st_range (descriptive_stats s) = NaN ∧
  st_min (descriptive_stats s) = NaN ∧ st_max (descriptive_stats s) = NaN ∧
  st_sum (descriptive_stats s) = of_Q 0 ∧ st_count (descriptive_stats s) = 0%nat.
Proof. intros H. unfold descriptive_stats. rewrite H. repeat (split; [reflexivity|]). reflexivity. Qed.

(** C29: the standard error of the code is not the spec's: line 51
    divides by the square root of [len(group[year])], which counts the NaN
    cells, where the spec divides by the square root of the number of
    values.  On every column with a NaN cell and a positive variance the
    two differ. *)
Theorem descriptive_stats_stderr_counts_nan s v :
  (length (dropna s) < length s)%nat → nanvar_q (dropna s) = Some v → 0 < v →
  ¬ st_stderr (descriptive_stats s) ≡
    pf_div (st_std (descriptive_stats s)) (pf_sqrtQ (count_q (st_count (descriptive_stats s)))).
Proof.
  intros Hlen Hv Hvpos. pose proof (nanvar_q_spec _ _ Hv) as (Hn & _ & _).
  unfold descriptive_stats, nanstd. cbn [st_stderr st_std st_count]. rewrite Hv.
  assert (2 <= count_q (length (dropna s))) as Hc.
  { replace (length (dropna s)) with (S (S (length (dropna s) - 2))) by lia.
    rewrite !count_q_S. pose proof (count_q_nonneg (length (dropna s) - 2)). lra. }
  assert (count_q (length (dropna s)) + 1 <= count_q (length s)) as Hcl.
  { unfold count_q. change 1 with (inject_Z 1). rewrite <-inject_Z_plus, <-Zle_Qle. lia. }
  rewrite !pf_div_sqrtQ by lra.
  intros [_ Heq]. unfold surd_sq in Heq. simpl in Heq.
  field_simplify_eq in Heq; [split; intro; lra|]. nra.
Qed.

(** ** Invariance under a reordering of the rows *)

Lemma mean_q_Permutation xs ys : xs ≡ₚ ys → mean_q xs = mean_q ys.
Proof. intros H. unfold mean_q. by rewrite (Permutation_length H), (Qsum_Permutation _ _ H). Qed.

Lemma nanmean_Permutation xs ys : xs ≡ₚ ys → nanmean xs = nanmean ys.
Proof. intros H. unfold nanmean. by rewrite (Permutation_length H), (Qsum_Permutation _ _ H). Qed.

Lemma nanvar_q_Permutation xs ys : xs ≡ₚ ys → nanvar_q xs = nanvar_q ys.
Proof.
  intros H. unfold nanvar_q.
  by rewrite (Permutation_length H), (mean_q_Permutation _ _ H), (Qsum_fmap_Permutation _ _ _ H).
Qed.

(** [perm_moments H] rewrites every sum of a function of the values, and
    the count, of one list into those of a permutation [H] of it. *)
Ltac perm_moments H :=
  cbv zeta; rewrite ?(Permutation_length H), ?(Qsum_Permutation _ _ H);
  rewrite <-?list_fmap_compose; rewrite ?(Qsum_fmap_Permutation _ _ _ H).

Lemma nanskew_Permutation xs ys : xs ≡ₚ ys → nanskew xs = nanskew ys.
Proof. intros H. unfold nanskew. by perm_moments H. Qed.

Lemma nankurt_Permutation xs ys : xs ≡ₚ ys → nankurt xs = nankurt ys.
Proof. intros H. unfold nankurt. by perm_moments H. Qed.

Lemma merge_sort_Qle_Qred xs ys :
  xs ≡ₚ ys → Qred <$> merge_sort Qle xs = Qred <$> merge_sort Qle ys.
Proof.
  intros H. apply (Sorted_canon_unique Qle Qle Qred).
  - intros x y Hxy. by rewrite !Qred_correct.
  - intros x y H1 H2. apply Qred_complete.
    rewrite <-(Qred_correct x), <-(Qred_correct y). by apply Qle_antisym.
  - apply Sorted_merge_sort, _.
  - apply Sorted_merge_sort, _.
  - by rewrite !merge_sort_Permutation.
Qed.

Lemma nth_Qred_eq (l1 l2 : list Q) i :
  Qred <$> l1 = Qred <$> l2 → nth i l1 0 == nth i l2 0.
Proof.
  revert l2 i. induction l1 as [|a l1 IH]; intros [|b l2] [|i] Hl; simpl in *; try done.
  - injection Hl as Hab _. by rewrite <-(Qred_correct a), <-(Qred_correct b), Hab.
  - injection Hl as _ Hl. by apply IH.
Qed.

Lemma nanmedian_Permutation xs ys : xs ≡ₚ ys → nanmedian xs ≡ nanmedian ys.
Proof.
  intros H. pose proof (merge_sort_Qle_Qred xs ys H) as Hs.
  pose proof (f_equal length Hs) as Hl. rewrite !length_fmap in Hl.
  unfold nanmedian. cbv zeta. rewrite Hl.
  destruct (length (merge_sort Qle ys) =? 0)%nat; [done|].
  destruct (Nat.even _); apply of_Q_proper; by rewrite !(nth_Qred_eq _ _ _ Hs).
Qed.

Lemma nanmin_q_Permutation xs ys :
  xs ≡ₚ ys → option_Forall2 Qeq (nanmin_q xs) (nanmin_q ys).
Proof.
  intros H. destruct xs as [|x xs]; [apply Permutation_nil in H as ->; constructor|].
  destruct (nanmin_q_Some ys) as [m2 Hm2]; [intros ->; by apply Permutation_nil_r in H|].
  destruct (nanmin_q_Some (x :: xs)) as [m1 Hm1]; [done|]. rewrite Hm1, Hm2. constructor.
  apply nanmin_q_spec in Hm1 as [Hin1 Hb1], Hm2 as [Hin2 Hb2].
  apply Qle_antisym; [apply Hb1; by rewrite H | apply Hb2; by rewrite <-H].
Qed.

Lemma nanmax_q_Permutation xs ys :
  xs ≡ₚ ys → option_Forall2 Qeq (nanmax_q xs) (nanmax_q ys).
Proof.
  intros H. destruct xs as [|x xs]; [apply Permutation_nil in H as ->; constructor|].
  destruct (nanmax_q_Some ys) as [m2 Hm2]; [intros ->; by apply Permutation_nil_r in H|].
  destruct (nanmax_q_Some (x :: xs)) as [m1 Hm1]; [done|]. rewrite Hm1, Hm2. constructor.
  apply nanmax_q_spec in Hm1 as [Hin1 Hb1], Hm2 as [Hin2 Hb2].
  apply Qle_antisym; [apply Hb2; by rewrite <-H | apply Hb1; by rewrite H].
Qed.

Lemma of_optQ_Forall2 o1 o2 : option_Forall2 Qeq o1 o2 → of_optQ o1 ≡ of_optQ o2.
Proof. destruct 1; [by apply of_Q_proper|done]. Qed.

Lemma descriptive_stats_perm s1 s2 :
  s1 ≡ₚ s2 → descriptive_stats s1 ≡ descriptive_stats s2.
Proof.
  intros H. pose proof (dropna_Permutation _ _ H) as Hx.
  unfold descriptive_stats, nanvar, nanstd, nansum.
  rewrite (Permutation_length H), (nanmean_Permutation _ _ Hx), (nanvar_q_Permutation _ _ Hx),
    (nanskew_Permutation _ _ Hx), (nankurt_Permutation _ _ Hx), (Permutation_length Hx),
    (Qsum_Permutation _ _ Hx).
  pose proof (nanmin_q_Permutation _ _ Hx) as Hmin. pose proof (nanmax_q_Permutation _ _ Hx) as Hmax.
  refine (conj _ (conj _ (conj _ (conj _ (conj _ (conj _ (conj _ (conj _ (conj _ (conj _ (conj _ _)))))))))));
    cbn [st_mean st_stderr st_median st_std st_var st_kurt st_skew st_range st_min st_max st_sum st_count];
    try reflexivity.
  - by apply nanmedian_Permutation.
  - destruct Hmax as [a b Hab|], Hmin as [c d Hcd|]; try done. apply of_Q_proper. by rewrite Hab, Hcd.
  - by apply of_optQ_Forall2.
  - by apply of_optQ_Forall2.
Qed.

(** the twelve statistics do not depend on the order of the rows:
    a column and any reordering of it have statistics that denote the same
    values.  (The order of a group's rows is the sort's tie-break.) *)
Theorem descriptive_stats_Permutation s1 s2 :
  s1 ≡ₚ s2 → descriptive_stats s1 ≡ descriptive_stats s2.
Proof. apply descriptive_stats_perm. Qed.

(** ** The statistics on sample columns *)

(** The 2021 column of [sample_frame]: one NaN cell. *)
Definition sample_he2021 : list cell := [Some 9; None; Some 12; Some 7].
Definition sample_flat : list cell := [Some 5; Some 5; None; Some 5; Some 5].

Lemma descriptive_stats_location_witness :
  ∃ lo hi med,
    st_min (descriptive_stats sample_he2021) = of_Q lo ∧ st_max (descriptive_stats sample_he2021) = of_Q hi ∧
    st_median (descriptive_stats sample_he2021) = of_Q med ∧
    st_range (descriptive_stats sample_he2021) = of_Q (hi - lo) ∧
    lo ∈ dropna sample_he2021 ∧ hi ∈ dropna sample_he2021 ∧
    (∀ x, x ∈ dropna sample_he2021 → lo <= x <= hi) ∧ lo <= med <= hi.
Proof. apply descriptive_stats_location. vm_compute. discriminate. Defined.

Lemma descriptive_stats_spread_witness :
  ∃ v, st_var (descriptive_stats sample_flat) = of_Q v ∧ 0 <= v ∧
    st_std (descriptive_stats sample_flat) = pf_sqrtQ v ∧
    st_stderr (descriptive_stats sample_flat) = Num (Surd 1 (v / count_q (length sample_flat))).
Proof. apply descriptive_stats_spread. vm_compute. lia. Defined.

Lemma descriptive_stats_constant_witness :
  st_var (descriptive_stats sample_flat) ≡ of_Q 0 ∧ st_std (descriptive_stats sample_flat) ≡ of_Q 0 ∧
  st_mean (descriptive_stats sample_flat) ≡ of_Q 5 ∧ st_median (descriptive_stats sample_flat) ≡ of_Q 5 ∧
  st_range (descriptive_stats sample_flat) ≡ of_Q 0 ∧
  ((3 ≤ length (dropna sample_flat))%nat → st_skew (descriptive_stats sample_flat) = of_Q 0) ∧
  ((4 ≤ length (dropna sample_flat))%nat → st_kurt (descriptive_stats sample_flat) = of_Q 0).
Proof.
  apply descriptive_stats_constant; [vm_compute; lia|].
  apply Forall_forall. vm_compute. repeat constructor.
Defined.

Lemma descriptive_stats_all_missing_witness :
  let s : list cell := [None; None] in
  st_mean (descriptive_stats s) = NaN ∧ st_stderr (descriptive_stats s) = NaN ∧
  st_median (descriptive_stats s) = NaN ∧ st_std (descriptive_stats s) = NaN ∧
  st_var (descriptive_stats s) = NaN ∧ st_kurt (descriptive_stats s) = NaN ∧
  st_skew (descriptive_stats s) = NaN ∧ st_range (descriptive_stats s) = NaN ∧
  st_min (descriptive_stats s) = NaN ∧ st_max (descriptive_stats s) = NaN ∧
  st_sum (descriptive_stats s) = of_Q 0 ∧ st_count (descriptive_stats s) = 0%nat.
Proof. intros s. apply descriptive_stats_all_missing. reflexivity. Defined.

Lemma descriptive_stats_stderr_counts_nan_witness :
  ¬ st_stderr (descriptive_stats sample_he2021) ≡
    pf_div (st_std (descriptive_stats sample_he2021))
           (pf_sqrtQ (count_q (st_count (descriptive_stats sample_he2021)))).
Proof.
  apply (descriptive_stats_stderr_counts_nan sample_he2021
           (default 0 (nanvar_q (dropna sample_he2021)))).
  - vm_compute. lia.
  - vm_compute. reflexivity.
  - vm_compute. reflexivity.
Defined.

Lemma descriptive_stats_Permutation_witness :
  descriptive_stats sample_he2021 ≡ descriptive_stats [Some 12; Some 7; None; Some 9].
Proof.
  apply descriptive_stats_Permutation.
  apply (bool_decide_unpack _). vm_compute. exact I.
Defined.

(** ** Means of separated samples *)

Lemma nanvar_q_None_iff xs : nanvar_q xs = None ↔ (length xs < 2)%nat.
Proof. unfold nanvar_q. destruct (Nat.leb_spec (length xs) 1); split; intros; try done; lia. Qed.

Lemma mean_q_between xs :
  xs ≠ [] → ∃ lo hi, nanmin_q xs = Some lo ∧ nanmax_q xs = Some hi ∧ lo <= mean_q xs <= hi.
Proof.
  intros Hne. destruct (nanmin_q_Some xs Hne) as [lo Hlo], (nanmax_q_Some xs Hne) as [hi Hhi].
  exists lo, hi. split; [done|]. split; [done|].
  apply (proj2 (nanmean_spec xs Hne)). intros x Hx.
  split; [by apply (nanmin_q_spec xs lo Hlo) | by apply (nanmax_q_spec xs hi Hhi)].
Qed.

(** Every value of [xs] below every value of [ys]: the means are in the
    same order. *)
Lemma mean_q_separated xs ys :
  xs ≠ [] → ys ≠ [] → (∀ x y, x ∈ xs → y ∈ ys → x < y) → mean_q xs < mean_q ys.
Proof.
  intros Hx Hy H.
  destruct (mean_q_between xs Hx) as (_ & hi & _ & Hhi & _ & Hm1).
  destruct (mean_q_between ys Hy) as (lo & _ & Hlo & _ & Hm2 & _).
  pose proof (H hi lo (proj1 (nanmax_q_spec _ _ Hhi)) (proj1 (nanmin_q_spec _ _ Hlo))). lra.
Qed.
