(* ===== verification/TTest.v ===== *)
(** * The two-sample t-test of line 43

    [ttest_ind(group['2021_HE'], group['2019_HE'], nan_policy='omit')] is
    scipy's Student test with the pooled variance ([equal_var=True], its
    default), the NaN cells dropped from each sample independently.  Its
    statistic is computed exactly over the rationals, with numpy's
    special values: NaN when a sample has fewer than two values (its
    [var(ddof=1)] is NaN), an infinity or NaN when the pooled variance is
    zero.  The two-sided p-value is [2 * t(df).sf(|t|)]; the survival
    function of Student's distribution is not computed: it is the class
    [StudentT], whose laws are the facts of it the program depends on, and
    every theorem of this file holds for each of its instances.

    Lines 44 and 68 are [pvalue / 2] and the flag
    [one_tailed_pvalue < 0.05 and statistic > 0].

    The model follows scipy 1.11 and later, which drop the NaN cells and
    run the ordinary test.  Older versions switch to masked arrays when a
    sample has a NaN cell, and then return a masked statistic instead of
    an infinity for a zero pooled variance. *)

From S2P Require Import Prelude Frame PyFloat Format Stats.

(** [scipy.stats.t(df).sf] on a non-negative argument. *)
Class StudentT := {
  t_sf : nat → pyfloat → pyfloat;
  t_sf_NaN df : t_sf df NaN = NaN;
  t_sf_inf df : t_sf df (Inf false) = of_Q 0;
  t_sf_finite df s :
    surd_sign s ≠ Lt → ∃ q, t_sf df (Num s) = of_Q q ∧ 0 <= q <= 1 # 2
}.

(** What [ttest_ind] returns. *)
Record ttest_result : Type := TTestResult { statistic : pyfloat; pvalue : pyfloat }.

(** The pooled variance of scipy's [_equal_var_ttest_denom]. *)
Definition pooled_var (n1 n2 : nat) (v1 v2 : Q) : Q :=
  ((count_q n1 - 1) * v1 + (count_q n2 - 1) * v2) / count_q (n1 + n2 - 2).

(** The binary64 value of the literal [0.05]. *)
Definition py_0_05 : Q := 3602879701896397 # 72057594037927936.

Section ttest.
Context `{!StudentT}.

(** [_ttest_finish] for the two-sided alternative. *)
Definition t_pvalue (df : nat) (t : pyfloat) : pyfloat :=
  pf_mul (of_Q 2) (t_sf df (pf_abs t)).

(** [ttest_ind(a, b, nan_policy='omit')].  A sample of fewer than two
    values has a NaN variance, which makes the pooled variance, the
    statistic and the p-value NaN. *)
Definition ttest_ind (a b : list cell) : ttest_result :=
  let xs := dropna a in
  let ys := dropna b in
  match nanvar_q xs, nanvar_q ys with
  | Some v1, Some v2 =>
      let n1 := length xs in
      let n2 := length ys in
      let df := (n1 + n2 - 2)%nat in
      let svar := pooled_var n1 n2 v1 v2 in
      let denom := pf_sqrtQ (svar * (1 / count_q n1 + 1 / count_q n2)) in
      let t := pf_div (of_Q (mean_q xs - mean_q ys)) denom in
      TTestResult t (t_pvalue df t)
  | _, _ => TTestResult NaN NaN
  end.

(** Line 44. *)
Definition one_tailed_pvalue (r : ttest_result) : pyfloat := pf_div (pvalue r) (of_Q 2).

(** Line 68. *)
Definition significant (r : ttest_result) : bool :=
  pf_lt (one_tailed_pvalue r) (of_Q py_0_05) && pf_gt (statistic r) (of_Q 0).
End ttest.

(** ** Lemmas *)

Lemma count_q_lt_pos n : (1 ≤ n)%nat → 0 < count_q n.
Proof. intros Hn. pose proof (count_q_pos n Hn). lra. Qed.

Lemma inv_count_q_pos n : (1 ≤ n)%nat → 0 < 1 / count_q n.
Proof. intros Hn. apply Qlt_shift_div_l; [by apply count_q_lt_pos|]. lra. Qed.

Lemma pooled_var_nonneg n1 n2 v1 v2 :
  (2 ≤ n1)%nat → (2 ≤ n2)%nat → 0 <= v1 → 0 <= v2 → 0 <= pooled_var n1 n2 v1 v2.
Proof.
  intros H1 H2 Hv1 Hv2. unfold pooled_var. apply Qle_shift_div_l; [apply count_q_lt_pos; lia|].
  pose proof (count_q_pos n1 ltac:(lia)). pose proof (count_q_pos n2 ltac:(lia)).
  assert (0 <= (count_q n1 - 1) * v1) by (apply Qmult_le_0_compat; lra).
  assert (0 <= (count_q n2 - 1) * v2) by (apply Qmult_le_0_compat; lra). lra.
Qed.

Section ttest_lemmas.
Context `{!StudentT}.

Lemma ttest_ind_small a b :
  (length (dropna a) < 2 ∨ length (dropna b) < 2)%nat → ttest_ind a b = TTestResult NaN NaN.
Proof.
  intros Hs. unfold ttest_ind.
  destruct Hs as [Hs|Hs]; apply nanvar_q_None_iff in Hs; rewrite Hs; [done|].
  by destruct (nanvar_q (dropna a)).
Qed.

(** With two values or more in each sample, the statistic is the
    difference of the means over the square root of a non-negative [w],
    zero when both samples have no spread. *)
Lemma ttest_ind_Some a b v1 v2 :
  nanvar_q (dropna a) = Some v1 → nanvar_q (dropna b) = Some v2 →
  ∃ w, ttest_ind a b =
    (let t := pf_div (of_Q (mean_q (dropna a) - mean_q (dropna b))) (pf_sqrtQ w) in
     TTestResult t (t_pvalue (length (dropna a) + length (dropna b) - 2) t)) ∧
    0 <= w ∧ (v1 == 0 → v2 == 0 → w == 0).
Proof.
  intros H1 H2. pose proof (nanvar_q_spec _ _ H1) as (Hn1 & Hv1 & _).
  pose proof (nanvar_q_spec _ _ H2) as (Hn2 & Hv2 & _).
  eexists. split; [unfold ttest_ind; rewrite H1, H2; reflexivity|]. split.
  - apply Qmult_le_0_compat; [by apply pooled_var_nonneg|].
    pose proof (inv_count_q_pos (length (dropna a)) ltac:(lia)).
    pose proof (inv_count_q_pos (length (dropna b)) ltac:(lia)). lra.
  - intros E1 E2. unfold pooled_var. rewrite E1, E2. unfold Qdiv. ring.
Qed.

Lemma ttest_ind_cases a b :
  (∃ v1 v2, nanvar_q (dropna a) = Some v1 ∧ nanvar_q (dropna b) = Some v2) ∨
  ttest_ind a b = TTestResult NaN NaN.
Proof.
  destruct (nanvar_q (dropna a)) eqn:H1, (nanvar_q (dropna b)) eqn:H2; eauto;
    right; unfold ttest_ind; by rewrite H1, ?H2.
Qed.

Lemma list_nonempty_len {A} (l : list A) : (2 ≤ length l)%nat → l ≠ [].
Proof. intros Hn ->. simpl in Hn. lia. Qed.

Lemma nanvar_q_Some_len xs : (2 ≤ length xs)%nat → ∃ v, nanvar_q xs = Some v.
Proof. intros Hn. destruct (nanvar_q xs) eqn:E; [by eexists|]. apply nanvar_q_None_iff in E. lia. Qed.

Lemma pf_gt_compare x y : pf_gt x y = true → pf_compare x y = Some Gt.
Proof. unfold pf_gt. by destruct (pf_compare x y) as [[]|]. Qed.

(** Whatever the statistic, the one-tailed p-value is NaN or a number in
    [[0, 1/2]]. *)
Lemma t_pvalue_half df t :
  pf_div (t_pvalue df t) (of_Q 2) = NaN ∨
  ∃ q, pf_div (t_pvalue df t) (of_Q 2) ≡ of_Q q ∧ 0 <= q <= 1 # 2.
Proof.
  unfold t_pvalue. destruct t as [[c r]|neg|]; simpl.
  - destruct (t_sf_finite df (Surd (Qabs c) r)) as (q & -> & Hq).
    { unfold surd_sign; simpl. repeat qcase; try done. pose proof (Qabs_nonneg c). lra. }
    right. exists q. split; [apply pf_half_double|done].
  - rewrite t_sf_inf. right. exists 0. split; [apply pf_half_double|lra].
  - rewrite t_sf_NaN. by left.
Qed.
End ttest_lemmas.

(** ** Theorems *)

Section ttest_theorems.
Context `{!StudentT}.

(** with two values or more in each sample and different means,
    the t statistic is ordered with 0 as the mean of the 2021 values is
    with the mean of the 2019 values (a finite value or, for two samples
    without spread, an infinity). *)
Theorem ttest_statistic_sign a b :
  (2 ≤ length (dropna a))%nat → (2 ≤ length (dropna b))%nat →
  ¬ mean_q (dropna a) == mean_q (dropna b) →
  pf_compare (statistic (ttest_ind a b)) (of_Q 0) =
    Some (Qcompare (mean_q (dropna a)) (mean_q (dropna b))).
Proof.
  intros Ha Hb Hm.
  destruct (nanvar_q_Some_len _ Ha) as [v1 H1], (nanvar_q_Some_len _ Hb) as [v2 H2].
  destruct (ttest_ind_Some a b v1 v2 H1 H2) as (w & -> & Hw & _). cbn [statistic].
  rewrite pf_div_sqrt_ordered, Qcompare_sub; [done..|]. right. intros ?. apply Hm. lra.
Qed.

Lemma ttest_flag_direction a b :
  significant (ttest_ind a b) = true →
  (2 ≤ length (dropna a))%nat ∧ (2 ≤ length (dropna b))%nat ∧
  mean_q (dropna b) < mean_q (dropna a).
Proof.
  unfold significant. rewrite andb_true_iff. intros [_ Hgt%pf_gt_compare].
  destruct (ttest_ind_cases a b) as [(v1 & v2 & H1 & H2)|E]; [|by rewrite E in Hgt].
  destruct (nanvar_q_spec _ _ H1) as (Hn1 & _), (nanvar_q_spec _ _ H2) as (Hn2 & _).
  destruct (ttest_ind_Some a b v1 v2 H1 H2) as (w & E & _). rewrite E in Hgt. cbn [statistic] in Hgt.
  apply pf_div_sqrt_sign in Hgt. rewrite Qcompare_sub in Hgt.
  split; [done|]. split; [done|]. by apply Qgt_alt.
Qed.

(** C6: the flag of line 68 is set only when both samples have two
    values or more and the mean of the 2021 values is above the mean of
    the 2019 values: halving the two-sided p-value never flags a
    decrease. *)
Theorem ttest_significant_direction a b :
  significant (ttest_ind a b) = true →
  (2 ≤ length (dropna a))%nat ∧ (2 ≤ length (dropna b))%nat ∧
  mean_q (dropna b) < mean_q (dropna a).
Proof. apply ttest_flag_direction. Qed.

(** C7: when every 2021 value of a group is below every 2019 value
    of it, the group is not flagged, whatever the p-value. *)
Theorem ttest_uniformly_below a b :
  (∀ x y, x ∈ dropna a → y ∈ dropna b → x < y) → significant (ttest_ind a b) = false.
Proof.
  intros Hxy. destruct (significant _) eqn:E; [|done].
  apply ttest_flag_direction in E as (Ha & Hb & Hlt).
  assert (mean_q (dropna a) < mean_q (dropna b)); [|lra].
  apply mean_q_separated; [by apply list_nonempty_len..|done].
Qed.

(** C31: two samples of integers without spread and with different
    values, such as 2019 values [[1,1,1,1,1]] and 2021 values
    [[5,5,5,5,5]], give an infinite statistic, positive when the 2021
    value is the larger and negative otherwise, a one-tailed p-value of 0,
    and raise nothing; the group is flagged exactly when the 2021 value is
    the larger.  The values are integers: their float sum and mean are
    then exact (below [2^53]), and their float variance is 0 as here,
    which for equal non-dyadic values it need not be. *)
Theorem ttest_constant_samples a b (z1 z2 : Z) :
  (2 ≤ length (dropna a))%nat → (2 ≤ length (dropna b))%nat →
  (∀ x, x ∈ dropna a → x == inject_Z z1) → (∀ y, y ∈ dropna b → y == inject_Z z2) → z1 ≠ z2 →
  statistic (ttest_ind a b) = Inf (bool_decide (z1 < z2)%Z) ∧
  one_tailed_pvalue (ttest_ind a b) ≡ of_Q 0 ∧
  significant (ttest_ind a b) = bool_decide (z2 < z1)%Z.
Proof.
  intros Ha Hb Hc1 Hc2 Hz.
  destruct (nanvar_q_const _ _ Ha Hc1) as (v1 & H1 & Hv1), (nanvar_q_const _ _ Hb Hc2) as (v2 & H2 & Hv2).
  destruct (ttest_ind_Some a b v1 v2 H1 H2) as (w & -> & _ & Hw).
  assert (mean_q (dropna a) == inject_Z z1) by (apply mean_q_const; [by apply list_nonempty_len|done]).
  assert (mean_q (dropna b) == inject_Z z2) by (apply mean_q_const; [by apply list_nonempty_len|done]).
  assert (Hsign : Qlt_bool (mean_q (dropna a) - mean_q (dropna b)) 0 = bool_decide (z1 < z2)%Z).
  { destruct (Qlt_boolP (mean_q (dropna a) - mean_q (dropna b)) 0);
      case_bool_decide as Hlt; rewrite Zlt_Qlt in Hlt; done || (exfalso; lra). }
  rewrite pf_div_sqrt_zero, Hsign; [| by apply Hw | intros Heq; apply Hz, inject_Z_injective; lra].
  unfold one_tailed_pvalue, significant, t_pvalue. cbn [statistic pvalue].
  assert (pf_abs (Inf (bool_decide (z1 < z2)%Z)) = Inf false) as -> by done.
  rewrite t_sf_inf. split; [done|]. split; [apply pf_half_double|].
  destruct (decide (z2 < z1)%Z); [rewrite bool_decide_false, bool_decide_true by lia |
    rewrite bool_decide_true, bool_decide_false by lia]; reflexivity.
Qed.

(** A sample with fewer than two values makes the statistic and
    the p-value NaN, raises nothing, and leaves the group unflagged. *)
Theorem ttest_too_few_values a b :
  (length (dropna a) < 2 ∨ length (dropna b) < 2)%nat →
  statistic (ttest_ind a b) = NaN ∧ pvalue (ttest_ind a b) = NaN ∧
  significant (ttest_ind a b) = false.
Proof. intros Hs. by rewrite ttest_ind_small. Qed.

(** The one-tailed p-value of line 44 is NaN or a number in
    [[0, 1/2]], for any law of the t distribution's tail. *)
Theorem one_tailed_pvalue_bounds a b :
  one_tailed_pvalue (ttest_ind a b) = NaN ∨
  ∃ q, one_tailed_pvalue (ttest_ind a b) ≡ of_Q q ∧ 0 <= q <= 1 # 2.
Proof.
  unfold one_tailed_pvalue. destruct (ttest_ind_cases a b) as [(v1 & v2 & H1 & H2)|E]; [|rewrite E; by left].
  destruct (ttest_ind_Some a b v1 v2 H1 H2) as (w & -> & _). apply t_pvalue_half.
Qed.

Lemma ttest_ind_perm a a' b b' :
  dropna a ≡ₚ dropna a' → dropna b ≡ₚ dropna b' → ttest_ind a b = ttest_ind a' b'.
Proof.
  intros Ha Hb. unfold ttest_ind. cbv zeta.
  by rewrite (nanvar_q_Permutation _ _ Ha), (nanvar_q_Permutation _ _ Hb), (Permutation_length Ha),
    (Permutation_length Hb), (mean_q_Permutation _ _ Ha), (mean_q_Permutation _ _ Hb).
Qed.

(** The test does not depend on the order of the rows nor on
    where the NaN cells are. *)
Theorem ttest_ind_Permutation a a' b b' :
  dropna a ≡ₚ dropna a' → dropna b ≡ₚ dropna b' → ttest_ind a b = ttest_ind a' b'.
Proof. apply ttest_ind_perm. Qed.
End ttest_theorems.

(** C18: what the page shows of a flagged group (lines 390-391): when the
    one-tailed p-value is NaN or a non-negative number, as
    [one_tailed_pvalue_bounds] shows of [ttest_ind], a flagged result
    shows its p-value as an unsigned number of at most [0.0500], and its
    statistic as [inf] or an unsigned number.  [0.0500] itself is shown
    for a p-value in [[0.04995, 0.05)], next to "Yes". *)
Theorem significant_cells r :
  (one_tailed_pvalue r = NaN ∨ ∃ q, one_tailed_pvalue r ≡ of_Q q ∧ 0 <= q) →
  significant r = true →
  (∃ n, py_format_fixed 4 (one_tailed_pvalue r) = show_fixed 4 n ∧ (n ≤ 500)%N) ∧
  (py_format_fixed 4 (statistic r) = "inf" ∨ ∃ m, py_format_fixed 4 (statistic r) = show_fixed 4 m).
Proof.
  unfold significant. rewrite andb_true_iff. intros Hp [Hlt Hgt]. split.
  - destruct Hp as [E|(q & Eq & Hq)]; [by rewrite E in Hlt|].
    rewrite Eq in Hlt. apply pf_lt_of_Q in Hlt. rewrite (py_format_fixed_proper 4 _ _ Eq).
    eexists. split; [cbn [py_format_fixed of_Q]; rewrite surd_sign_of_Q;
                     destruct (Qcompare_spec q 0); [reflexivity | lra | reflexivity]|].
    rewrite (round_sqrt_Qeq _ ((q * 10000) * (q * 10000))) by (unfold surd_sq; cbn [s_coef s_rad];
      change (inject_Z (10 ^ Z.of_nat 4) ^ 2) with ((10000 # 1) * (10000 # 1)); ring).
    apply N2Z.inj_le, (round_sqrt_sq_bound _ 500); [lra|]. unfold py_0_05 in Hlt.
    change (inject_Z (2 * 500 + 1)) with (1001 # 1). lra.
  - destruct (statistic r) as [s|[]|]; [right|done|by left|done].
    unfold pf_gt in Hgt. rewrite pf_compare_zero in Hgt.
    destruct (surd_sign s) eqn:Es; try done. eexists. cbn [py_format_fixed]. by rewrite Es.
Qed.

(** ** The test on sample groups

    [sf_bound df x = (1/2) / (1 + x * x)] is not Student's survival
    function: it satisfies the laws of [StudentT], and runs the theorems,
    which hold for every instance, on concrete groups. *)
Definition sf_bound (df : nat) (x : pyfloat) : pyfloat :=
  match x with
  | NaN => NaN
  | Inf false => of_Q 0
  | Inf true => of_Q 1
  | Num s => of_Q ((1 # 2) / (1 + Qabs (surd_sq s)))
  end.

#[export] Instance sf_bound_StudentT : StudentT.
Proof.
  refine {| t_sf := sf_bound |}; try done.
  intros df s _. eexists. split; [reflexivity|].
  pose proof (Qabs_nonneg (surd_sq s)). split.
  - apply Qle_shift_div_l; lra.
  - apply Qle_shift_div_r; lra.
Defined.

(** The 2019 column of [sample_frame], in its row order. *)
Definition sample_he2019 : list cell := [Some 8; Some 4; Some 10; Some 5].
Definition sample_fives : list cell := replicate 5 (Some 5).
Definition sample_ones : list cell := replicate 5 (Some 1).

Lemma ttest_statistic_sign_witness :
  pf_compare (statistic (ttest_ind sample_he2021 sample_he2019)) (of_Q 0) =
    Some (Qcompare (mean_q (dropna sample_he2021)) (mean_q (dropna sample_he2019))).
Proof.
  apply ttest_statistic_sign; [vm_compute; lia..|]. intros E. vm_compute in E. discriminate.
Defined.

Lemma ttest_significant_direction_witness :
  let a : list cell := [Some 12; Some 13; Some 12; Some 13] in
  let b : list cell := [Some 1; Some 2; Some 1; Some 2] in
  (2 ≤ length (dropna a))%nat ∧ (2 ≤ length (dropna b))%nat ∧ mean_q (dropna b) < mean_q (dropna a).
Proof. intros a b. apply ttest_significant_direction. vm_compute. reflexivity. Defined.

Lemma ttest_uniformly_below_witness :
  significant (ttest_ind [Some 1; Some 2; None] [Some 3; Some 4]) = false.
Proof. apply ttest_uniformly_below. apply Forall_pairs. vm_compute. repeat constructor. Defined.

Lemma ttest_constant_samples_witness :
  statistic (ttest_ind sample_fives sample_ones) = Inf (bool_decide (5 < 1)%Z) ∧
  one_tailed_pvalue (ttest_ind sample_fives sample_ones) ≡ of_Q 0 ∧
  significant (ttest_ind sample_fives sample_ones) = bool_decide (1 < 5)%Z.
Proof.
  apply (ttest_constant_samples _ _ 5 1); [vm_compute; lia..| | |lia];
    apply Forall_forall; vm_compute; repeat constructor.
Defined.

Lemma ttest_too_few_values_witness :
  statistic (ttest_ind [Some 3; None] sample_he2019) = NaN ∧
  pvalue (ttest_ind [Some 3; None] sample_he2019) = NaN ∧
  significant (ttest_ind [Some 3; None] sample_he2019) = false.
Proof. apply ttest_too_few_values. left. vm_compute. lia. Defined.

Lemma ttest_ind_Permutation_witness :
  ttest_ind sample_he2021 sample_he2019 = ttest_ind [Some 12; None; None; Some 7; Some 9] sample_he2019.
Proof.
  apply ttest_ind_Permutation; [|done]. apply (bool_decide_unpack _). vm_compute. exact I.
Defined.

Lemma significant_cells_witness :
  let r := TTestResult (of_Q 3) (of_Q (9992 # 100000)) in
  py_format_fixed 4 (one_tailed_pvalue r) = "0.0500" ∧ significant r = true ∧
  (∃ n, py_format_fixed 4 (one_tailed_pvalue r) = show_fixed 4 n ∧ (n ≤ 500)%N) ∧
  (py_format_fixed 4 (statistic r) = "inf" ∨ ∃ m, py_format_fixed 4 (statistic r) = show_fixed 4 m).
Proof.
  intros r. assert (Hs : significant r = true) by (vm_compute; reflexivity).
  split; [vm_compute; reflexivity|]. split; [exact Hs|].
  apply significant_cells; [|exact Hs]. right. exists (4996 # 100000). split; [|unfold Qle; simpl; lia].
  unfold r, one_tailed_pvalue. cbn [pvalue]. rewrite pf_div_of_Q by (unfold Qeq; simpl; lia).
  apply of_Q_proper. unfold Qeq; simpl; lia.
Defined.
