(* ===== verification/Analysis.v ===== *)
(** * [analyze_split]: the split and the analysis of both groups

    Lines 21-72 of [src/interactive_report.py]: the table is split
    ([Splitter]), then for the upper group and the lower group, in that
    order, the t-test of line 43 ([TTest]) and the twelve statistics of
    both years ([Stats]) are computed and stored in the dict [results]
    under the labels [f"Top {p}%"] and [f"Bottom {100-p}%"].  A Python
    dict is an association list kept in insertion order, where assigning an
    existing key replaces its value in place ([dict_set]); the per-group
    result, a dict literal with five fixed keys, is the record
    [group_result].  An exception ends the computation: [result]. *)

From stdpp Require Import pretty.
From S2P Require Import Prelude Float64 Frame Splitter PyFloat Stats TTest.

(** [d[k] = v] on a Python dict. *)
Fixpoint dict_set {V} (k : string) (v : V) (d : list (string * V)) : list (string * V) :=
  match d with
  | [] => [(k, v)]
  | (k', v') :: d' => if decide (k = k') then (k, v) :: d' else (k', v') :: dict_set k v d'
  end.

(** [d[k]] on a Python dict: [KeyError] when [k] is not a key. *)
Fixpoint dict_get {V} (d : list (string * V)) (k : string) : result V :=
  match d with
  | [] => raise (KeyError k)
  | (k', v) :: d' => if decide (k = k') then Ok v else dict_get d' k
  end.

(** The dict of lines 64-70. *)
Record group_result : Type := GroupResult {
  gr_data : frame;
  gr_pvalue : pyfloat;
  gr_statistic : pyfloat;
  gr_significant : bool;
  gr_stats : list (string * stats)
}.

(** Two results of a group that agree up to the order of the group's
    rows: the same rows, the same test, statistics that denote the same
    values. *)
Definition group_result_equiv (r1 r2 : group_result) : Prop :=
  columns (gr_data r1) = columns (gr_data r2) ∧ rows (gr_data r1) ≡ₚ rows (gr_data r2) ∧
  gr_pvalue r1 = gr_pvalue r2 ∧ gr_statistic r1 = gr_statistic r2 ∧
  gr_significant r1 = gr_significant r2 ∧
  Forall2 (λ e1 e2, e1.1 = e2.1 ∧ e1.2 ≡ e2.2) (gr_stats r1) (gr_stats r2).

(** Lines 39-40: [f"Top {percentile_threshold}%"] and
    [f"Bottom {100-percentile_threshold}%"], an int printed in decimal. *)
Definition top_label (p : Z) : string := "Top " +:+ pretty p +:+ "%".
Definition bottom_label (p : Z) : string := "Bottom " +:+ pretty (100 - p)%Z +:+ "%".

(** The years of line 48. *)
Definition years : list string := [he2019_col; he2021_col].

(** Lines 47-62: [for year in [...]: stats[year] = {...}]. *)
Fixpoint stats_loop (group : frame) (ys : list string) (acc : list (string * stats)) :
    result (list (string * stats)) :=
  match ys with
  | [] => Ok acc
  | year :: ys' =>
      s ← column group year;
      stats_loop group ys' (dict_set year (descriptive_stats s) acc)
  end.

Section analysis.
Context `{!SortValues} `{!StudentT}.

(** Lines 42-70, the body of the loop for one group. *)
Definition analyze_group (group : frame) : result group_result :=
  a ← column group he2021_col;
  b ← column group he2019_col;
  let t_test_result := ttest_ind a b in
  let one_tailed := one_tailed_pvalue t_test_result in
  st ← stats_loop group years [];
  Ok {| gr_data := group;
        gr_pvalue := one_tailed;
        gr_statistic := statistic t_test_result;
        gr_significant := significant t_test_result;
        gr_stats := st |}.

(** Lines 38-70: [for group, name in [...]: results[name] = {...}]. *)
Fixpoint groups_loop (gs : list (frame * string)) (results : list (string * group_result)) :
    result (list (string * group_result)) :=
  match gs with
  | [] => Ok results
  | (group, name) :: gs' =>
      r ← analyze_group group;
      groups_loop gs' (dict_set name r results)
  end.

(** Lines 21-72. *)
Definition analyze_split (data : frame) (percentile_threshold : Z) :
    result (list (string * group_result)) :=
  '(upper_group, lower_group) ← split_data data percentile_threshold;
  groups_loop [(upper_group, top_label percentile_threshold);
               (lower_group, bottom_label percentile_threshold)] [].
End analysis.

(** ** Lemmas *)

(** The laws of [dict_set] and [dict_get] (after StructTact's [Assoc]):
    a key set is read back, other keys are untouched, and the keys keep
    their insertion order. *)
Section dict_laws.
Context {V : Type}.
Implicit Types (d : list (string * V)) (v : V).

Lemma dict_get_set_same k v d : dict_get (dict_set k v d) k = Ok v.
Proof.
  induction d as [|[k' v'] d IH]; simpl; [by rewrite decide_True|].
  case_decide; simpl; [by rewrite decide_True|by rewrite decide_False].
Qed.

Lemma dict_get_set_other k k' v d : k' ≠ k → dict_get (dict_set k v d) k' = dict_get d k'.
Proof.
  intros Hne. induction d as [|[k'' v'] d IH]; simpl; [by rewrite decide_False|].
  case_decide; simplify_eq/=; [by rewrite !decide_False|]. by case_decide.
Qed.

Lemma dict_set_keys k v d :
  (dict_set k v d).*1 = if decide (k ∈ d.*1) then d.*1 else d.*1 ++ [k].
Proof.
  induction d as [|[k' v'] d IH]; [done|]. cbn [dict_set].
  destruct (decide (k = k')) as [->|Hk]; rewrite !fmap_cons; cbn [fst].
  - by rewrite decide_True by set_solver.
  - rewrite IH. destruct (decide (k ∈ d.*1));
      [rewrite decide_True by set_solver | rewrite decide_False by set_solver]; done.
Qed.
End dict_laws.

#[export] Hint Rewrite @dict_get_set_same : gdp_rw.

(** writing [d[k] = v] and reading [d[k']] back is a round trip: the
    read gives [v] when [k' = k] and what [d] held otherwise.  The keys
    keep their insertion order and a new key goes last, which
    [list(results.keys())] of line 343 relies on to find the Top group
    first. *)
Theorem dict_set_get {V} (k k' : string) (v : V) d :
  dict_get (dict_set k v d) k' = (if decide (k' = k) then Ok v else dict_get d k') ∧
  (dict_set k v d).*1 = (if decide (k ∈ d.*1) then d.*1 else d.*1 ++ [k]).
Proof.
  split; [|apply dict_set_keys].
  case_decide; [subst; apply dict_get_set_same | by apply dict_get_set_other].
Qed.

(** The cells of a column of a frame that has it. *)
Definition cells (g : frame) (c : string) : list cell := (λ r : row, r !! c) <$> rows g.

Lemma top_ne_bottom p p' : top_label p ≠ bottom_label p'.
Proof. unfold top_label, bottom_label. simpl. discriminate. Qed.

Lemma stats_loop_years g :
  he2019_col ∈ columns g → he2021_col ∈ columns g →
  stats_loop g years [] =
    Ok [(he2019_col, descriptive_stats (cells g he2019_col)); (he2021_col, descriptive_stats (cells g he2021_col))].
Proof. intros H19 H21. simpl. by rewrite !column_ok. Qed.

Section analysis_lemmas.
Context `{!SortValues} `{!StudentT}.

Lemma analyze_group_ok g :
  he2019_col ∈ columns g → he2021_col ∈ columns g →
  analyze_group g = Ok
    {| gr_data := g;
       gr_pvalue := one_tailed_pvalue (ttest_ind (cells g he2021_col) (cells g he2019_col));
       gr_statistic := statistic (ttest_ind (cells g he2021_col) (cells g he2019_col));
       gr_significant := significant (ttest_ind (cells g he2021_col) (cells g he2019_col));
       gr_stats := [(he2019_col, descriptive_stats (cells g he2019_col));
                    (he2021_col, descriptive_stats (cells g he2021_col))] |}.
Proof. intros H19 H21. unfold analyze_group. rewrite !column_ok, stats_loop_years by done. done. Qed.

Lemma analyze_group_inv g r :
  analyze_group g = Ok r →
  he2019_col ∈ columns g ∧ he2021_col ∈ columns g ∧ gr_data r = g ∧
  gr_pvalue r = one_tailed_pvalue (ttest_ind (cells g he2021_col) (cells g he2019_col)) ∧
  gr_statistic r = statistic (ttest_ind (cells g he2021_col) (cells g he2019_col)) ∧
  gr_significant r = significant (ttest_ind (cells g he2021_col) (cells g he2019_col)) ∧
  gr_stats r = [(he2019_col, descriptive_stats (cells g he2019_col));
                (he2021_col, descriptive_stats (cells g he2021_col))].
Proof.
  destruct (decide (he2021_col ∉ columns g)) as [H21|H21%dec_stable];
    [unfold analyze_group; rewrite (column_err g he2021_col) by done; intros [=]|].
  destruct (decide (he2019_col ∉ columns g)) as [H19|H19%dec_stable];
    [unfold analyze_group; rewrite (column_ok g he2021_col), (column_err g he2019_col) by done;
     intros [=]|].
  rewrite analyze_group_ok by done. intros [= <-]. done.
Qed.

(** The flag of [analyze_group] speaks for a larger 2021 mean. *)
Lemma analyze_group_flag_means g r :
  analyze_group g = Ok r → gr_significant r = true →
  mean_q (dropna (cells g he2019_col)) < mean_q (dropna (cells g he2021_col)).
Proof.
  intros (_ & _ & _ & _ & _ & Hsig & _)%analyze_group_inv. rewrite Hsig.
  by intros (_ & _ & ?)%ttest_flag_direction.
Qed.

Lemma analyze_group_missing g c :
  (c = he2021_col ∧ c ∉ columns g) ∨ (he2021_col ∈ columns g ∧ c = he2019_col ∧ c ∉ columns g) →
  analyze_group g = Err (KeyError c).
Proof.
  unfold analyze_group. intros [[-> Hc]|(H21 & -> & Hc)]; [by rewrite (column_err g he2021_col)|].
  by rewrite (column_ok g he2021_col), (column_err g he2019_col).
Qed.

Lemma analyze_split_unfold data p u l :
  split_data data p = Ok (u, l) →
  analyze_split data p =
    (r1 ← analyze_group u; r2 ← analyze_group l; Ok [(top_label p, r1); (bottom_label p, r2)]).
Proof.
  intros Hs. unfold analyze_split. rewrite Hs, result_bind_ret. cbn [groups_loop].
  destruct (analyze_group u); [|done]. cbn [mbind result_bind groups_loop dict_set].
  destruct (analyze_group l); [|done]. cbn [mbind result_bind groups_loop dict_set].
  by rewrite decide_False by (intros ?; by apply (top_ne_bottom p p)).
Qed.

Lemma analyze_split_inv data p res :
  analyze_split data p = Ok res →
  ∃ u l r1 r2, split_data data p = Ok (u, l) ∧ analyze_group u = Ok r1 ∧ analyze_group l = Ok r2 ∧
    res = [(top_label p, r1); (bottom_label p, r2)].
Proof.
  destruct (split_data data p) as [[u l]|] eqn:Hs; [|unfold analyze_split; by rewrite Hs].
  rewrite (analyze_split_unfold _ _ u l Hs).
  destruct (analyze_group u) as [r1|] eqn:Hu; cbn [mbind result_bind]; [|intros [=]].
  destruct (analyze_group l) as [r2|] eqn:Hl; cbn [mbind result_bind]; [|intros [=]].
  intros [= <-]. by exists u, l, r1, r2.
Qed.

Lemma analyze_split_member data p res name r :
  analyze_split data p = Ok res → (name, r) ∈ res → analyze_group (gr_data r) = Ok r.
Proof.
  intros (u & l & r1 & r2 & _ & H1 & H2 & ->)%analyze_split_inv Hin.
  repeat (apply elem_of_cons in Hin as [Hin|Hin]); simplify_eq;
    [ | |by apply not_elem_of_nil in Hin];
    match goal with H : analyze_group ?g = Ok ?r |- _ =>
      by rewrite (proj1 (proj2 (proj2 (analyze_group_inv g r H)))) end.
Qed.

(** A split of a table with a GDP column at a percentile of the slider
    raises nothing. *)
Lemma split_data_slider_ok data p :
  gdp_col ∈ columns data → (length (rows data) ≤ max_rows)%nat → p ∈ slider_values →
  ∃ u l, split_data data p = Ok (u, l) ∧ columns u = columns data ∧ columns l = columns data.
Proof.
  intros Hcol Hn Hp.
  destruct (cutoff_check_sound max_rows (length (rows data)) p) as (c & Hc & _);
    [apply cutoff_check_max_rows|done..|].
  eexists _, _. split; [by apply (split_data_ok _ _ c)|done].
Qed.

Lemma cells_perm g1 g2 c : rows g1 ≡ₚ rows g2 → cells g1 c ≡ₚ cells g2 c.
Proof. intros Hr. unfold cells. by rewrite Hr. Qed.

(** The analysis of a group depends on its rows only up to their order. *)
Lemma analyze_group_perm g1 g2 r1 r2 :
  columns g1 = columns g2 → rows g1 ≡ₚ rows g2 →
  analyze_group g1 = Ok r1 → analyze_group g2 = Ok r2 → group_result_equiv r1 r2.
Proof.
  intros Hc Hr (_ & _ & Hd1 & Hp1 & Ht1 & Hs1 & Hst1)%analyze_group_inv
                (_ & _ & Hd2 & Hp2 & Ht2 & Hs2 & Hst2)%analyze_group_inv.
  assert (ttest_ind (cells g1 he2021_col) (cells g1 he2019_col) =
          ttest_ind (cells g2 he2021_col) (cells g2 he2019_col)) as Ht
    by (apply ttest_ind_perm; apply dropna_Permutation, cells_perm, Hr).
  rewrite <-Ht in *. unfold group_result_equiv.
  rewrite Hd1, Hd2, Hp1, Hp2, Ht1, Ht2, Hs1, Hs2, Hst1, Hst2.
  do 5 (split; [done|]).
  apply Forall2_cons; split; [|apply Forall2_cons; split; [|constructor]];
    (split; [done|]); apply descriptive_stats_perm, cells_perm, Hr.
Qed.
End analysis_lemmas.

(** ** Theorems *)

Section analysis_theorems.
Context `{!SortValues} `{!StudentT}.

(** C19: a run of [analyze_split] that returns gives a dict of exactly
    two entries, the upper group under [f"Top {p}%"] first and the lower
    group under [f"Bottom {100-p}%"] second, with distinct keys; so
    [list(results.keys())[1]] of the callback never raises. *)
Theorem analyze_split_two_groups data p res :
  analyze_split data p = Ok res →
  res.*1 = [top_label p; bottom_label p] ∧ NoDup res.*1 ∧
  ∃ u l, split_data data p = Ok (u, l) ∧ gr_data <$> res.*2 = [u; l].
Proof.
  intros (u & l & r1 & r2 & Hs & H1 & H2 & ->)%analyze_split_inv.
  apply analyze_group_inv in H1 as (_ & _ & Hu & _), H2 as (_ & _ & Hl & _).
  split; [done|]. split; [|exists u, l; simpl; by rewrite Hu, Hl].
  apply NoDup_cons_2; [|apply NoDup_singleton].
  rewrite list_elem_of_singleton. apply top_ne_bottom.
Qed.

(** C33: the columns are read in the order of the code: a table without
    ["2021_GDP"] raises [KeyError('2021_GDP')] in the sort; with it, on a
    table of at most [max_rows] rows and a percentile of the slider, a
    missing ["2021_HE"] raises [KeyError('2021_HE')] in the t-test of
    the upper group, and then a missing ["2019_HE"] raises
    [KeyError('2019_HE')]. *)
Theorem analyze_split_missing_columns data p :
  (gdp_col ∉ columns data → analyze_split data p = Err (KeyError gdp_col)) ∧
  (gdp_col ∈ columns data → (length (rows data) ≤ max_rows)%nat → p ∈ slider_values →
    (he2021_col ∉ columns data → analyze_split data p = Err (KeyError he2021_col)) ∧
    (he2021_col ∈ columns data → he2019_col ∉ columns data →
       analyze_split data p = Err (KeyError he2019_col))).
Proof.
  split; [intros Hc; unfold analyze_split, split_data, sort_values; by rewrite decide_False|].
  intros Hcol Hn Hp. destruct (split_data_slider_ok data p Hcol Hn Hp) as (u & l & Hs & Hu & _).
  rewrite (analyze_split_unfold _ _ _ _ Hs).
  split; [intros H21 | intros H21 H19]; rewrite <-Hu in *.
  - by rewrite (analyze_group_missing u he2021_col) by auto.
  - by rewrite (analyze_group_missing u he2019_col) by auto.
Qed.

(** C34: on a table with the three columns, of at most [max_rows] rows,
    and a percentile of the slider, [analyze_split] returns. *)
Theorem analyze_split_total data p :
  gdp_col ∈ columns data → he2019_col ∈ columns data → he2021_col ∈ columns data →
  (length (rows data) ≤ max_rows)%nat → p ∈ slider_values →
  ∃ res, analyze_split data p = Ok res.
Proof.
  intros Hg H19 H21 Hn Hp. destruct (split_data_slider_ok data p Hg Hn Hp) as (u & l & Hs & Hu & Hl).
  rewrite (analyze_split_unfold _ _ _ _ Hs), !analyze_group_ok by (rewrite ?Hu, ?Hl; done).
  by eexists.
Qed.

(** C8: a group of the result is flagged significant only when it has
    two 2021 values or more and two 2019 values or more and the mean of
    its 2021 values is above the mean of its 2019 values. *)
Theorem analyze_split_significant data p res name r :
  analyze_split data p = Ok res → (name, r) ∈ res → gr_significant r = true →
  (2 ≤ length (dropna (cells (gr_data r) he2021_col)))%nat ∧
  (2 ≤ length (dropna (cells (gr_data r) he2019_col)))%nat ∧
  mean_q (dropna (cells (gr_data r) he2019_col)) < mean_q (dropna (cells (gr_data r) he2021_col)).
Proof.
  intros Hres Hin Hsig. pose proof (analyze_split_member _ _ _ _ _ Hres Hin) as Hg.
  apply analyze_group_inv in Hg as (_ & _ & _ & _ & _ & Hs & _).
  apply ttest_flag_direction. by rewrite <-Hs.
Qed.

(** the statistics of a group are those of its two year columns,
    and their [Count] is the number of values of the column, the group's
    size less its NaN cells. *)
Theorem analyze_split_count data p res name r year st :
  analyze_split data p = Ok res → (name, r) ∈ res → (year, st) ∈ gr_stats r →
  year ∈ years ∧ st = descriptive_stats (cells (gr_data r) year) ∧
  st_count st = length (dropna (cells (gr_data r) year)) ∧
  (st_count st + length (filter (λ o : cell, o = None) (cells (gr_data r) year)) =
     length (rows (gr_data r)))%nat.
Proof.
  intros Hres Hin Hst. pose proof (analyze_split_member _ _ _ _ _ Hres Hin) as Hg.
  apply analyze_group_inv in Hg as (_ & _ & _ & _ & _ & _ & Hstats). rewrite Hstats in Hst.
  assert (year ∈ years ∧ st = descriptive_stats (cells (gr_data r) year)) as [Hy ->].
  { unfold years. repeat (apply elem_of_cons in Hst as [Hst|Hst]); simplify_eq;
      [split; set_solver..|by apply not_elem_of_nil in Hst]. }
  split; [done|]. split; [done|]. split; [done|]. cbn [st_count descriptive_stats].
  rewrite length_dropna. unfold cells. by rewrite length_fmap.
Qed.
End analysis_theorems.

(** C36: the analysis does not depend on how the sort breaks ties of the
    GDP, unless two rows of equal GDP fall on both sides of the cut: two
    lawful sorts give the same two labels, and for each group the same
    rows up to their order, the same t statistic, p-value and flag, and
    statistics that denote the same values. *)
Theorem analyze_split_untied (S1 S2 : SortValues) `{!StudentT} data p res1 res2 :
  @analyze_split S1 _ data p = Ok res1 → @analyze_split S2 _ data p = Ok res2 →
  (∀ u l, @split_data S1 data p = Ok (u, l) →
     ∀ x y, x ∈ rows u → y ∈ rows l → gdp_key x ≠ gdp_key y) →
  res1.*1 = res2.*1 ∧ Forall2 group_result_equiv res1.*2 res2.*2.
Proof.
  intros (u1 & l1 & r1 & r2 & Hs1 & Hu1 & Hl1 & ->)%analyze_split_inv
         (u2 & l2 & q1 & q2 & Hs2 & Hu2 & Hl2 & ->)%analyze_split_inv Hne.
  destruct (split_groups_untied S1 S2 data p u1 l1 u2 l2 Hs1 Hs2 (Hne _ _ Hs1)) as [Hu Hl].
  apply split_data_inv in Hs1 as (_ & _ & _ & Hcu1 & Hcl1 & _).
  apply split_data_inv in Hs2 as (_ & _ & _ & Hcu2 & Hcl2 & _).
  split; [done|]. simpl.
  constructor; [eapply analyze_group_perm; [..|exact Hu1|exact Hu2]; [congruence|done]|].
  constructor; [eapply analyze_group_perm; [..|exact Hl1|exact Hl2]; [congruence|done]|].
  constructor.
Qed.

(** C35: on a table of a single row with the three columns, for every
    percentile of the slider, the analysis raises nothing: it returns a
    lower group with no row, for which the t statistic is NaN, the flag is
    false, and every statistic of both years is NaN but the count and the
    sum, 0.  The spec asks for an [InsufficientDataError] instead. *)
Theorem analyze_split_single_row `{!SortValues} `{!StudentT} data p :
  length (rows data) = 1%nat → gdp_col ∈ columns data → he2019_col ∈ columns data →
  he2021_col ∈ columns data → p ∈ slider_values →
  ∃ res r, analyze_split data p = Ok res ∧ (bottom_label p, r) ∈ res ∧ rows (gr_data r) = [] ∧
    gr_statistic r = NaN ∧ gr_significant r = false ∧
    Forall (λ e, st_count e.2 = 0%nat ∧ st_mean e.2 = NaN ∧ st_median e.2 = NaN ∧
                 st_std e.2 = NaN ∧ st_sum e.2 = of_Q 0) (gr_stats r).
Proof.
  intros Hn Hg H19 H21 Hp.
  destruct (split_data_slider_ok data p Hg ltac:(rewrite Hn; unfold max_rows; lia) Hp)
    as (u & l & Hs & Hu & Hl).
  assert (Hok : ∃ res, analyze_split data p = Ok res).
  { rewrite (analyze_split_unfold _ _ _ _ Hs), !analyze_group_ok by (rewrite ?Hu, ?Hl; done). by eexists. }
  destruct Hok as [res Hres]. exists res.
  pose proof Hres as (u' & l' & r1 & r2 & Hs' & _ & Hl' & ->)%analyze_split_inv.
  destruct (split_single_row_groups data p u' l' Hn Hs') as [_ Hl0].
  apply analyze_group_inv in Hl' as (_ & _ & <- & _ & Ht & Hsig & Hst).
  exists r2. split; [done|]. split; [apply list_elem_of_lookup; by exists 1%nat|]. split; [done|].
  unfold cells in *. rewrite Hl0 in Ht, Hsig, Hst. rewrite Ht, Hsig, Hst.
  split; [done|]. split; [done|]. repeat constructor.
Qed.

(** ** The analysis on sample tables *)

Definition results_of (r : result (list (string * group_result))) : list (string * group_result) :=
  match r with Ok res => res | Err _ => [] end.

Definition nth_result (res : list (string * group_result)) (i : nat) : group_result :=
  default (GroupResult (Frame [] []) NaN NaN false []) (snd <$> res !! i).

(** Four countries where the two richest spend much more in 2021 than in
    2019. *)
Definition sample_sig : frame := Frame sample_columns
  [mk_row [(gdp_col, Some 2); (he2019_col, Some 5); (he2021_col, Some 5)];
   mk_row [(gdp_col, Some 4); (he2019_col, Some 1); (he2021_col, Some 12)];
   mk_row [(gdp_col, Some 1); (he2019_col, Some 6); (he2021_col, Some 6)];
   mk_row [(gdp_col, Some 3); (he2019_col, Some 2); (he2021_col, Some 13)]].

Definition sample_sig_results : list (string * group_result) :=
  Eval vm_compute in results_of (analyze_split sample_sig 50).
Definition sample_sig_top : group_result := Eval vm_compute in nth_result sample_sig_results 0.

Definition sample_results : list (string * group_result) :=
  Eval vm_compute in results_of (analyze_split sample_frame 50).
Definition sample_bottom : group_result := Eval vm_compute in nth_result sample_results 1.

Lemma analyze_split_two_groups_witness :
  sample_sig_results.*1 = [top_label 50; bottom_label 50] ∧ NoDup sample_sig_results.*1 ∧
  ∃ u l, split_data sample_sig 50 = Ok (u, l) ∧ gr_data <$> sample_sig_results.*2 = [u; l].
Proof. apply analyze_split_two_groups. vm_compute. reflexivity. Defined.

Lemma analyze_split_missing_columns_witness :
  analyze_split (Frame [gdp_col; he2019_col]
                   [mk_row [(gdp_col, Some 1); (he2019_col, Some 2)];
                    mk_row [(gdp_col, Some 3); (he2019_col, Some 4)]]) 50 =
    Err (KeyError he2021_col).
Proof.
  destruct (analyze_split_missing_columns
              (Frame [gdp_col; he2019_col]
                 [mk_row [(gdp_col, Some 1); (he2019_col, Some 2)];
                  mk_row [(gdp_col, Some 3); (he2019_col, Some 4)]]) 50) as [_ Hm].
  apply Hm; [decide_goal | vm_compute; lia | apply list_elem_of_lookup; by exists 9%nat | decide_goal].
Defined.

Lemma analyze_split_total_witness : ∃ res, analyze_split sample_frame 35 = Ok res.
Proof.
  apply analyze_split_total; [decide_goal..| vm_compute; lia | apply list_elem_of_lookup; by exists 6%nat].
Defined.

Lemma analyze_split_significant_witness :
  (2 ≤ length (dropna (cells (gr_data sample_sig_top) he2021_col)))%nat ∧
  (2 ≤ length (dropna (cells (gr_data sample_sig_top) he2019_col)))%nat ∧
  mean_q (dropna (cells (gr_data sample_sig_top) he2019_col)) <
    mean_q (dropna (cells (gr_data sample_sig_top) he2021_col)).
Proof.
  apply (analyze_split_significant sample_sig 50 sample_sig_results (top_label 50));
    [vm_compute; reflexivity | apply list_elem_of_lookup; by exists 0%nat | vm_compute; reflexivity].
Defined.

Definition sample_bottom_2021 : stats :=
  Eval vm_compute in descriptive_stats (cells (gr_data sample_bottom) he2021_col).

Lemma analyze_split_count_witness :
  he2021_col ∈ years ∧ sample_bottom_2021 = descriptive_stats (cells (gr_data sample_bottom) he2021_col) ∧
  st_count sample_bottom_2021 = length (dropna (cells (gr_data sample_bottom) he2021_col)) ∧
  (st_count sample_bottom_2021 +
     length (filter (λ o : cell, o = None) (cells (gr_data sample_bottom) he2021_col)) =
   length (rows (gr_data sample_bottom)))%nat.
Proof.
  apply (analyze_split_count sample_frame 50 sample_results (bottom_label 50));
    [vm_compute; reflexivity | apply list_elem_of_lookup; by exists 1%nat |
     apply list_elem_of_lookup; exists 1%nat; vm_compute; reflexivity].
Defined.

Definition sample_tied_results1 : list (string * group_result) :=
  Eval vm_compute in results_of (@analyze_split merge_sort_values _ sample_tied 50).
Definition sample_tied_results2 : list (string * group_result) :=
  Eval vm_compute in results_of (@analyze_split rev_merge_sort_values _ sample_tied 50).

Lemma analyze_split_untied_witness :
  sample_tied_results1.*1 = sample_tied_results2.*1 ∧
  Forall2 group_result_equiv sample_tied_results1.*2 sample_tied_results2.*2.
Proof.
  apply (analyze_split_untied merge_sort_values rev_merge_sort_values sample_tied 50);
    [vm_compute; reflexivity | vm_compute; reflexivity |].
  intros u l Hs. vm_compute in Hs. injection Hs as <- <-. apply Forall_pairs. decide_goal.
Defined.

Definition sample_single_results : list (string * group_result) :=
  Eval vm_compute in results_of (analyze_split sample_single 50).

Lemma analyze_split_single_row_witness :
  ∃ res r, analyze_split sample_single 50 = Ok res ∧ (bottom_label 50, r) ∈ res ∧
    rows (gr_data r) = [] ∧ gr_statistic r = NaN ∧ gr_significant r = false ∧
    Forall (λ e, st_count e.2 = 0%nat ∧ st_mean e.2 = NaN ∧ st_median e.2 = NaN ∧
                 st_std e.2 = NaN ∧ st_sum e.2 = of_Q 0) (gr_stats r).
Proof.
  apply (analyze_split_single_row sample_single 50); [reflexivity | decide_goal.. |].
  apply list_elem_of_lookup. by exists 9%nat.
Defined.
