(* ===== verification/Dashboard.v ===== *)
(** * The figure and the callback of the dashboard

    [create_plots] (lines 74-168) runs [analyze_split] and builds a plotly
    figure of two rows, one per group in the order of the dict, and three
    columns: a box plot, a kernel density estimate and a histogram of each
    year.  The figure is the record [figure], built by explicit state
    passing: [make_subplots] gives its titles, each [add_trace] appends a
    trace, [update_layout] and the axis updates set its layout.  The curve
    of a density estimate is not computed (it involves [exp]); the trace
    records its [x] grid, [np.linspace(min, max, 1000)].  What matters of
    scipy's [gaussian_kde] is when its constructor raises: on fewer than
    two values ([ValueError]) and on values with no spread (a singular
    covariance, [LinAlgError]); the [if not kde_data.empty] guard of line
    118 does not exclude either.

    [update_analysis] (lines 339-405) turns the figure and the results
    into the fifteen outputs of the callback; the cells of the tables are
    the texts of [:.2f] ([Format]), the [:.4f] texts are made in the
    returned tuple ([update_analysis_outputs] of [Layout]). *)

From stdpp Require Import pretty.
From S2P Require Import Prelude Frame Splitter PyFloat Format Stats TTest Analysis.

(** ** scipy's [gaussian_kde] constructor on one-dimensional data *)

Definition gaussian_kde (xs : list Q) : result unit :=
  if (length xs <=? 1)%nat then raise (ValueError "`dataset` input should have multiple elements.")
  else match nanvar_q xs with
       | Some v => if Qeq_bool v 0 then raise LinAlgError else Ok ()
       | None => Ok ()
       end.

(** [np.linspace(start, stop, num)]. *)
Definition linspace (start stop : Q) (num : nat) : list Q :=
  (λ i : nat, start + count_q i * (stop - start) / count_q (num - 1)) <$> seq 0 num.

(** ** Figures *)

Inductive trace_kind := Box | KDE | Histogram.

(** A trace: its kind, name, color, subplot, and its data ([y] of a box,
    [x] of a histogram, the [x] grid of a density). *)
Record trace : Type := Trace {
  tr_kind : trace_kind;
  tr_name : string;
  tr_color : string;
  tr_row : nat;
  tr_col : nat;
  tr_data : list Q
}.

Record figure : Type := Figure {
  fig_titles : list string;
  fig_traces : list trace;
  fig_height : nat;
  fig_width : nat;
  fig_title_text : string;
  fig_boxmode : string;
  fig_barmode : string;
  fig_xaxes : list (nat * nat * string);
  fig_yaxes : list (nat * nat * string)
}.

(** [make_subplots(rows=2, cols=3, subplot_titles=...)]. *)
Definition make_subplots (titles : list string) : figure := Figure titles [] 0 0 "" "" "" [] [].

Definition add_trace (t : trace) (fig : figure) : figure :=
  Figure (fig_titles fig) (fig_traces fig ++ [t]) (fig_height fig) (fig_width fig)
    (fig_title_text fig) (fig_boxmode fig) (fig_barmode fig) (fig_xaxes fig) (fig_yaxes fig).

(** Line 95. *)
Definition colors : list (string * string) := [(he2019_col, "#1E88E5"); (he2021_col, "#FF8C00")].

(** [list(results.keys())[i]]: [IndexError] out of range. *)
Definition key_at {V} (results : list (string * V)) (i : nat) : result string :=
  match results.*1 !! i with Some k => Ok k | None => raise IndexError end.

(** [for x in l: body] threading the figure. *)
Fixpoint for_each {A} (body : A → figure → result figure) (l : list A) (fig : figure) : result figure :=
  match l with
  | [] => Ok fig
  | x :: l' => fig' ← body x fig; for_each body l' fig'
  end.

(** Lines 103-112, one year of the box plots. *)
Definition box_step (group : frame) (row : nat) (year : string) (fig : figure) : result figure :=
  s ← column group year;
  c ← dict_get colors year;
  Ok (add_trace (Trace Box year c row 1 (dropna s)) fig).

(** Lines 115-134, one year of the density plots. *)
Definition kde_step (group : frame) (row : nat) (year : string) (fig : figure) : result figure :=
  s ← column group year;
  let kde_data := dropna s in
  if decide (kde_data = []) then Ok fig
  else
    let kde_x := linspace (default 0 (nanmin_q kde_data)) (default 0 (nanmax_q kde_data)) 1000 in
    _ ← gaussian_kde kde_data;
    c ← dict_get colors year;
    Ok (add_trace (Trace KDE year c row 2 kde_x) fig).

(** Lines 137-147, one year of the histograms. *)
Definition hist_step (group : frame) (row : nat) (year : string) (fig : figure) : result figure :=
  s ← column group year;
  c ← dict_get colors year;
  Ok (add_trace (Trace Histogram year c row 3 (dropna s)) fig).

(** Lines 98-147, the traces of the [i]-th group. *)
Definition group_traces (i : nat) (r : group_result) (fig : figure) : result figure :=
  let row := S i in
  fig ← for_each (box_step (gr_data r) row) years fig;
  fig ← for_each (kde_step (gr_data r) row) years fig;
  for_each (hist_step (gr_data r) row) years fig.

Fixpoint groups_traces (i : nat) (items : list (string * group_result)) (fig : figure) : result figure :=
  match items with
  | [] => Ok fig
  | (_, r) :: items' => fig ← group_traces i r fig; groups_traces (S i) items' fig
  end.

(** Lines 160-163: the axis titles of the six subplots. *)
Definition axis_titles : list (nat * nat * string) * list (nat * nat * string) :=
  let cells := list_prod [1; 2]%nat [1; 2; 3]%nat in
  ((λ ij : nat * nat, (ij.1, ij.2, if decide (ij.2 = 1%nat) then "Year" else "$ HEpp")) <$> cells,
   (λ ij : nat * nat, (ij.1, ij.2, if decide (ij.2 = 1%nat) then "$ HEpp"
                                   else if decide (ij.2 = 2%nat) then "Density" else "Count")) <$> cells).

(** Lines 149-166, the layout after the traces. *)
Definition finish_layout (percentile : Z) (fig : figure) : figure :=
  Figure (fig_titles fig) (fig_traces fig) 800 1200
    ("GDP Split Analysis at " +:+ pretty percentile +:+ "% cutoff") "group" "overlay"
    axis_titles.1 axis_titles.2.

Section dashboard.
Context `{!SortValues} `{!StudentT}.

(** Lines 74-168. *)
Definition create_plots (data : frame) (percentile : Z) :
    result (figure * list (string * group_result)) :=
  results ← analyze_split data percentile;
  k0 ← key_at results 0;
  k1 ← key_at results 1;
  let fig := make_subplots
    ["Boxplot (" +:+ k0 +:+ ")"; "KDE Plot (" +:+ k0 +:+ ")"; "Histogram (" +:+ k0 +:+ ")";
     "Boxplot (" +:+ k1 +:+ ")"; "KDE Plot (" +:+ k1 +:+ ")"; "Histogram (" +:+ k1 +:+ ")"] in
  fig ← groups_traces 0 results fig;
  Ok (finish_layout percentile fig, results).
End dashboard.

(** ** The callback *)

(** Lines 313-314: the label of the slider. *)
Definition update_percentile_value (percentile : Z) : string := pretty percentile +:+ "%".

(** A value of the stats dict: a numpy float or the integer count. *)
Inductive stat_value := FloatV (x : pyfloat) | IntV (n : nat).

(** Lines 49-62 as the dict they build, in its key order. *)
Definition stats_dict (st : stats) : list (string * stat_value) :=
  [("Mean", FloatV (st_mean st)); ("Standard Error", FloatV (st_stderr st));
   ("Median", FloatV (st_median st)); ("Standard Deviation", FloatV (st_std st));
   ("Sample Variance", FloatV (st_var st)); ("Kurtosis", FloatV (st_kurt st));
   ("Skewness", FloatV (st_skew st)); ("Range", FloatV (st_range st));
   ("Minimum", FloatV (st_min st)); ("Maximum", FloatV (st_max st));
   ("Sum", FloatV (st_sum st)); ("Count", IntV (st_count st))].

(** Lines 353-366. *)
Definition stat_names : list (string * string) :=
  [("Mean", "Mean"); ("Standard Error", "Std Err"); ("Median", "Median");
   ("Standard Deviation", "Std Dev"); ("Sample Variance", "Variance");
   ("Kurtosis", "Kurtosis"); ("Skewness", "Skewness"); ("Range", "Range");
   ("Minimum", "Min"); ("Maximum", "Max"); ("Sum", "Sum"); ("Count", "Count")].

(** A cell of the table: the text [f"{v:.2f}"] of a float, the value
    itself otherwise ([isinstance(v, float)], lines 377-378). *)
Inductive td := TdStr (s : string) | TdInt (n : nat).

Definition cell_of (v : stat_value) : td :=
  match v with FloatV x => TdStr (py_format_fixed 2 x) | IntV n => TdInt n end.

Record stats_table : Type := StatsTable {
  st_header : list string;
  st_rows : list (string * td * td)
}.

(** Lines 350-384, [create_stats_table(group_name)]. *)
Definition create_stats_table (results : list (string * group_result)) (group_name : string) :
    result stats_table :=
  res ← dict_get results group_name;
  rows ← mapM (λ names : string * string,
                 s19 ← dict_get (gr_stats res) he2019_col;
                 v19 ← dict_get (stats_dict s19) names.1;
                 s21 ← dict_get (gr_stats res) he2021_col;
                 v21 ← dict_get (stats_dict s21) names.1;
                 Ok (names.2, cell_of v19, cell_of v21)) stat_names;
  Ok (StatsTable ["Statistic"; "2019 HE"; "2021 HE"] rows).

(** The seven outputs of one group (lines 389-403). *)
Record group_view : Type := GroupView {
  gv_title : string;
  gv_t_stat : pyfloat;
  gv_p_value : pyfloat;
  gv_significant : string;
  gv_hypothesis : string;
  gv_stats_title : string;
  gv_stats_table : stats_table
}.

Definition group_view_of (results : list (string * group_result)) (name : string) : result group_view :=
  r ← dict_get results name;
  table ← create_stats_table results name;
  Ok {| gv_title := name;
        gv_t_stat := gr_statistic r;
        gv_p_value := gr_pvalue r;
        gv_significant := if gr_significant r then "Yes" else "No";
        gv_hypothesis := if gr_significant r then "True" else "False";
        gv_stats_title := "Statistics for " +:+ name;
        gv_stats_table := table |}.

Record view : Type := View { v_figure : figure; v_top : group_view; v_bottom : group_view }.

Section callback.
Context `{!SortValues} `{!StudentT}.

(** Lines 339-405. *)
Definition update_analysis (data : frame) (percentile : Z) : result view :=
  '(fig, results) ← create_plots data percentile;
  top_group ← key_at results 0;
  bottom_group ← key_at results 1;
  top ← group_view_of results top_group;
  bottom ← group_view_of results bottom_group;
  Ok (View fig top bottom).
End callback.

(** ** The traces a figure receives *)

Definition add_traces (ts : list trace) (fig : figure) : figure :=
  Figure (fig_titles fig) (fig_traces fig ++ ts) (fig_height fig) (fig_width fig)
    (fig_title_text fig) (fig_boxmode fig) (fig_barmode fig) (fig_xaxes fig) (fig_yaxes fig).

Lemma add_traces_nil fig : add_traces [] fig = fig.
Proof. destruct fig. unfold add_traces. simpl. by rewrite app_nil_r. Qed.

Lemma add_traces_app ts1 ts2 fig : add_traces ts2 (add_traces ts1 fig) = add_traces (ts1 ++ ts2) fig.
Proof. unfold add_traces. simpl. by rewrite app_assoc. Qed.

(** The loop of a step that appends the traces a check returns appends
    the traces of all the checks. *)
Lemma for_each_traces {A} (body : A → figure → result figure) (check : A → result (list trace)) l fig :
  (∀ x fig, body x fig = (ts ← check x; Ok (add_traces ts fig))) →
  for_each body l fig = (tss ← mapM check l; Ok (add_traces (concat tss) fig)).
Proof.
  intros Hb. revert fig. induction l as [|x l IH]; intros fig; simpl; [by rewrite add_traces_nil|].
  rewrite Hb. destruct (check x) as [ts|]; simpl; [|done].
  rewrite IH. destruct (mapM check l); simpl; [|done]. by rewrite add_traces_app.
Qed.

(** The traces of one year of each plot, or the exception. *)
Definition box_check (g : frame) (row : nat) (year : string) : result (list trace) :=
  s ← column g year; c ← dict_get colors year; Ok [Trace Box year c row 1 (dropna s)].

Definition kde_check (g : frame) (row : nat) (year : string) : result (list trace) :=
  s ← column g year;
  let kde_data := dropna s in
  if decide (kde_data = []) then Ok []
  else
    let kde_x := linspace (default 0 (nanmin_q kde_data)) (default 0 (nanmax_q kde_data)) 1000 in
    _ ← gaussian_kde kde_data; c ← dict_get colors year; Ok [Trace KDE year c row 2 kde_x].

Definition hist_check (g : frame) (row : nat) (year : string) : result (list trace) :=
  s ← column g year; c ← dict_get colors year; Ok [Trace Histogram year c row 3 (dropna s)].

Definition group_check (i : nat) (r : group_result) : result (list trace) :=
  b ← mapM (box_check (gr_data r) (S i)) years;
  k ← mapM (kde_check (gr_data r) (S i)) years;
  h ← mapM (hist_check (gr_data r) (S i)) years;
  Ok (concat b ++ concat k ++ concat h).

Fixpoint groups_check (i : nat) (items : list (string * group_result)) : result (list trace) :=
  match items with
  | [] => Ok []
  | (_, r) :: items' => ts ← group_check i r; ts' ← groups_check (S i) items'; Ok (ts ++ ts')
  end.

(** [Ltac step_check] proves that a step appends what its check returns:
    both run the same computations in the same order. *)
Ltac step_check :=
  repeat match goal with
  | |- context [column ?g ?y] => destruct (column g y); simpl
  | |- context [dict_get ?d ?k] => destruct (dict_get d k); simpl
  | |- context [gaussian_kde ?xs] => destruct (gaussian_kde xs); simpl
  | |- context [decide ?P] => destruct (decide P); simpl
  end; rewrite ?add_traces_nil; done.

Lemma box_step_check g row year fig :
  box_step g row year fig = (ts ← box_check g row year; Ok (add_traces ts fig)).
Proof. unfold box_step, box_check. simpl. step_check. Qed.

Lemma kde_step_check g row year fig :
  kde_step g row year fig = (ts ← kde_check g row year; Ok (add_traces ts fig)).
Proof. unfold kde_step, kde_check. simpl. step_check. Qed.

Lemma hist_step_check g row year fig :
  hist_step g row year fig = (ts ← hist_check g row year; Ok (add_traces ts fig)).
Proof. unfold hist_step, hist_check. simpl. step_check. Qed.

Lemma group_traces_check i r fig :
  group_traces i r fig = (ts ← group_check i r; Ok (add_traces ts fig)).
Proof.
  unfold group_traces, group_check.
  rewrite (for_each_traces _ _ _ _ (box_step_check _ _)).
  destruct (mapM (box_check _ _) years); cbn [mbind result_bind]; [|done].
  rewrite (for_each_traces _ _ _ _ (kde_step_check _ _)).
  destruct (mapM (kde_check _ _) years); cbn [mbind result_bind]; [|done].
  rewrite (for_each_traces _ _ _ _ (hist_step_check _ _)).
  destruct (mapM (hist_check _ _) years); cbn [mbind result_bind]; [|done].
  by rewrite !add_traces_app.
Qed.

Lemma groups_traces_check i items fig :
  groups_traces i items fig = (ts ← groups_check i items; Ok (add_traces ts fig)).
Proof.
  revert i fig. induction items as [|[k r] items IH]; intros i fig; simpl; [by rewrite add_traces_nil|].
  rewrite group_traces_check. destruct (group_check i r); simpl; [|done].
  rewrite IH. destruct (groups_check (S i) items); simpl; [|done]. by rewrite add_traces_app.
Qed.

(** ** When the figure is built *)

(** A year of a group whose density [gaussian_kde] can estimate, or that
    the guard of line 118 skips. *)
Definition kde_ok (xs : list Q) : Prop := xs = [] ∨ ∃ v, nanvar_q xs = Some v ∧ 0 < v.

Lemma gaussian_kde_err xs e : gaussian_kde xs = Err e → e = LinAlgError ∨ ∃ m, e = ValueError m.
Proof.
  unfold gaussian_kde. destruct (_ <=? _)%nat; [intros [= <-]; eauto|].
  destruct (nanvar_q xs); [qcase|]; intros [= <-]; auto.
Qed.

Lemma gaussian_kde_ok xs : xs ≠ [] → (∃ u, gaussian_kde xs = Ok u) ↔ ∃ v, nanvar_q xs = Some v ∧ 0 < v.
Proof.
  intros Hne. unfold gaussian_kde. destruct (Nat.leb_spec (length xs) 1).
  - split; [by intros []|]. intros (v & Hv & _). apply nanvar_q_spec in Hv. lia.
  - destruct (nanvar_q xs) as [v|] eqn:Hv; [|apply nanvar_q_None_iff in Hv; lia].
    apply nanvar_q_spec in Hv as (_ & Hv0 & _).
    qcase; split; [by intros []| intros (? & [= <-] & ?); lra | intros _ | by eexists]; eauto.
    exists v. split; [done|]. lra.
Qed.

Lemma dict_get_colors year : year ∈ years → ∃ c, dict_get colors year = Ok c.
Proof. intros Hy. repeat (apply elem_of_cons in Hy as [->|Hy]); [by eexists..|by apply not_elem_of_nil in Hy]. Qed.

Section checks.
Context (g : frame) (row : nat) (year : string).
Hypothesis (Hy : year ∈ years) (Hc : year ∈ columns g).

Lemma box_check_ok : ∃ ts, box_check g row year = Ok ts.
Proof. destruct (dict_get_colors year Hy) as [c Hcol]. unfold box_check. rewrite column_ok, Hcol by done. by eexists. Qed.

Lemma hist_check_ok : ∃ ts, hist_check g row year = Ok ts.
Proof. destruct (dict_get_colors year Hy) as [c Hcol]. unfold hist_check. rewrite column_ok, Hcol by done. by eexists. Qed.

Lemma kde_check_ok : (∃ ts, kde_check g row year = Ok ts) ↔ kde_ok (dropna (cells g year)).
Proof.
  destruct (dict_get_colors year Hy) as [c Hcol]. unfold kde_check, kde_ok. rewrite column_ok by done.
  cbn [mbind result_bind]. fold (cells g year). destruct (decide (dropna (cells g year) = [])) as [He|He].
  - split; [by left|by eexists].
  - rewrite <-(gaussian_kde_ok _ He). destruct (gaussian_kde _) as [[]|]; cbn [mbind result_bind]; rewrite ?Hcol.
    + split; [intros _; right; by exists ()|intros _; by eexists].
    + split; [by intros []|]. intros [?|[]]; done.
Qed.

Lemma kde_check_err e : kde_check g row year = Err e → e = LinAlgError ∨ ∃ m, e = ValueError m.
Proof.
  destruct (dict_get_colors year Hy) as [c Hcol]. unfold kde_check. rewrite column_ok by done.
  cbn [mbind result_bind]. case_decide; [done|]. destruct (gaussian_kde _) eqn:Ek; cbn [mbind result_bind].
  - by rewrite Hcol.
  - intros [= <-]. by eapply gaussian_kde_err.
Qed.
End checks.

Definition kde_error (e : pyexc) : Prop := e = LinAlgError ∨ ∃ m, e = ValueError m.

Section group_checks.
Context (i : nat) (r : group_result).
Hypothesis (H19 : he2019_col ∈ columns (gr_data r)) (H21 : he2021_col ∈ columns (gr_data r)).

Lemma years_columns year : year ∈ years → year ∈ columns (gr_data r).
Proof. intros Hy. repeat (apply elem_of_cons in Hy as [->|Hy]); [done..|by apply not_elem_of_nil in Hy]. Qed.

Lemma group_check_ok :
  (∃ ts, group_check i r = Ok ts) ↔ ∀ year, year ∈ years → kde_ok (dropna (cells (gr_data r) year)).
Proof.
  unfold group_check.
  destruct (proj2 (mapM_result_ok (box_check (gr_data r) (S i)) years)) as [b ->];
    [intros y Hy; apply box_check_ok; auto using years_columns|].
  destruct (proj2 (mapM_result_ok (hist_check (gr_data r) (S i)) years)) as [h Hh];
    [intros y Hy; apply hist_check_ok; auto using years_columns|].
  assert ((∀ year, year ∈ years → kde_ok (dropna (cells (gr_data r) year))) ↔
          ∃ k, mapM (kde_check (gr_data r) (S i)) years = Ok k) as ->.
  { rewrite mapM_result_ok. split; intros Hall y Hy;
      [apply kde_check_ok | apply (kde_check_ok (gr_data r) (S i))]; auto using years_columns. }
  cbn [mbind result_bind]. destruct (mapM (kde_check _ _) years) as [k|e]; cbn [mbind result_bind].
  - rewrite Hh. split; intros _; by eexists.
  - split; by intros [? ?].
Qed.
End group_checks.

Lemma group_check_err i r e :
  he2019_col ∈ columns (gr_data r) → he2021_col ∈ columns (gr_data r) →
  group_check i r = Err e → kde_error e.
Proof.
  intros H19 H21. unfold group_check.
  destruct (proj2 (mapM_result_ok (box_check (gr_data r) (S i)) years)) as [b ->];
    [intros y Hy; apply box_check_ok; auto using years_columns|].
  destruct (proj2 (mapM_result_ok (hist_check (gr_data r) (S i)) years)) as [h Hh];
    [intros y Hy; apply hist_check_ok; auto using years_columns|].
  cbn [mbind result_bind]. destruct (mapM (kde_check _ _) years) as [k|e'] eqn:Ek; cbn [mbind result_bind].
  - by rewrite Hh.
  - intros [= <-]. apply mapM_result_err in Ek as (y & Hy & Hky).
    by apply (kde_check_err (gr_data r) (S i) y); auto using years_columns.
Qed.

Lemma groups_check_ok_inv i items ts k r :
  groups_check i items = Ok ts → (k, r) ∈ items → ∃ j ts', group_check j r = Ok ts'.
Proof.
  revert i ts. induction items as [|[k' r'] items IH]; intros i ts; simpl; [by intros _ ?%not_elem_of_nil|].
  destruct (group_check i r') as [ts1|] eqn:E1; cbn [mbind result_bind]; [|done].
  destruct (groups_check (S i) items) as [ts2|] eqn:E2; cbn [mbind result_bind]; [|done].
  intros _ [[= -> ->]|Hin]%elem_of_cons; [by eauto|]. by eapply IH.
Qed.

Lemma groups_check_err i items e :
  groups_check i items = Err e → ∃ j k r, (k, r) ∈ items ∧ group_check j r = Err e.
Proof.
  revert i. induction items as [|[k' r'] items IH]; intros i; simpl; [done|].
  destruct (group_check i r') as [ts1|] eqn:E1; cbn [mbind result_bind].
  - destruct (groups_check (S i) items) as [ts2|] eqn:E2; cbn [mbind result_bind]; [done|].
    intros [= <-]. destruct (IH (S i)) as (j & k & r & Hin & Hr); [done|].
    exists j, k, r. split; [by right|done].
  - intros [= <-]. exists i, k', r'. split; [by left|done].
Qed.


Section plots.
Context `{!SortValues} `{!StudentT}.

Lemma create_plots_unfold data p res :
  analyze_split data p = Ok res →
  ∃ titles, create_plots data p =
    (ts ← groups_check 0 res; Ok (finish_layout p (add_traces ts (make_subplots titles)), res)).
Proof.
  intros Hres. pose proof Hres as (u & l & r1 & r2 & _ & _ & _ & ->)%analyze_split_inv.
  unfold create_plots. rewrite Hres. cbn [mbind result_bind].
  change (key_at [(top_label p, r1); (bottom_label p, r2)] 0) with (Ok (A:=string) (top_label p)).
  change (key_at [(top_label p, r1); (bottom_label p, r2)] 1) with (Ok (A:=string) (bottom_label p)).
  cbn [mbind result_bind]. eexists. rewrite groups_traces_check.
  destruct (groups_check 0 _); reflexivity.
Qed.

Lemma create_plots_inv data p fig res :
  create_plots data p = Ok (fig, res) → analyze_split data p = Ok res.
Proof.
  destruct (analyze_split data p) as [res'|e] eqn:E; [|unfold create_plots; by rewrite E].
  destruct (create_plots_unfold _ _ _ E) as [titles ->].
  destruct (groups_check 0 res'); cbn [mbind result_bind]; [|done]. by intros [= _ ->].
Qed.

(** The members of the results have the two year columns. *)
Lemma analyze_split_member_columns data p res name r :
  analyze_split data p = Ok res → (name, r) ∈ res →
  he2019_col ∈ columns (gr_data r) ∧ he2021_col ∈ columns (gr_data r).
Proof.
  intros Hres Hin. apply (analyze_split_member _ _ _ _ _ Hres) in Hin.
  apply analyze_group_inv in Hin as (? & ? & _). done.
Qed.
End plots.

(** ** Theorems *)

Section plots_theorems.
Context `{!SortValues} `{!StudentT}.


(** C10: the guard [if not kde_data.empty] of line 118 is not enough: a
    year of a group with a single value, which the clamp of line 29
    allows (a lower group of one row), makes [create_plots], and so the
    callback, raise the [ValueError] or [LinAlgError] of [gaussian_kde]. *)
Theorem create_plots_single_value data p res name r year :
  analyze_split data p = Ok res → (name, r) ∈ res → year ∈ years →
  length (dropna (cells (gr_data r) year)) = 1%nat →
  ∃ e, create_plots data p = Err e ∧ kde_error e.
Proof.
  intros Hres Hin Hy Hlen. destruct (create_plots_unfold _ _ _ Hres) as [titles Hc].
  rewrite Hc. destruct (groups_check 0 res) as [ts|e] eqn:Hg; cbn [mbind result_bind].
  - exfalso. destruct (groups_check_ok_inv _ _ _ _ _ Hg Hin) as (j & ts' & Hj).
    destruct (analyze_split_member_columns _ _ _ _ _ Hres Hin).
    destruct (proj1 (group_check_ok j r ltac:(done) ltac:(done)) (ltac:(by eexists)) year Hy)
      as [He|(v & Hv & _)].
    + rewrite He in Hlen. done.
    + apply nanvar_q_spec in Hv. lia.
  - exists e. split; [done|].
    destruct (groups_check_err _ _ _ Hg) as (j & k & r' & Hin' & Hj).
    destruct (analyze_split_member_columns _ _ _ _ _ Hres Hin').
    by apply (group_check_err j r').
Qed.
End plots_theorems.

(** ** The callback's outputs *)

Lemma dict_get_top {V} p (r1 r2 : V) : dict_get [(top_label p, r1); (bottom_label p, r2)] (top_label p) = Ok r1.
Proof. cbn [dict_get]. by rewrite decide_True. Qed.

Lemma dict_get_bottom {V} p (r1 r2 : V) :
  dict_get [(top_label p, r1); (bottom_label p, r2)] (bottom_label p) = Ok r2.
Proof.
  cbn [dict_get]. rewrite decide_False; [by rewrite decide_True|].
  intros E. by apply (top_ne_bottom p p).
Qed.

(** The table of a group lists the twelve statistics in the order of
    [stat_names], with their short names. *)
Lemma create_stats_table_ok results name r s19 s21 :
  dict_get results name = Ok r → gr_stats r = [(he2019_col, s19); (he2021_col, s21)] →
  ∃ rows, create_stats_table results name = Ok (StatsTable ["Statistic"; "2019 HE"; "2021 HE"] rows) ∧
    (λ x : string * td * td, x.1.1) <$> rows = stat_names.*2.
Proof. intros Hr Hs. unfold create_stats_table. rewrite Hr. cbn [mbind result_bind]. rewrite Hs. eexists; split; reflexivity. Qed.

Lemma group_view_of_ok results name r s19 s21 :
  dict_get results name = Ok r → gr_stats r = [(he2019_col, s19); (he2021_col, s21)] →
  ∃ t, group_view_of results name =
    Ok {| gv_title := name; gv_t_stat := gr_statistic r; gv_p_value := gr_pvalue r;
          gv_significant := if gr_significant r then "Yes" else "No";
          gv_hypothesis := if gr_significant r then "True" else "False";
          gv_stats_title := "Statistics for " +:+ name; gv_stats_table := t |} ∧
    (λ x : string * td * td, x.1.1) <$> st_rows t = stat_names.*2.
Proof.
  intros Hr Hs. destruct (create_stats_table_ok _ _ _ _ _ Hr Hs) as (rows & Ht & Hrows).
  unfold group_view_of. rewrite Hr. cbn [mbind result_bind]. rewrite Ht. by eexists.
Qed.

Section callback_theorems.
Context `{!SortValues} `{!StudentT}.

Lemma update_analysis_unfold data p fig res :
  create_plots data p = Ok (fig, res) →
  ∃ u l r1 r2 t1 t2, split_data data p = Ok (u, l) ∧ analyze_group u = Ok r1 ∧ analyze_group l = Ok r2 ∧
    update_analysis data p = Ok (View fig
      {| gv_title := top_label p; gv_t_stat := gr_statistic r1; gv_p_value := gr_pvalue r1;
         gv_significant := if gr_significant r1 then "Yes" else "No";
         gv_hypothesis := if gr_significant r1 then "True" else "False";
         gv_stats_title := "Statistics for " +:+ top_label p; gv_stats_table := t1 |}
      {| gv_title := bottom_label p; gv_t_stat := gr_statistic r2; gv_p_value := gr_pvalue r2;
         gv_significant := if gr_significant r2 then "Yes" else "No";
         gv_hypothesis := if gr_significant r2 then "True" else "False";
         gv_stats_title := "Statistics for " +:+ bottom_label p; gv_stats_table := t2 |}) ∧
    (λ x : string * td * td, x.1.1) <$> st_rows t1 = stat_names.*2 ∧
    (λ x : string * td * td, x.1.1) <$> st_rows t2 = stat_names.*2.
Proof.
  intros Hc. pose proof (create_plots_inv _ _ _ _ Hc) as Hres.
  apply analyze_split_inv in Hres as (u & l & r1 & r2 & Hs & H1 & H2 & ->).
  pose proof H1 as (_ & _ & _ & _ & _ & _ & Hst1)%analyze_group_inv.
  pose proof H2 as (_ & _ & _ & _ & _ & _ & Hst2)%analyze_group_inv.
  destruct (group_view_of_ok _ _ _ _ _ (dict_get_top p r1 r2) Hst1) as (t1 & Hv1 & Ht1).
  destruct (group_view_of_ok _ _ _ _ _ (dict_get_bottom p r1 r2) Hst2) as (t2 & Hv2 & Ht2).
  exists u, l, r1, r2, t1, t2. do 3 (split; [done|]). split; [|done].
  unfold update_analysis. rewrite Hc. cbn [mbind result_bind].
  change (key_at [(top_label p, r1); (bottom_label p, r2)] 0) with (Ok (A:=string) (top_label p)).
  change (key_at [(top_label p, r1); (bottom_label p, r2)] 1) with (Ok (A:=string) (bottom_label p)).
  cbn [mbind result_bind]. by rewrite Hv1, Hv2.
Qed.

(** What the callback shows of each group: its label and its flag. *)
Lemma update_analysis_inv data p v :
  update_analysis data p = Ok v →
  ∃ u l r1 r2, split_data data p = Ok (u, l) ∧ analyze_group u = Ok r1 ∧ analyze_group l = Ok r2 ∧
    gv_title (v_top v) = top_label p ∧ gv_title (v_bottom v) = bottom_label p ∧
    gv_significant (v_top v) = (if gr_significant r1 then "Yes" else "No") ∧
    gv_hypothesis (v_top v) = (if gr_significant r1 then "True" else "False") ∧
    gv_significant (v_bottom v) = (if gr_significant r2 then "Yes" else "No") ∧
    gv_hypothesis (v_bottom v) = (if gr_significant r2 then "True" else "False").
Proof.
  unfold update_analysis at 1. destruct (create_plots data p) as [[fig res]|] eqn:Hc; [|done].
  destruct (update_analysis_unfold _ _ _ _ Hc) as (u & l & r1 & r2 & t1 & t2 & Hs & H1 & H2 & Hu & _).
  unfold update_analysis in Hu. rewrite Hc in Hu. cbn [mbind result_bind] in Hu |- *. rewrite Hu.
  intros [= <-]. by exists u, l, r1, r2.
Qed.

(** C20: once the figure is built, the callback raises nothing
    ([group_names[1]] exists, every [results[...]] and
    [result['stats'][...][stat_name]] is a key), shows the figure, titles
    the two groups with their labels and lists the twelve statistics in
    the order of [stat_names]. *)
Theorem update_analysis_total data p fig res :
  create_plots data p = Ok (fig, res) →
  ∃ v, update_analysis data p = Ok v ∧ v_figure v = fig ∧
    gv_title (v_top v) = top_label p ∧ gv_title (v_bottom v) = bottom_label p ∧
    (λ x : string * td * td, x.1.1) <$> st_rows (gv_stats_table (v_top v)) = stat_names.*2 ∧
    (λ x : string * td * td, x.1.1) <$> st_rows (gv_stats_table (v_bottom v)) = stat_names.*2.
Proof.
  intros Hc. destruct (update_analysis_unfold _ _ _ _ Hc) as (u & l & r1 & r2 & t1 & t2 & _ & _ & _ & -> & ? & ?).
  by eexists.
Qed.

(** C9: the dashboard answers "Yes" (and "True") for a group only when
    the group has two values or more of each year and the mean of its
    2021 values is above the mean of its 2019 values. *)
Theorem update_analysis_yes data p v :
  update_analysis data p = Ok v →
  ∃ u l, split_data data p = Ok (u, l) ∧
    (gv_significant (v_top v) = "Yes" ↔ gv_hypothesis (v_top v) = "True") ∧
    (gv_significant (v_bottom v) = "Yes" ↔ gv_hypothesis (v_bottom v) = "True") ∧
    (gv_significant (v_top v) = "Yes" →
       mean_q (dropna (cells u he2019_col)) < mean_q (dropna (cells u he2021_col))) ∧
    (gv_significant (v_bottom v) = "Yes" →
       mean_q (dropna (cells l he2019_col)) < mean_q (dropna (cells l he2021_col))).
Proof.
  intros (u & l & r1 & r2 & Hs & H1 & H2 & _ & _ & -> & -> & -> & ->)%update_analysis_inv.
  exists u, l. split; [done|].
  destruct (gr_significant r1) eqn:E1, (gr_significant r2) eqn:E2; split_and!;
    first [split; intros; congruence | intros Hy; first [discriminate Hy | by eapply analyze_group_flag_means]].
Qed.
End callback_theorems.

(** ** The dashboard on sample tables *)

Definition sample_results_95 : list (string * group_result) :=
  Eval vm_compute in results_of (analyze_split sample_frame 95).
Definition sample_bottom_95 : group_result := Eval vm_compute in nth_result sample_results_95 1.

Definition sample_sig_plot : figure * list (string * group_result) :=
  Eval vm_compute in
    match create_plots sample_sig 50 with Ok x => x | Err _ => (make_subplots [], []) end.

Definition sample_sig_view : view :=
  Eval vm_compute in
    match update_analysis sample_sig 50 with
    | Ok v => v
    | Err _ => let gv := GroupView "" NaN NaN "" "" "" (StatsTable [] []) in View (make_subplots []) gv gv
    end.


Lemma create_plots_single_value_witness :
  ∃ e, create_plots sample_frame 95 = Err e ∧ kde_error e.
Proof.
  apply (create_plots_single_value sample_frame 95 sample_results_95 (bottom_label 95)
           sample_bottom_95 he2019_col);
    [vm_compute; reflexivity | apply list_elem_of_lookup; by exists 1%nat | by left | vm_compute; reflexivity].
Defined.

Lemma update_analysis_total_witness :
  ∃ v, update_analysis sample_sig 50 = Ok v ∧ v_figure v = sample_sig_plot.1 ∧
    gv_title (v_top v) = top_label 50 ∧ gv_title (v_bottom v) = bottom_label 50 ∧
    (λ x : string * td * td, x.1.1) <$> st_rows (gv_stats_table (v_top v)) = stat_names.*2 ∧
    (λ x : string * td * td, x.1.1) <$> st_rows (gv_stats_table (v_bottom v)) = stat_names.*2.
Proof. apply (update_analysis_total sample_sig 50 sample_sig_plot.1 sample_sig_plot.2). vm_compute. reflexivity. Defined.

Lemma update_analysis_yes_witness :
  ∃ u l, split_data sample_sig 50 = Ok (u, l) ∧
    (gv_significant (v_top sample_sig_view) = "Yes" ↔ gv_hypothesis (v_top sample_sig_view) = "True") ∧
    (gv_significant (v_bottom sample_sig_view) = "Yes" ↔ gv_hypothesis (v_bottom sample_sig_view) = "True") ∧
    (gv_significant (v_top sample_sig_view) = "Yes" →
       mean_q (dropna (cells u he2019_col)) < mean_q (dropna (cells u he2021_col))) ∧
    (gv_significant (v_bottom sample_sig_view) = "Yes" →
       mean_q (dropna (cells l he2019_col)) < mean_q (dropna (cells l he2021_col))).
Proof. apply update_analysis_yes. vm_compute. reflexivity. Defined.

(** ** The traces of the figure, declaratively *)

(** The color of a year in [colors]. *)
Definition color_of (year : string) : string :=
  match dict_get colors year with Ok c => c | Err _ => "" end.

(** The traces of the row [row] for the group [g]: the box plots of both
    years, the densities of the years that have values, the histograms of
    both years. *)
Definition row_traces (row : nat) (g : frame) : list trace :=
  ((λ y, Trace Box y (color_of y) row 1 (dropna (cells g y))) <$> years) ++
  concat ((λ y, if decide (dropna (cells g y) = []) then []
                else [Trace KDE y (color_of y) row 2
                        (linspace (default 0 (nanmin_q (dropna (cells g y))))
                                  (default 0 (nanmax_q (dropna (cells g y)))) 1000)]) <$> years) ++
  ((λ y, Trace Histogram y (color_of y) row 3 (dropna (cells g y))) <$> years).

Lemma color_of_ok year c : dict_get colors year = Ok c → color_of year = c.
Proof. unfold color_of. by intros ->. Qed.

Lemma box_check_eq g row y :
  y ∈ years → y ∈ columns g → box_check g row y = Ok [Trace Box y (color_of y) row 1 (dropna (cells g y))].
Proof.
  intros Hy Hc. destruct (dict_get_colors y Hy) as [c Hcol].
  unfold box_check. rewrite column_ok by done. cbn [mbind result_bind]. by rewrite Hcol, (color_of_ok _ _ Hcol).
Qed.

Lemma hist_check_eq g row y :
  y ∈ years → y ∈ columns g →
  hist_check g row y = Ok [Trace Histogram y (color_of y) row 3 (dropna (cells g y))].
Proof.
  intros Hy Hc. destruct (dict_get_colors y Hy) as [c Hcol].
  unfold hist_check. rewrite column_ok by done. cbn [mbind result_bind]. by rewrite Hcol, (color_of_ok _ _ Hcol).
Qed.

Lemma kde_check_Ok_eq g row y ts :
  y ∈ columns g → kde_check g row y = Ok ts →
  ts = if decide (dropna (cells g y) = []) then []
       else [Trace KDE y (color_of y) row 2
               (linspace (default 0 (nanmin_q (dropna (cells g y))))
                         (default 0 (nanmax_q (dropna (cells g y)))) 1000)].
Proof.
  intros Hc. unfold kde_check. rewrite column_ok by done. cbn [mbind result_bind]. fold (cells g y).
  case_decide; [by intros [= <-]|].
  destruct (gaussian_kde _); cbn [mbind result_bind]; [|done].
  destruct (dict_get colors y) as [c|] eqn:Hcol; cbn [mbind result_bind]; [|done].
  intros [= <-]. by rewrite (color_of_ok _ _ Hcol).
Qed.

Lemma group_check_traces i r ts :
  he2019_col ∈ columns (gr_data r) → he2021_col ∈ columns (gr_data r) →
  group_check i r = Ok ts → ts = row_traces (S i) (gr_data r).
Proof.
  intros H19 H21. unfold group_check, years. rewrite !mapM_result_cons.
  rewrite !box_check_eq, !hist_check_eq by (done || set_solver). cbn [mbind result_bind mapM mret result_ret].
  destruct (kde_check _ _ he2019_col) as [k1|] eqn:E1; cbn [mbind result_bind]; [|done].
  destruct (kde_check _ _ he2021_col) as [k2|] eqn:E2; cbn [mbind result_bind]; [|done].
  apply kde_check_Ok_eq in E1, E2; [|done..]. intros [= <-]. by rewrite E1, E2.
Qed.

Section traces_theorem.
Context `{!SortValues} `{!StudentT}.

(** the figure [create_plots] builds by successive [add_trace]
    calls is the declarative one: its six titles name the two labels, and
    its traces are those of the upper group in row 1 followed by those of
    the lower group in row 2, each row the box plots of both years, the
    densities of the years with values and the histograms of both years. *)
Theorem create_plots_traces data p fig res :
  create_plots data p = Ok (fig, res) →
  ∃ u l, split_data data p = Ok (u, l) ∧
    fig_titles fig =
      ["Boxplot (" +:+ top_label p +:+ ")"; "KDE Plot (" +:+ top_label p +:+ ")";
       "Histogram (" +:+ top_label p +:+ ")"; "Boxplot (" +:+ bottom_label p +:+ ")";
       "KDE Plot (" +:+ bottom_label p +:+ ")"; "Histogram (" +:+ bottom_label p +:+ ")"] ∧
    fig_traces fig = row_traces 1 u ++ row_traces 2 l.
Proof.
  intros Hc. pose proof (create_plots_inv _ _ _ _ Hc) as Hres.
  pose proof Hres as (u & l & r1 & r2 & Hs & H1 & H2 & ->)%analyze_split_inv.
  apply analyze_group_inv in H1 as (H19u & H21u & <- & _), H2 as (H19l & H21l & <- & _).
  eexists _, _. split; [done|].
  unfold create_plots in Hc. rewrite Hres in Hc. cbn [mbind result_bind] in Hc.
  change (key_at [(top_label p, r1); (bottom_label p, r2)] 0) with (Ok (A:=string) (top_label p)) in Hc.
  change (key_at [(top_label p, r1); (bottom_label p, r2)] 1) with (Ok (A:=string) (bottom_label p)) in Hc.
  cbn [mbind result_bind] in Hc. rewrite groups_traces_check in Hc. cbn [groups_check] in Hc.
  destruct (group_check 0 r1) as [ts1|] eqn:G1; cbn [mbind result_bind] in Hc; [|done].
  destruct (group_check 1 r2) as [ts2|] eqn:G2; cbn [mbind result_bind] in Hc; [|done].
  injection Hc as <-. apply group_check_traces in G1, G2; [|done..].
  split; [done|]. cbn. by rewrite G1, G2, app_nil_r.
Qed.
End traces_theorem.

Lemma create_plots_traces_witness :
  ∃ u l, split_data sample_sig 50 = Ok (u, l) ∧
    fig_titles sample_sig_plot.1 =
      ["Boxplot (" +:+ top_label 50 +:+ ")"; "KDE Plot (" +:+ top_label 50 +:+ ")";
       "Histogram (" +:+ top_label 50 +:+ ")"; "Boxplot (" +:+ bottom_label 50 +:+ ")";
       "KDE Plot (" +:+ bottom_label 50 +:+ ")"; "Histogram (" +:+ bottom_label 50 +:+ ")"] ∧
    fig_traces sample_sig_plot.1 = row_traces 1 u ++ row_traces 2 l.
Proof. apply (create_plots_traces sample_sig 50 sample_sig_plot.1 sample_sig_plot.2). vm_compute. reflexivity. Defined.
