(* ===== verification/Layout.v ===== *)
(** * The page: the layout, the index template and the callback wiring

    Lines 171-338 build the Dash application: the component tree of
    [app.layout] (174-264), the HTML template [app.index_string]
    (267-306) and the declarations of the two callbacks, their [Output]s
    and [Input]s (309-311, 317-338).  A component is the [Inductive]
    [component]: an [html.*] element with its tag, id, style and
    children, a text child, the [dcc.Slider] with its parameters, or the
    [dcc.Graph].  [find_id] is the look-up by id Dash performs when it
    routes a callback's output to the page, [has_prop] the properties a
    component has, and [accepts] which returned values a property
    displays.  The values the callbacks return are [output_value]; the
    tuple of [update_analysis] (lines 387-405) is
    [update_analysis_outputs].

    The app is created with [suppress_callback_exceptions=True] (line
    171), so Dash does not check at start-up that the ids of the callbacks
    exist in the layout; [callbacks_well_typed] is that check.  Dash's own
    behaviour that the file uses is modelled from its documentation and
    marked as such: the positions of a slider ([slider_positions]), the
    placeholders an index template must contain ([index_checks],
    [validate_index]) and those it fills in ([dash_interpolated]). *)

From stdpp Require Import pretty.
From S2P Require Import Prelude Float64 Frame Splitter PyFloat Format Stats TTest Analysis Dashboard.

(** ** Components *)

(** A style dict; every value of the source's styles is a string. *)
Definition style_dict := list (string * string).

(** The components of the layout.  [Html tag id style children] is
    [html.<tag>(children, id=id, style=style)]. *)
Inductive component : Type :=
  | Html (tag : string) (id : option string) (style : style_dict) (children : list component)
  | Text (s : string)
  | Slider (id : string) (min max step value : Z) (marks : list (Z * string)) (updatemode : string)
  | Graph (id : string).

(** Python's [range(start, stop, step)] for a positive step. *)
Definition py_range (start stop step : Z) : list Z :=
  (λ k : nat, start + step * Z.of_nat k)%Z <$> seq 0 (Z.to_nat ((stop - start + step - 1) / step)).

(** Line 186: [{i: f'{i}%' for i in range(5, 96, 10)}]. *)
Definition slider_marks : list (Z * string) :=
  (λ i, (i, pretty i +:+ "%")) <$> py_range 5 96 10.

(** Lines 174-264. *)
Definition layout : component :=
  Html "Div" None [("fontFamily", "Arial, sans-serif"); ("maxWidth", "1400px"); ("margin", "0 auto")] [
    Html "H1" None [("textAlign", "center"); ("color", "#2c3e50")] [Text "GDP Split Analysis"];
    Html "Div" None [("width", "80%"); ("margin", "20px auto"); ("textAlign", "center")] [
      Html "H3" None [("display", "inline-block"); ("marginRight", "10px")]
        [Text "Adjust GDP Percentile Split:"];
      Html "Div" (Some "percentile-value")
        [("display", "inline-block"); ("fontWeight", "bold"); ("fontSize", "18px")] [];
      Slider "percentile-slider" 5 95 5 50 slider_marks "drag"];
    Graph "plot-area";
    Html "Div" None [("width", "90%"); ("margin", "0 auto")] [
      Html "H2" None [("textAlign", "center"); ("color", "#2c3e50")] [Text "Hypothesis Test Results"];
      Html "Div" None [("width", "100%"); ("margin", "20px 0")] [
        Html "Div" None [("width", "48%"); ("display", "inline-block"); ("verticalAlign", "top")] [
          Html "H3" (Some "top-group-title") [] [];
          Html "Table" None [("width", "100%"); ("borderCollapse", "collapse"); ("margin", "10px 0")] [
            Html "Tr" None [] [Html "Th" None [] [Text "Measure"]; Html "Th" None [] [Text "Result"]];
            Html "Tr" None [] [Html "Td" None [] [Text "T-statistic"]; Html "Td" (Some "top-t-stat") [] []];
            Html "Tr" None [] [Html "Td" None [] [Text "One-tailed p-value"];
                               Html "Td" (Some "top-p-value") [] []];
            Html "Tr" None [] [Html "Td" None [] [Text "Significant"];
                               Html "Td" (Some "top-significant") [] []];
            Html "Tr" None [] [Html "Td" None [] [Text "Hypothesis (2021 > 2019)"];
                               Html "Td" (Some "top-hypothesis") [] []]]];
        Html "Div" None [("width", "48%"); ("display", "inline-block"); ("verticalAlign", "top")] [
          Html "H3" (Some "bottom-group-title") [] [];
          Html "Table" None [("width", "100%"); ("borderCollapse", "collapse"); ("margin", "10px 0")] [
            Html "Tr" None [] [Html "Th" None [] [Text "Measure"]; Html "Th" None [] [Text "Result"]];
            Html "Tr" None [] [Html "Td" None [] [Text "T-statistic"]; Html "Td" (Some "bottom-t-stat") [] []];
            Html "Tr" None [] [Html "Td" None [] [Text "One-tailed p-value"];
                               Html "Td" (Some "bottom-p-value") [] []];
            Html "Tr" None [] [Html "Td" None [] [Text "Significant"];
                               Html "Td" (Some "bottom-significant") [] []];
            Html "Tr" None [] [Html "Td" None [] [Text "Hypothesis (2021 > 2019)"];
                               Html "Td" (Some "bottom-hypothesis") [] []]]]]];
    Html "Div" None [("width", "90%"); ("margin", "20px auto")] [
      Html "H2" None [("textAlign", "center"); ("color", "#2c3e50")] [Text "Descriptive Statistics"];
      Html "Div" None [("width", "48%"); ("display", "inline-block"); ("verticalAlign", "top")] [
        Html "H3" (Some "top-stats-title") [] [];
        Html "Div" (Some "top-stats-table") [] []];
      Html "Div" None [("width", "48%"); ("display", "inline-block"); ("verticalAlign", "top")] [
        Html "H3" (Some "bottom-stats-title") [] [];
        Html "Div" (Some "bottom-stats-table") [] []]]].

(** The ids of a component tree, in document order. *)
Fixpoint comp_ids (c : component) : list string :=
  match c with
  | Html _ id _ children =>
      from_option (λ i, [i]) [] id ++
      (fix go (l : list component) : list string :=
         match l with [] => [] | c' :: l' => comp_ids c' ++ go l' end) children
  | Text _ => []
  | Slider id _ _ _ _ _ _ => [id]
  | Graph id => [id]
  end.

(** The first component of the tree with id [i], in document order. *)
Fixpoint find_id (i : string) (c : component) : option component :=
  match c with
  | Html _ id _ children =>
      if decide (id = Some i) then Some c else
      (fix go (l : list component) : option component :=
         match l with
         | [] => None
         | c' :: l' => match find_id i c' with Some x => Some x | None => go l' end
         end) children
  | Text _ => None
  | Slider id _ _ _ _ _ _ | Graph id => if decide (id = i) then Some c else None
  end.

(** The properties of each kind of component a callback may name. *)
Definition has_prop (c : component) (prop : string) : bool :=
  match c with
  | Html _ _ _ _ => bool_decide (prop ∈ ["children"; "id"; "style"; "className"])
  | Text _ => false
  | Slider _ _ _ _ _ _ _ =>
      bool_decide (prop ∈ ["id"; "min"; "max"; "step"; "value"; "marks"; "updatemode"])
  | Graph _ => bool_decide (prop ∈ ["id"; "figure"])
  end.

(** The values a dcc.Slider can take, from Dash's documentation:
    [min + k * step] for the [k] that stay within [max]. *)
Definition slider_positions (min max step : Z) : list Z :=
  (λ k : nat, min + step * Z.of_nat k)%Z <$> seq 0 (S (Z.to_nat ((max - min) / step))).

(** ** The index template *)

(** Lines 267-306. *)
Definition index_string : string := "
<!DOCTYPE html>
<html>
    <head>
        {%metas%}
        <title>GDP Split Analysis</title>
        {%favicon%}
        {%css%}
        <style>
            table {
                border-collapse: collapse;
                width: 100%;
                margin: 20px 0;
            }
            th, td {
                border: 1px solid #ddd;
                padding: 8px;
            }
            th {
                background-color: #f2f2f2;
                text-align: left;
            }
            td.numeric {
                text-align: right;
            }
            tr:nth-child(even) {
                background-color: #f9f9f9;
            }
        </style>
    </head>
    <body>
        {%app_entry%}
        <footer>
            {%config%}
            {%scripts%}
            {%renderer%}
        </footer>
    </body>
</html>
".

(** [s] contains [sub]. *)
Fixpoint contains (sub s : string) : bool :=
  String.prefix sub s || match s with EmptyString => false | String _ s' => contains sub s' end.

(** The placeholders Dash requires in an index template; assigning a
    template without one of them raises [InvalidIndexException] naming
    the missing ones (dash's [validate_index]). *)
Definition index_checks : list string := ["{%app_entry%}"; "{%config%}"; "{%scripts%}"].

Definition validate_index (value : string) : result unit :=
  match filter (λ chk, contains chk value = false) index_checks with
  | [] => Ok ()
  | missing => raise (InvalidIndexException missing)
  end.

(** The placeholders Dash fills in when it serves the page. *)
Definition dash_interpolated : list string :=
  ["metas"; "title"; "favicon"; "css"; "app_entry"; "config"; "scripts"; "renderer"].

(** The text of [s] up to the first occurrence of [stop]. *)
Fixpoint up_to (stop s : string) : string :=
  match s with
  | EmptyString => EmptyString
  | String c s' => if String.prefix stop s then EmptyString else String c (up_to stop s')
  end.

(** The names [n] of the [{%n%}] placeholders of a template, in order. *)
Fixpoint placeholders (s : string) : list string :=
  match s with
  | EmptyString => []
  | String _ s' =>
      (if String.prefix "{%" s then [up_to "%}" (String.substring 2 (String.length s) s)] else [])
      ++ placeholders s'
  end.

(** ** The callbacks *)

(** The declaration of a callback: its [Output(id, prop)]s and its
    [Input(id, prop)]s, in order. *)
Record callback_spec : Type := CallbackSpec {
  cb_outputs : list (string * string);
  cb_inputs : list (string * string)
}.

(** Lines 309-311. *)
Definition percentile_value_cb : callback_spec :=
  CallbackSpec [("percentile-value", "children")] [("percentile-slider", "value")].

(** Lines 317-338. *)
Definition update_analysis_cb : callback_spec :=
  CallbackSpec
    [("plot-area", "figure");
     ("top-group-title", "children"); ("top-t-stat", "children"); ("top-p-value", "children");
     ("top-significant", "children"); ("top-hypothesis", "children");
     ("top-stats-title", "children"); ("top-stats-table", "children");
     ("bottom-group-title", "children"); ("bottom-t-stat", "children");
     ("bottom-p-value", "children"); ("bottom-significant", "children");
     ("bottom-hypothesis", "children"); ("bottom-stats-title", "children");
     ("bottom-stats-table", "children")]
    [("percentile-slider", "value")].

(** The application of line 171 with what lines 174-338 give it. *)
Record dash_app : Type := DashApp {
  suppress_callback_exceptions : bool;
  app_layout : component;
  app_index_string : string;
  app_callbacks : list callback_spec
}.

Definition app : dash_app :=
  DashApp true layout index_string [percentile_value_cb; update_analysis_cb].

(** A value a callback returns for one of its outputs: a figure, a
    string, a table component, a number. *)
Inductive output_value : Type :=
  | OFigure (fig : figure)
  | OStr (s : string)
  | OTable (t : stats_table)
  | ONum (z : Z).

(** The values a property displays: a graph's [figure] takes a figure,
    an element's [children] a string or a component, a slider's [value]
    a number. *)
Definition accepts (c : component) (prop : string) (o : output_value) : bool :=
  match c, o with
  | Graph _, OFigure _ => bool_decide (prop = "figure")
  | Html _ _ _ _, (OStr _ | OTable _) => bool_decide (prop = "children")
  | Slider _ _ _ _ _ _ _, ONum _ => bool_decide (prop = "value")
  | _, _ => false
  end.

(** Lines 387-405: the tuple [update_analysis] returns. *)
Definition update_analysis_outputs (v : view) : list output_value :=
  let group gv :=
    [OStr (gv_title gv); OStr (py_format_fixed 4 (gv_t_stat gv));
     OStr (py_format_fixed 4 (gv_p_value gv));
     OStr (gv_significant gv); OStr (gv_hypothesis gv);
     OStr (gv_stats_title gv); OTable (gv_stats_table gv)] in
  OFigure (v_figure v) :: group (v_top v) ++ group (v_bottom v).

(** The output [update_percentile_value] returns (line 314). *)
Definition percentile_value_outputs (percentile : Z) : list output_value :=
  [OStr (update_percentile_value percentile)].

(** Dash routes a returned value to the component with the output's id
    and sets the property there. *)
Definition resolves (io : string * string) : bool :=
  match find_id io.1 (app_layout app) with Some c => has_prop c io.2 | None => false end.

Definition routes (io : string * string) (o : output_value) : bool :=
  match find_id io.1 (app_layout app) with Some c => accepts c io.2 o | None => false end.

(** ** Theorems *)

(** C15: the wiring of the app is well typed.  The ids of the layout are
    distinct; no property is the output of two callbacks; every [Output]
    and [Input] names a component of the layout that has the property;
    and each value the callbacks return, in the order of their tuples,
    goes to a property that displays it, the figure to the graph and the
    fourteen strings and tables to [children]. *)
Theorem callbacks_well_typed :
  NoDup (comp_ids (app_layout app)) ∧
  NoDup (concat (cb_outputs <$> app_callbacks app)) ∧
  (∀ cb io, cb ∈ app_callbacks app → io ∈ cb_outputs cb ++ cb_inputs cb → resolves io = true) ∧
  (∀ p, Forall2 (λ io o, routes io o = true) (cb_outputs percentile_value_cb) (percentile_value_outputs p)) ∧
  (∀ v, Forall2 (λ io o, routes io o = true) (cb_outputs update_analysis_cb) (update_analysis_outputs v)).
Proof.
  split_and!; [decide_goal | decide_goal | | |].
  - apply (Forall_nested (λ cb, cb_outputs cb ++ cb_inputs cb)). decide_goal.
  - intros p. vm_compute. repeat constructor.
  - intros v. repeat constructor.
Qed.

(** The slider of the layout takes exactly the values [slider_values]
    that the split theorems range over, starts at one of them, and each
    of its marks sits on one of them and reads what the percentile label
    shows there. *)
Theorem layout_slider :
  ∃ mn mx st v marks mode,
    find_id "percentile-slider" (app_layout app) = Some (Slider "percentile-slider" mn mx st v marks mode) ∧
    slider_positions mn mx st = slider_values ∧ v ∈ slider_values ∧
    Forall (λ m, m.1 ∈ slider_values ∧ m.2 = update_percentile_value m.1) marks.
Proof. do 6 eexists. split; [reflexivity|]. split_and!; decide_goal. Qed.

(** Assigning the template of lines 267-306 does not raise: it has
    the placeholders Dash requires, and every placeholder in it is one
    Dash fills in, so none reaches the browser as text. *)
Theorem index_string_valid :
  validate_index (app_index_string app) = Ok () ∧
  Forall (λ n, n ∈ dash_interpolated) (placeholders (app_index_string app)).
Proof. split; [vm_compute; reflexivity | decide_goal]. Qed.
