(* ===== verification/App.v ===== *)
(** * The running dashboard: slider moves as a state machine

    In the browser the page holds a value for each property that has
    one; Dash keeps it under the key ["id.prop"].  At load the renderer
    reads the slider's initial [value] (line 184) and fires the two
    callbacks; each later move of the slider sets [value] and fires them
    again (with [updatemode='drag'] on every step the handle passes).
    A callback that returns writes its outputs in the order of its
    [Output]s; a callback that raises fails its request and the page
    keeps what it showed.  The state is the [store]; [slide] is the
    reaction to one move; [app_step] is the step relation and
    [reachable] the states a session can reach, by stdpp's [rtc].  The
    invariants are proved by rule induction on [rtc]: with a table on
    which every analysis returns, the page shows one percentile
    throughout; on any table, the fifteen outputs come from a single
    analysis, which makes a "Yes" on the page sound; and a failing
    analysis leaves a stale page.  The abstract page [abs_page] keeps the
    slider's position and the last position at which the analysis
    returned; [renders] relates it to the store, and the session refines
    it ([app_refines]). *)

From S2P Require Import Prelude Float64 Frame Splitter PyFloat Stats TTest Analysis Dashboard Layout.

(** ** The state of the page *)

(** The key of a property in the renderer's store. *)
Definition prop_key (io : string * string) : string := io.1 +:+ "." +:+ io.2.

Definition store := list (string * output_value).

Definition slider_input : string * string := ("percentile-slider", "value").
Definition label_output : string * string := ("percentile-value", "children").

(** The properties the layout sets before any callback runs: the
    slider's value. *)
Definition initial_store : store :=
  match find_id slider_input.1 (app_layout app) with
  | Some (Slider _ _ _ _ v _ _) => [(prop_key slider_input, ONum v)]
  | _ => []
  end.

(** The outputs of a callback written in the order of its tuple. *)
Definition write_outputs (outs : list (string * string)) (vals : list output_value) (s : store) : store :=
  foldl (λ s ov, dict_set (prop_key ov.1) ov.2 s) s (zip outs vals).

(** One request of a callback: its outputs on return, no change when it
    raises. *)
Definition fire (cb : callback_spec) (r : result (list output_value)) (s : store) : store :=
  match r with Ok vals => write_outputs (cb_outputs cb) vals s | Err _ => s end.

Section app.
Context `{!SortValues} `{!StudentT} (data : frame).

(** Both callbacks on the slider's value [p], in their order of
    declaration. *)
Definition run_callbacks (p : Z) (s : store) : store :=
  fire update_analysis_cb (update_analysis_outputs <$> update_analysis data p)
    (fire percentile_value_cb (Ok (percentile_value_outputs p)) s).

(** The renderer fires the callbacks on the input it holds. *)
Definition dispatch (s : store) : store :=
  match dict_get s (prop_key slider_input) with Ok (ONum p) => run_callbacks p s | _ => s end.

Definition app_init : store := dispatch initial_store.

(** A move of the slider to [p]. *)
Definition slide (p : Z) (s : store) : store := dispatch (dict_set (prop_key slider_input) (ONum p) s).

(** The slider only takes the values of [layout_slider]. *)
Inductive app_step : store → store → Prop :=
  | step_slide s p : p ∈ slider_values → app_step s (slide p s).

Definition reachable (s : store) : Prop := rtc app_step app_init s.

(** A session as the list of the slider's moves. *)
Definition run (ps : list Z) : store := foldl (λ s p, slide p s) app_init ps.

(** What the page shows. *)
Definition shows (s : store) (io : string * string) (o : output_value) : Prop :=
  dict_get s (prop_key io) = Ok o.

Definition shows_view (s : store) (v : view) : Prop :=
  Forall2 (shows s) (cb_outputs update_analysis_cb) (update_analysis_outputs v).

(** The page agrees with itself: the label, the figure and the fourteen
    result cells are those of the slider's value. *)
Definition consistent (s : store) : Prop :=
  ∃ p v, p ∈ slider_values ∧ shows s slider_input (ONum p) ∧
    shows s label_output (OStr (update_percentile_value p)) ∧
    update_analysis data p = Ok v ∧ shows_view s v.

(** The fifteen outputs of the analysis: none has a value yet, or all
    show one analysis that returned. *)
Definition view_absent (s : store) : Prop :=
  ∀ io, io ∈ cb_outputs update_analysis_cb → dict_get s (prop_key io) = Err (KeyError (prop_key io)).

Definition shows_analysis (s : store) : Prop :=
  ∃ p v, p ∈ slider_values ∧ update_analysis data p = Ok v ∧ shows_view s v.

(** ** An abstract specification of the page *)

(** What the page promises to show: the slider's position, and the last
    position at which the analysis returned, with its result. *)
Record abs_page : Type := AbsPage { ap_slider : Z; ap_view : option (Z * view) }.

Definition abs_move (p : Z) (a : abs_page) : abs_page :=
  AbsPage p (match update_analysis data p with Ok v => Some (p, v) | Err _ => ap_view a end).

Definition abs_init : abs_page := abs_move 50 (AbsPage 50 None).

Definition abs_run (ps : list Z) : abs_page := foldl (λ a p, abs_move p a) abs_init ps.

(** The fifteen outputs of the analysis: those of the last analysis
    that returned, or none. *)
Definition renders_view (o : option (Z * view)) (s : store) : Prop :=
  match o with
  | Some (q, v) => update_analysis data q = Ok v ∧ shows_view s v
  | None => view_absent s
  end.

(** The page shows the abstract state. *)
Definition renders (a : abs_page) (s : store) : Prop :=
  shows s slider_input (ONum (ap_slider a)) ∧
  shows s label_output (OStr (update_percentile_value (ap_slider a))) ∧
  renders_view (ap_view a) s.
End app.

(** ** Writing outputs *)

Lemma write_outputs_cons io outs o vals s :
  write_outputs (io :: outs) (o :: vals) s = write_outputs outs vals (dict_set (prop_key io) o s).
Proof. done. Qed.

(** Writing outputs leaves the other properties as they were. *)
Lemma write_outputs_other outs vals s k :
  k ∉ prop_key <$> outs → dict_get (write_outputs outs vals s) k = dict_get s k.
Proof.
  revert vals s. induction outs as [|io outs IH]; intros [|o vals] s Hk; [done..|].
  rewrite fmap_cons, elem_of_cons in Hk. rewrite write_outputs_cons, IH by tauto.
  apply dict_get_set_other. tauto.
Qed.

(** Outputs with distinct keys show the values of the tuple. *)
Lemma write_outputs_shows outs vals s :
  NoDup (prop_key <$> outs) → length vals = length outs →
  Forall2 (λ io o, dict_get (write_outputs outs vals s) (prop_key io) = Ok o) outs vals.
Proof.
  revert vals s. induction outs as [|io outs IH]; intros [|o vals] s Hnd Hlen; simplify_eq/=; [constructor|].
  apply NoDup_cons in Hnd as [Hnin Hnd]. constructor; rewrite write_outputs_cons.
  - rewrite write_outputs_other by exact Hnin. apply dict_get_set_same.
  - by apply IH.
Qed.

(** The keys the callbacks write and the slider's key are distinct. *)
Lemma output_keys_NoDup :
  NoDup (prop_key <$> cb_outputs update_analysis_cb ++ [slider_input; label_output]).
Proof. decide_goal. Qed.

Lemma analysis_keys_NoDup : NoDup (prop_key <$> cb_outputs update_analysis_cb).
Proof. pose proof output_keys_NoDup as H. rewrite fmap_app in H. by apply NoDup_app in H as []. Qed.

Lemma not_analysis_key io :
  io ∈ [slider_input; label_output] → prop_key io ∉ prop_key <$> cb_outputs update_analysis_cb.
Proof.
  pose proof output_keys_NoDup as H. rewrite fmap_app in H. apply NoDup_app in H as (_ & H & _).
  intros Hio Hin. apply (H _ Hin). by apply list_elem_of_fmap_2.
Qed.

Lemma label_not_slider : prop_key slider_input ∉ prop_key <$> cb_outputs percentile_value_cb.
Proof. decide_goal. Qed.

Lemma analysis_key_ne io io' :
  io ∈ cb_outputs update_analysis_cb → io' ∈ [slider_input; label_output] → prop_key io ≠ prop_key io'.
Proof. intros Hio Hio' Heq. apply (not_analysis_key io' Hio'). rewrite <-Heq. by apply list_elem_of_fmap_2. Qed.

Lemma slider_ne_label : prop_key slider_input ≠ prop_key label_output.
Proof. cbv. congruence. Qed.

Lemma initial_store_eq : initial_store = dict_set (prop_key slider_input) (ONum 50) [].
Proof. reflexivity. Qed.

#[export] Hint Resolve analysis_keys_NoDup label_not_slider : gdp.

Section app_lemmas.
Context `{!SortValues} `{!StudentT} (data : frame).

Lemma slide_unfold p s :
  slide data p s = run_callbacks data p (dict_set (prop_key slider_input) (ONum p) s).
Proof. unfold slide, dispatch. by rewrite dict_get_set_same. Qed.

(** Loading the page is a move of the slider to its initial value. *)
Lemma app_init_slide : app_init data = slide data 50 [].
Proof. unfold app_init, slide. by rewrite initial_store_eq. Qed.

(** The label callback writes only the label. *)
Lemma fire_label_other p s k :
  k ≠ prop_key label_output →
  dict_get (fire percentile_value_cb (Ok (percentile_value_outputs p)) s) k = dict_get s k.
Proof. intros Hk. apply write_outputs_other. set_solver. Qed.

Lemma fire_label_shows p s :
  shows (fire percentile_value_cb (Ok (percentile_value_outputs p)) s) label_output
    (OStr (update_percentile_value p)).
Proof.
  pose proof (write_outputs_shows (cb_outputs percentile_value_cb) (percentile_value_outputs p) s
    ltac:(apply NoDup_singleton) eq_refl) as Hl.
  apply Forall2_cons in Hl as [Hl _]. exact Hl.
Qed.

(** A callback run whose analysis returns shows the label and the
    fifteen outputs of [p], and leaves the slider. *)
Lemma run_callbacks_Ok p v s :
  update_analysis data p = Ok v →
  dict_get (run_callbacks data p s) (prop_key slider_input) = dict_get s (prop_key slider_input) ∧
  shows (run_callbacks data p s) label_output (OStr (update_percentile_value p)) ∧
  shows_view (run_callbacks data p s) v.
Proof.
  intros Hv. unfold run_callbacks, shows, shows_view. rewrite Hv. cbn [fmap result_fmap fire].
  split_and!.
  - rewrite write_outputs_other by (apply not_analysis_key; set_solver). by apply fire_label_other.
  - rewrite write_outputs_other by (apply not_analysis_key; set_solver). apply fire_label_shows.
  - apply write_outputs_shows; [apply analysis_keys_NoDup | done].
Qed.

(** A callback run whose analysis raises writes the label only. *)
Lemma run_callbacks_Err p e s :
  update_analysis data p = Err e →
  run_callbacks data p s = fire percentile_value_cb (Ok (percentile_value_outputs p)) s.
Proof. intros He. unfold run_callbacks. by rewrite He. Qed.

(** A move whose analysis raises keeps the fifteen outputs. *)
Lemma slide_Err_keeps q e s io :
  update_analysis data q = Err e → io ∈ cb_outputs update_analysis_cb →
  dict_get (slide data q s) (prop_key io) = dict_get s (prop_key io).
Proof.
  intros He Hio. rewrite slide_unfold, (run_callbacks_Err q e) by done.
  rewrite fire_label_other by (apply analysis_key_ne; set_solver).
  apply dict_get_set_other, analysis_key_ne; set_solver.
Qed.

Lemma shows_view_slide_Err q e s v :
  update_analysis data q = Err e → shows_view s v → shows_view (slide data q s) v.
Proof.
  intros He Hv. eapply Forall2_impl_elem; [exact Hv|]. intros io o Hio. unfold shows.
  by rewrite (slide_Err_keeps q e s io He Hio).
Qed.

Lemma consistent_slide p v s :
  p ∈ slider_values → update_analysis data p = Ok v → consistent data (slide data p s).
Proof.
  intros Hp Hv. rewrite slide_unfold.
  destruct (run_callbacks_Ok p v (dict_set (prop_key slider_input) (ONum p) s) Hv) as (Hs & Hl & Hview).
  exists p, v. split_and!; try done. unfold shows. rewrite Hs. apply dict_get_set_same.
Qed.

Lemma slide_view p s :
  p ∈ slider_values → view_absent s ∨ shows_analysis data s →
  view_absent (slide data p s) ∨ shows_analysis data (slide data p s).
Proof.
  intros Hp Hs. destruct (update_analysis data p) as [v|e] eqn:He.
  - right. exists p, v. split_and!; [done | done |]. rewrite slide_unfold. apply (run_callbacks_Ok p v _ He).
  - destruct Hs as [Ha|(p' & v & Hp' & Hv & Hview)].
    + left. intros io Hio. rewrite (slide_Err_keeps p e s io He Hio). by apply Ha.
    + right. exists p', v. split_and!; [done | done |]. by apply (shows_view_slide_Err p e).
Qed.

(** Every reachable page shows no analysis or exactly one, whole: the
    outputs of one request are never mixed with those of another. *)
Lemma app_view_coherent s : reachable data s → view_absent s ∨ shows_analysis data s.
Proof.
  revert s. apply rtc_ind_r.
  - rewrite app_init_slide. apply slide_view; [decide_goal|]. by left.
  - intros s1 s2 _ Hst IH. inversion Hst; subst. by apply slide_view.
Qed.

Lemma shows_view_at s v i io o :
  shows_view s v → cb_outputs update_analysis_cb !! i = Some io →
  update_analysis_outputs v !! i = Some o → shows s io o.
Proof. intros Hv. by apply Forall2_lookup_lr. Qed.

(** One move of the slider simulates one abstract move. *)
Lemma renders_slide p a s : renders_view data (ap_view a) s → renders data (abs_move data p a) (slide data p s).
Proof.
  intros Hv. unfold abs_move, renders. cbn [ap_slider ap_view].
  destruct (update_analysis data p) as [v|e] eqn:He.
  - rewrite slide_unfold. destruct (run_callbacks_Ok p v (dict_set (prop_key slider_input) (ONum p) s) He)
      as (Hs & Hl & Hview).
    split_and!; [|done|by split]. unfold shows. rewrite Hs. apply dict_get_set_same.
  - split_and!.
    + unfold shows. rewrite slide_unfold, (run_callbacks_Err p e) by done.
      rewrite fire_label_other by apply slider_ne_label. apply dict_get_set_same.
    + unfold shows. rewrite slide_unfold, (run_callbacks_Err p e) by done. apply fire_label_shows.
    + destruct (ap_view a) as [[q v]|]; cbn [renders_view] in *.
      * destruct Hv as [Hq Hv]. split; [done|]. by apply (shows_view_slide_Err p e).
      * intros io Hio. rewrite (slide_Err_keeps p e s io He Hio). by apply Hv.
Qed.

Lemma renders_run_from ps a s :
  renders data a s → renders data (foldl (λ a p, abs_move data p a) a ps) (foldl (λ s p, slide data p s) s ps).
Proof.
  revert a s. induction ps as [|p ps IH]; intros a s Ha; [done|]. cbn [foldl].
  apply IH, renders_slide. apply Ha.
Qed.

Lemma renders_init : renders data (abs_init data) (app_init data).
Proof. rewrite app_init_slide. by apply renders_slide. Qed.

Lemma run_from_rtc s0 ps :
  Forall (λ p, p ∈ slider_values) ps → rtc (app_step data) s0 (foldl (λ s p, slide data p s) s0 ps).
Proof.
  intros Hps. revert s0. induction Hps as [|p ps Hp _ IH]; intros s0; [done|].
  eapply rtc_l; [by constructor | apply IH].
Qed.

Lemma reachable_run s : reachable data s → ∃ ps, Forall (λ p, p ∈ slider_values) ps ∧ run data ps = s.
Proof.
  revert s. apply rtc_ind_r; [by exists []|].
  intros s1 s2 _ Hst (ps & Hps & Hrun). inversion Hst as [s p Hp]; subst.
  exists (ps ++ [p]). split; [apply Forall_app; auto|]. unfold run. by rewrite foldl_app.
Qed.
End app_lemmas.

(** ** Theorems *)

Section app_theorems.
Context `{!SortValues} `{!StudentT} (data : frame).

(** C12: the session refines the abstract page: every reachable state
    is reached by a list of slider positions, and shows what the abstract
    machine [abs_run] over that list promises: the last position, its
    label, and the figure and results of the last position at which the
    analysis returned (none before the first).  By induction on the
    moves, each slide simulating one abstract move. *)
Theorem app_refines s :
  reachable data s → ∃ ps, Forall (λ p, p ∈ slider_values) ps ∧ renders data (abs_run data ps) s.
Proof.
  intros (ps & Hps & <-)%reachable_run. exists ps. split; [done|].
  apply renders_run_from, renders_init.
Qed.

(** When the analysis returns at every position of the slider, every
    state a session reaches shows one percentile throughout: the slider's
    value [p], the label ["p%"], and the figure and fourteen result
    cells of the analysis at [p].  By rule induction on the steps. *)
Theorem app_consistent s :
  (∀ p, p ∈ slider_values → ∃ v, update_analysis data p = Ok v) →
  reachable data s → consistent data s.
Proof.
  intros Hok. revert s. apply rtc_ind_r.
  - rewrite app_init_slide. destruct (Hok 50%Z) as [v Hv]; [decide_goal|].
    apply (consistent_slide data 50%Z v); [decide_goal | done].
  - intros s1 s2 _ Hst _. inversion Hst as [s p Hp]; subst.
    destruct (Hok p Hp) as [v Hv]. by apply (consistent_slide data p v).
Qed.

(** C13: when the analysis raises at the new position, the page goes
    stale: the slider and the label show the new percentile while the
    figure, the group titles and the statistics stay those of the
    previous one.  The failed request leaves its outputs untouched and
    nothing on the page reports the error. *)
Theorem app_stale_view s q v e :
  reachable data s → shows_view s v → q ∈ slider_values → update_analysis data q = Err e →
  reachable data (slide data q s) ∧ shows (slide data q s) slider_input (ONum q) ∧
  shows (slide data q s) label_output (OStr (update_percentile_value q)) ∧
  shows_view (slide data q s) v.
Proof.
  intros Hr Hv Hq He. split_and!.
  - eapply rtc_r; [exact Hr | by constructor].
  - unfold shows. rewrite slide_unfold, (run_callbacks_Err data q e) by done.
    rewrite fire_label_other by apply slider_ne_label. apply dict_get_set_same.
  - unfold shows. rewrite slide_unfold, (run_callbacks_Err data q e) by done. apply fire_label_shows.
  - by apply (shows_view_slide_Err data q e).
Qed.

(** C14: whatever state a session reaches, a "Yes" in a group's
    Significant cell sits under that group's own title for some slider
    position [p], and that group of the split at [p] has two values or
    more of each year and a 2021 mean above its 2019 mean.  Stale pages
    included: the outputs of one analysis are written together. *)
Theorem page_yes_sound s :
  reachable data s →
  (shows s ("top-significant", "children") (OStr "Yes") →
     ∃ p u l, p ∈ slider_values ∧ split_data data p = Ok (u, l) ∧
       shows s ("top-group-title", "children") (OStr (top_label p)) ∧
       mean_q (dropna (cells u he2019_col)) < mean_q (dropna (cells u he2021_col))) ∧
  (shows s ("bottom-significant", "children") (OStr "Yes") →
     ∃ p u l, p ∈ slider_values ∧ split_data data p = Ok (u, l) ∧
       shows s ("bottom-group-title", "children") (OStr (bottom_label p)) ∧
       mean_q (dropna (cells l he2019_col)) < mean_q (dropna (cells l he2021_col))).
Proof.
  intros [Habs|(p & v & Hp & Hv & Hview)]%app_view_coherent.
  - split; intros Hy; unfold shows in Hy; rewrite Habs in Hy by decide_goal; discriminate.
  - destruct (update_analysis_inv _ _ _ Hv) as (u & l & r1 & r2 & Hs & H1 & H2 & Ht1 & Ht2 & Hs1 & _ & Hs2 & _).
    pose proof (shows_view_at _ _ 1 _ _ Hview eq_refl eq_refl) as Htop.
    pose proof (shows_view_at _ _ 4 _ _ Hview eq_refl eq_refl) as Hsig1.
    pose proof (shows_view_at _ _ 8 _ _ Hview eq_refl eq_refl) as Hbot.
    pose proof (shows_view_at _ _ 11 _ _ Hview eq_refl eq_refl) as Hsig2.
    unfold shows in *. rewrite Ht1 in Htop. rewrite Ht2 in Hbot.
    split; intros Hy; exists p, u, l; split_and!; try done.
    + rewrite Hy, Hs1 in Hsig1. destruct (gr_significant r1) eqn:E; [|congruence].
      by eapply analyze_group_flag_means.
    + rewrite Hy, Hs2 in Hsig2. destruct (gr_significant r2) eqn:E; [|congruence].
      by eapply analyze_group_flag_means.
Qed.

(** The reachable states are exactly the states of the sessions,
    the finite lists of slider positions folded over the loaded page:
    [run] is an executable definition of [reachable]. *)
Theorem reachable_iff_run s :
  reachable data s ↔ ∃ ps, Forall (λ p, p ∈ slider_values) ps ∧ run data ps = s.
Proof.
  split; [apply reachable_run|]. intros (ps & Hps & <-). by apply run_from_rtc.
Qed.
End app_theorems.

(** ** Sessions on sample tables *)

(** Forty countries whose health expenditure grows with their GDP: at
    every position of the slider both groups have two values or more of
    each year, with spread. *)
Definition sample_forty : frame := Frame sample_columns
  ((λ i : nat, let q := inject_Z (Z.of_nat i) in
     mk_row [(gdp_col, Some q); (he2019_col, Some q); (he2021_col, Some (2 * q))]) <$> seq 1 40).

Lemma app_consistent_witness :
  (∀ p, p ∈ slider_values → ∃ v, update_analysis sample_forty p = Ok v) ∧
  consistent sample_forty (run sample_forty [95; 5; 35]%Z).
Proof.
  assert (Hok : ∀ p, p ∈ slider_values → ∃ v, update_analysis sample_forty p = Ok v).
  { intros p Hp. apply is_ok_spec. revert p Hp. apply Forall_forall. decide_goal. }
  split; [exact Hok|]. apply (app_consistent sample_forty); [exact Hok|].
  apply run_from_rtc. decide_goal.
Defined.

(** On [sample_sig] the page loads at 50 %; at 95 % the lower group has
    one country and [create_plots] raises, so the label reads "95%"
    while the tables still describe "Top 50%". *)
Lemma app_stale_view_witness :
  reachable sample_sig (slide sample_sig 95 (app_init sample_sig)) ∧
  shows (slide sample_sig 95 (app_init sample_sig)) slider_input (ONum 95) ∧
  shows (slide sample_sig 95 (app_init sample_sig)) label_output (OStr (update_percentile_value 95)) ∧
  shows_view (slide sample_sig 95 (app_init sample_sig)) sample_sig_view ∧
  update_percentile_value 95 = "95%" ∧ gv_title (v_top sample_sig_view) = "Top 50%".
Proof.
  assert (Hv : update_analysis sample_sig 50 = Ok sample_sig_view) by (vm_compute; reflexivity).
  destruct (run_callbacks_Ok sample_sig 50 sample_sig_view (dict_set (prop_key slider_input) (ONum 50) []) Hv)
    as (_ & _ & Hview).
  rewrite <-slide_unfold, <-app_init_slide in Hview.
  destruct (app_stale_view sample_sig (app_init sample_sig) 95 sample_sig_view
              (ValueError "`dataset` input should have multiple elements."))
    as (H1 & H2 & H3 & H4); [apply rtc_refl | exact Hview | decide_goal | vm_compute; reflexivity |].
  split_and!; [exact H1 | exact H2 | exact H3 | exact H4 | reflexivity | vm_compute; reflexivity].
Defined.

(** On [sample_sig] the loaded page flags the Top 50% group. *)
Lemma page_yes_sound_witness :
  shows (app_init sample_sig) ("top-significant", "children") (OStr "Yes") ∧
  ∃ p u l, p ∈ slider_values ∧ split_data sample_sig p = Ok (u, l) ∧
    shows (app_init sample_sig) ("top-group-title", "children") (OStr (top_label p)) ∧
    mean_q (dropna (cells u he2019_col)) < mean_q (dropna (cells u he2021_col)).
Proof.
  assert (Hy : shows (app_init sample_sig) ("top-significant", "children") (OStr "Yes"))
    by (vm_compute; reflexivity).
  destruct (page_yes_sound sample_sig (app_init sample_sig) (rtc_refl _ _)) as [Htop _].
  split; [exact Hy | exact (Htop Hy)].
Defined.

Lemma app_refines_witness :
  ∃ ps, Forall (λ p, p ∈ slider_values) ps ∧ renders sample_sig (abs_run sample_sig ps) (run sample_sig [95; 20]%Z).
Proof. apply app_refines. apply run_from_rtc. decide_goal. Defined.
