(* ===== verification/Renderer.v ===== *)
(** * How Dash propagates a change, and why it stops

    When a property changes in the browser, Dash's renderer sends a
    request for every callback that has it as an [Input]; the outputs
    the requests write are changes in turn, and fire the callbacks that
    have them as inputs, until no change is left.  [propagate] is that
    loop by rounds: a round makes the requests of the triggered
    callbacks in the order of their registration ([round]), and the
    properties they wrote are the changes of the next round.  The loop is
    written with fuel, [None] meaning that the changes have not died
    out.  Dash's semantics here is modelled from its documentation: a
    request reads the inputs from the page, a request that raises
    writes nothing.

    Termination comes from a rank on properties that decreases from every
    input of a callback to each of its outputs ([ranked]): fuel above the
    rank of the changed properties is enough ([propagate_terminates]).
    The app registers two callbacks ([app_callbacks], lines 309-339),
    both on the slider's value, neither writing an input: a slider move
    settles in exactly two rounds, on the state [slide] of [App]
    ([propagate_slide]). *)

From S2P Require Import Prelude Float64 Frame Splitter PyFloat Format Stats TTest Analysis Dashboard Layout App.

(** ** The propagation loop *)

(** A registered callback: its declaration and the Python function,
    from the values of its inputs to the tuple of its outputs. *)
Record callback : Type := Callback {
  cb_spec : callback_spec;
  cb_body : list output_value → result (list output_value)
}.

(** The values of the inputs of a callback on the page. *)
Definition read_inputs (s : store) (cb : callback) : result (list output_value) :=
  mapM (λ io, dict_get s (prop_key io)) (cb_inputs (cb_spec cb)).

(** A callback fires when one of its inputs changed. *)
Definition triggered (changed : list (string * string)) (cb : callback) : bool :=
  bool_decide (Exists (λ io, io ∈ changed) (cb_inputs (cb_spec cb))).

(** One request: the page after it and the properties it wrote. *)
Definition request (cb : callback) (s : store) : store * list (string * string) :=
  match read_inputs s cb ≫= cb_body cb with
  | Ok vals => (write_outputs (cb_outputs (cb_spec cb)) vals s, cb_outputs (cb_spec cb))
  | Err _ => (s, [])
  end.

(** The requests of a round, in the order of registration. *)
Fixpoint round (cbs : list callback) (s : store) : store * list (string * string) :=
  match cbs with
  | [] => (s, [])
  | cb :: cbs' =>
      let '(s1, c1) := request cb s in
      let '(s2, c2) := round cbs' s1 in
      (s2, c1 ++ c2)
  end.

Fixpoint propagate (cbs : list callback) (fuel : nat) (changed : list (string * string)) (s : store) :
    option store :=
  match changed with
  | [] => Some s
  | _ :: _ =>
      match fuel with
      | O => None
      | S fuel' =>
          let '(s', changed') := round (List.filter (triggered changed) cbs) s in
          propagate cbs fuel' changed' s'
      end
  end.

(** A rank on properties that every callback lowers, from each of its
    inputs to each of its outputs: the callback graph has no cycle. *)
Definition ranked (rk : string * string → nat) (cbs : list callback) : Prop :=
  ∀ cb i o, cb ∈ cbs → i ∈ cb_inputs (cb_spec cb) → o ∈ cb_outputs (cb_spec cb) → (rk o < rk i)%nat.

(** ** The callbacks of the app *)

(** Both functions take the slider's value. *)
Definition slider_arg (ins : list output_value) : result Z :=
  match ins with [ONum p] => Ok p | _ => raise (ValueError "percentile") end.

Section app_callbacks.
Context `{!SortValues} `{!StudentT} (data : frame).

(** Lines 309-314 and 317-339: the two registrations. *)
Definition app_callbacks : list callback :=
  [Callback percentile_value_cb (λ ins, p ← slider_arg ins; Ok (percentile_value_outputs p));
   Callback update_analysis_cb
     (λ ins, p ← slider_arg ins; update_analysis_outputs <$> update_analysis data p)].
End app_callbacks.

(** The slider ranks above every output. *)
Definition app_rank (io : string * string) : nat :=
  if decide (io ∈ cb_outputs percentile_value_cb ++ cb_outputs update_analysis_cb) then 0 else 1.

(** ** Lemmas *)

(** A round writes only outputs of the callbacks it runs. *)
Lemma round_changed cbs s o :
  o ∈ (round cbs s).2 → ∃ cb, cb ∈ cbs ∧ o ∈ cb_outputs (cb_spec cb).
Proof.
  revert s. induction cbs as [|cb cbs IH]; intros s; cbn [round]; [by intros ?%not_elem_of_nil|].
  unfold request. destruct (read_inputs s cb ≫= cb_body cb) as [vals|e];
    destruct (round cbs _) as [s2 c2] eqn:E; cbn [snd]; rewrite ?elem_of_app.
  - intros [Ho|Ho]; [exists cb; split; [left|done]|].
    destruct (IH (write_outputs (cb_outputs (cb_spec cb)) vals s)) as (cb' & ? & ?); [by rewrite E|].
    exists cb'. split; [by right|done].
  - intros [[]%not_elem_of_nil|Ho]. destruct (IH s) as (cb' & ? & ?); [by rewrite E|].
    exists cb'. split; [by right|done].
Qed.

Lemma triggered_spec changed cb :
  triggered changed cb = true ↔ ∃ i, i ∈ cb_inputs (cb_spec cb) ∧ i ∈ changed.
Proof. unfold triggered. rewrite bool_decide_eq_true, Exists_exists. naive_solver. Qed.

Lemma propagate_nil cbs fuel s : propagate cbs fuel [] s = Some s.
Proof. by destruct fuel. Qed.

#[export] Hint Rewrite propagate_nil : gdp_rw.

(** A round triggered by a change the app's callbacks do not read runs
    nothing. *)
Lemma filter_untriggered `{!SortValues} `{!StudentT} data changed :
  slider_input ∉ changed → List.filter (triggered changed) (app_callbacks data) = [].
Proof.
  intros Hs.
  assert (Hf : ∀ cb, cb_inputs (cb_spec cb) = [slider_input] → triggered changed cb = false).
  { intros cb Hin. apply not_true_iff_false. rewrite triggered_spec, Hin.
    by intros (i & ->%list_elem_of_singleton & ?). }
  unfold app_callbacks. cbn [List.filter]. by rewrite !Hf.
Qed.

Lemma read_inputs_slider cb s v :
  cb_inputs (cb_spec cb) = [slider_input] → dict_get s (prop_key slider_input) = Ok v →
  read_inputs s cb = Ok [v].
Proof. intros Hin Hv. unfold read_inputs. rewrite Hin, mapM_result_cons, Hv. reflexivity. Qed.

Lemma app_ranked `{!SortValues} `{!StudentT} data : ranked app_rank (app_callbacks data).
Proof.
  intros cb i o Hcb Hi Ho. unfold app_callbacks in Hcb.
  repeat (apply elem_of_cons in Hcb as [->|Hcb]); [..|by apply not_elem_of_nil in Hcb];
    cbn [cb_spec cb_inputs percentile_value_cb update_analysis_cb] in Hi;
    apply list_elem_of_singleton in Hi as ->;
    unfold app_rank at 1; rewrite decide_True by set_solver; vm_compute; lia.
Qed.

Section app_rounds.
Context `{!SortValues} `{!StudentT} (data : frame).

(** The first round after a slider move runs both callbacks: it is
    [run_callbacks], and writes the label and, when the analysis returns,
    its fifteen outputs. *)
Lemma round_app p s0 :
  dict_get s0 (prop_key slider_input) = Ok (ONum p) →
  round (app_callbacks data) s0 =
    (run_callbacks data p s0,
     cb_outputs percentile_value_cb ++
       ((if is_ok (update_analysis data p) then cb_outputs update_analysis_cb else []) ++ [])).
Proof.
  intros Hs. unfold app_callbacks. cbn [round]. unfold request at 1.
  rewrite (read_inputs_slider (Callback percentile_value_cb _) _ _ eq_refl Hs). cbn [mbind result_bind cb_body slider_arg cb_spec].
  set (s1 := write_outputs (cb_outputs percentile_value_cb) (percentile_value_outputs p) s0).
  assert (Hs1 : dict_get s1 (prop_key slider_input) = Ok (ONum p)).
  { unfold s1. rewrite (fire_label_other p s0) by apply slider_ne_label. exact Hs. }
  unfold request. rewrite (read_inputs_slider (Callback update_analysis_cb _) _ _ eq_refl Hs1). cbn [mbind result_bind cb_body slider_arg cb_spec].
  unfold run_callbacks. destruct (update_analysis data p); reflexivity.
Qed.
End app_rounds.

(** ** Theorems *)

(** Propagation stops.  When a rank on properties decreases from every
    input of a callback to each of its outputs, fuel above the rank of
    every changed property is enough for the changes to die out:
    [propagate] returns a page. *)
Lemma propagate_terminates cbs rk fuel changed s :
  ranked rk cbs → (∀ io, io ∈ changed → rk io < fuel)%nat →
  ∃ s', propagate cbs fuel changed s = Some s'.
Proof.
  intros Hrk. revert changed s. induction fuel as [|fuel IH]; intros changed s Hch;
    (destruct changed as [|io changed']; [by eexists|]).
  - specialize (Hch io ltac:(left)). lia.
  - cbn [propagate]. set (fired := List.filter (triggered (io :: changed')) cbs).
    destruct (round fired s) as [s' c'] eqn:E. apply IH. intros o Ho.
    destruct (round_changed fired s o) as (cb & Hcb & Hout); [by rewrite E|].
    apply list_elem_of_In, filter_In in Hcb as [Hcb Htr%triggered_spec].
    apply list_elem_of_In in Hcb. destruct Htr as (i & Hi & Hich).
    specialize (Hrk cb i o Hcb Hi Hout). specialize (Hch i Hich). lia.
Qed.

Section app_theorems.
Context `{!SortValues} `{!StudentT} (data : frame).

(** C17: the app's callbacks never cascade without end.  Whatever
    properties change on whatever page, Dash's propagation over the two
    registrations of lines 309-339 settles within two rounds: neither
    callback writes a property that one of them reads. *)
Theorem app_propagate_terminates changed s :
  ∃ s', propagate (app_callbacks data) 2 changed s = Some s'.
Proof.
  apply (propagate_terminates _ app_rank); [apply app_ranked|].
  intros io _. unfold app_rank. case_decide; lia.
Qed.

(** C16: a move of the slider settles in exactly two rounds: the first
    runs both callbacks, the second finds no callback reading what they
    wrote.  With two rounds of fuel or more the page is [slide p s], the
    state the session model of [App] steps to; with one round the
    changes have not died out. *)
Theorem propagate_slide s p fuel :
  (2 ≤ fuel)%nat →
  propagate (app_callbacks data) fuel [slider_input] (dict_set (prop_key slider_input) (ONum p) s) =
    Some (slide data p s) ∧
  propagate (app_callbacks data) 1 [slider_input] (dict_set (prop_key slider_input) (ONum p) s) = None.
Proof.
  intros Hf. set (s0 := dict_set (prop_key slider_input) (ONum p) s).
  assert (Hs0 : dict_get s0 (prop_key slider_input) = Ok (ONum p)) by apply dict_get_set_same.
  assert (Hfil : List.filter (triggered [slider_input]) (app_callbacks data) = app_callbacks data)
    by reflexivity.
  destruct fuel as [|[|fuel]]; [lia | lia |]. split; cbn [propagate]; rewrite Hfil, (round_app data p s0 Hs0).
  - cbn [propagate app].
    rewrite (filter_untriggered data) by (destruct (is_ok _); decide_goal).
    cbn [round]. by rewrite propagate_nil, slide_unfold.
  - reflexivity.
Qed.
End app_theorems.

(** ** The app's propagation on a sample table *)

Lemma propagate_slide_witness :
  propagate (app_callbacks sample_sig) 3 [slider_input]
    (dict_set (prop_key slider_input) (ONum 95) (app_init sample_sig)) =
    Some (slide sample_sig 95 (app_init sample_sig)) ∧
  propagate (app_callbacks sample_sig) 1 [slider_input]
    (dict_set (prop_key slider_input) (ONum 95) (app_init sample_sig)) = None.
Proof. apply propagate_slide. lia. Defined.
